(** * Olist category analytics: a shallow embedding of the pandas pipeline

    The development follows the four Python modules of the repository:
    [category_mapper.py] (class [CategoryMapper]), [data_loader.py]
    (class [OlistDataLoader]), [analyzer.py] (class [OlistAnalyzer]) and the
    call sequence of [main.py].

    Modelling conventions.
    - A DataFrame is the list of its rows, in row order; each table has its own
      record type, declared in a module named after the table so that the
      column names of the source can be kept.
    - A nullable text cell is [option string]; [None] is pandas' NaN/None.
    - A string is a byte string and stands for a Python string of ASCII
      characters: [str.title] is modelled on ASCII text only ([is_ascii]).
    - Prices and every finite number derived from them are exact rationals
      ([Q]): neither the rounding of binary floating point nor its overflow
      (a sum beyond about 1.8e308 is inf) is modelled.  The result of a
      division, which pandas never guards, lives in [num], which adds the
      IEEE values NaN and the two infinities.
    - The identifier and price columns have no missing cell; the category
      columns and the two timestamps of an order may have.
    - Python exceptions are the constructors of [exc]; code that can raise
      runs in the error monad [result].
    - Dictionaries with string keys (an object's [__dict__], the [datasets]
      dictionary, the files on disk) are [gmap string _]. *)

From Stdlib Require Import ZArith QArith Qminmax Lia Lqa List Sorted Bool Ascii String.
From stdpp Require Import base option list gmap strings.
Import ListNotations.

Local Open Scope string_scope.

(** ** Exceptions and the error monad *)

Inductive exc : Type :=
| AttributeError (attr : string)
| KeyError (key : string)
| TypeError
| FileNotFoundError (path : string)
| NotImplementedError.

Inductive result (A : Type) : Type :=
| Ok (a : A)
| Raise (e : exc).

Arguments Ok {A} a.
Arguments Raise {A} e.

Definition bind {A B : Type} (c : result A) (k : A -> result B) : result B :=
  match c with
  | Ok a => k a
  | Raise e => Raise e
  end.

Notation "'let*' x ':=' c 'in' k" := (bind c (fun x => k))
  (at level 10, x name, c at level 100, k at level 200, only parsing).

Notation "'let*' ( x , y ) ':=' c 'in' k" :=
  (bind c (fun p => match p with (x, y) => k end))
  (at level 10, x name, y name, c at level 100, k at level 200, only parsing).

Definition raises {A : Type} (c : result A) : Prop :=
  match c with
  | Ok _ => False
  | Raise _ => True
  end.

(** ** Cells and Python string methods *)

(** A text cell of a DataFrame; [None] stands for NaN. *)
Definition cell : Type := option string.

(** [pd.notna]. *)
Definition notna {A : Type} (x : option A) : bool :=
  match x with
  | Some _ => true
  | None => false
  end.

(** Elementwise [==] of a column against a value: NaN equals nothing, not
    even NaN. *)
Definition cell_eqb (a b : cell) : bool :=
  match a, b with
  | Some x, Some y => bool_decide (x = y)
  | _, _ => false
  end.

Definition is_upper (c : ascii) : bool :=
  (65 <=? nat_of_ascii c)%nat && (nat_of_ascii c <=? 90)%nat.

Definition is_lower (c : ascii) : bool :=
  (97 <=? nat_of_ascii c)%nat && (nat_of_ascii c <=? 122)%nat.

(** The strings of the model are byte strings and stand for the Python
    strings all of whose characters are ASCII (the category labels of the
    data set are).  [str.title] follows the Unicode case tables; the casing
    functions below are those tables on ASCII, and say nothing of a string
    for which [is_ascii] is false. *)
Definition is_ascii_char (c : ascii) : bool := (nat_of_ascii c <? 128)%nat.

Fixpoint is_ascii (s : string) : bool :=
  match s with
  | EmptyString => true
  | String c s' => is_ascii_char c && is_ascii s'
  end.

(** A cased character: on ASCII text, a letter. *)
Definition is_cased (c : ascii) : bool := is_upper c || is_lower c.

Definition upper (c : ascii) : ascii :=
  if is_lower c then ascii_of_nat (nat_of_ascii c - 32) else c.

Definition lower (c : ascii) : ascii :=
  if is_upper c then ascii_of_nat (nat_of_ascii c + 32) else c.

(** [str.title] on ASCII text: one pass with the flag [previous_is_cased]; a
    character that follows a cased one is lowercased, any other is
    titlecased.  On text that is not ASCII Python consults the Unicode
    tables (there a character may even become two), which the model does
    not have: it leaves the bytes above 127 alone. *)
Fixpoint title_from (previous_is_cased : bool) (s : string) : string :=
  match s with
  | EmptyString => EmptyString
  | String c s' =>
      String (if previous_is_cased then lower c else upper c)
             (title_from (is_cased c) s')
  end.

Definition title (s : string) : string := title_from false s.

(** [str.replace(old, new)] for one-character [old] and [new]. *)
Fixpoint replace (old new : ascii) (s : string) : string :=
  match s with
  | EmptyString => EmptyString
  | String c s' =>
      String (if bool_decide (c = old) then new else c) (replace old new s')
  end.

(** ** Table schemas *)

(** [product_category_name_translation.csv]. *)
Module CategoriesDF.
Record row : Type := mk {
  product_category_name : cell;
  product_category_name_english : cell
}.
End CategoriesDF.

(** The persisted mapping table, [category_mapping.xlsx].  A table that
    [create_initial_mapping] builds has a canonical label in every row; a
    table read from a workbook may have a missing cell in any column. *)
Module MappingDF.
Record row : Type := mk {
  original_portuguese_category : cell;
  english_translation : cell;
  normalized_category : cell
}.
End MappingDF.

(** [olist_products_dataset.csv]. *)
Module ProductsDF.
Record row : Type := mk {
  product_id : string;
  product_category_name : cell
}.
End ProductsDF.

(** The result of [prepare_product_categories]: products with the translation
    columns and the canonical category attached; the canonical category is
    what the lookup in the mapping returned, a missing cell included. *)
Module ProductCategoriesDF.
Record row : Type := mk {
  product_id : string;
  product_category_name : cell;
  product_category_name_english : cell;
  normalized_category : cell
}.
End ProductCategoriesDF.

#[global] Instance CategoriesDF_row_eq_dec : EqDecision CategoriesDF.row.
Proof. solve_decision. Defined.

#[global] Instance MappingDF_row_eq_dec : EqDecision MappingDF.row.
Proof. solve_decision. Defined.

(** ** [DataFrame.drop_duplicates] and [DataFrame.merge] *)

(** [drop_duplicates()] with its defaults: all columns are compared (missing
    cells compare equal), the first occurrence of a row is kept. *)
Fixpoint drop_duplicates_from {A : Type} `{EqDecision A}
    (seen : list A) (df : list A) : list A :=
  match df with
  | [] => []
  | r :: df' =>
      if bool_decide (r ∈ seen) then drop_duplicates_from seen df'
      else r :: drop_duplicates_from (r :: seen) df'
  end.

Definition drop_duplicates {A : Type} `{EqDecision A} (df : list A) : list A :=
  drop_duplicates_from [] df.

(** [left.merge(right, on=key, how='left')]: every left row is paired with
    each right row of the same key, in the order of the right table; a left
    row with no partner is kept once, with the right columns missing. *)
Definition merge_left {L R K O : Type} (same : K -> K -> bool)
    (lkey : L -> K) (rkey : R -> K) (pair : L -> option R -> O)
    (left : list L) (right : list R) : list O :=
  flat_map (fun l =>
    match List.filter (fun r => same (lkey l) (rkey r)) right with
    | [] => [pair l None]
    | rs => List.map (fun r => pair l (Some r)) rs
    end) left.

(** [left.merge(right, on=key)] ([how='inner']): as above, but a left row with
    no partner is dropped. *)
Definition merge_inner {L R K O : Type} (same : K -> K -> bool)
    (lkey : L -> K) (rkey : R -> K) (pair : L -> R -> O)
    (left : list L) (right : list R) : list O :=
  flat_map (fun l =>
    List.map (pair l) (List.filter (fun r => same (lkey l) (rkey r)) right)) left.

(** Join keys are compared as values; unlike [==], a merge pairs a missing key
    with a missing key. *)
Definition same_cell (a b : cell) : bool := bool_decide (a = b).

Definition same_string (a b : string) : bool := bool_decide (a = b).

(** ** Numbers *)

(** A float as pandas shows it: a finite value, or one of the IEEE specials
    that an unguarded division produces. *)
Inductive num : Type :=
| Fin (q : Q)
| PInf
| NInf
| NaN.

Definition Qltb (x y : Q) : bool := negb (Qle_bool y x).

(** The infinity of the sign of [x]; NaN for zero. *)
Definition signed_inf (x : Q) : num :=
  if Qeq_bool x 0 then NaN else if Qltb 0 x then PInf else NInf.

Definition num_neg (a : num) : num :=
  match a with
  | Fin q => Fin (- q)
  | PInf => NInf
  | NInf => PInf
  | NaN => NaN
  end.

(** Float division: [x / 0] is an infinity of the sign of [x], [0 / 0] is
    NaN; no exception is raised. *)
Definition num_div (a b : num) : num :=
  match a, b with
  | NaN, _ | _, NaN => NaN
  | Fin x, Fin y => if Qeq_bool y 0 then signed_inf x else Fin (x / y)
  | Fin _, _ => Fin 0
  | PInf, Fin y => if Qltb y 0 then NInf else PInf
  | NInf, Fin y => if Qltb y 0 then PInf else NInf
  | _, _ => NaN
  end.

Definition num_mul (a b : num) : num :=
  match a, b with
  | NaN, _ | _, NaN => NaN
  | Fin x, Fin y => Fin (x * y)
  | Fin x, PInf | PInf, Fin x => signed_inf x
  | Fin x, NInf | NInf, Fin x => num_neg (signed_inf x)
  | PInf, PInf | NInf, NInf => PInf
  | PInf, NInf | NInf, PInf => NInf
  end.

Definition num_add (a b : num) : num :=
  match a, b with
  | NaN, _ | _, NaN => NaN
  | Fin x, Fin y => Fin (x + y)
  | PInf, NInf | NInf, PInf => NaN
  | PInf, _ | _, PInf => PInf
  | NInf, _ | _, NInf => NInf
  end.

Definition is_finite (a : num) : bool :=
  match a with
  | Fin _ => true
  | _ => false
  end.

(** An integer column value used in float arithmetic. *)
Definition float_of_count (n : nat) : Q := inject_Z (Z.of_nat n).

(** [Series.sum()] of a column of finite values; the sum of no value is 0.
    The sum is the exact one: the float64 sum of pandas rounds, and is inf
    when it overflows. *)
Definition Series_sum (values : list Q) : Q := fold_right Qplus 0%Q values.

(** [Series.sum()] of a float column: missing values are skipped. *)
Definition Series_sum_skipna (values : list num) : num :=
  fold_right
    (fun v acc => match v with NaN => acc | _ => num_add v acc end)
    (Fin 0) values.

(** [Series.mean()] of a column of finite values; NaN for no value. *)
Definition Series_mean (values : list Q) : num :=
  match values with
  | [] => NaN
  | _ => Fin (Series_sum values / float_of_count (length values))
  end.

(** [Series.max()] of an integer column; NaN for no value. *)
Definition Series_max (values : list nat) : num :=
  match values with
  | [] => NaN
  | v :: rest => Fin (float_of_count (fold_right Nat.max v rest))
  end.

(** ** More table schemas *)

(** [olist_order_items_dataset.csv]. *)
Module ItemsDF.
Record row : Type := mk {
  order_item_id : Z;
  order_id : string;
  product_id : string;
  price : Q
}.
End ItemsDF.

(** [olist_orders_dataset.csv].  The two timestamp columns are held as
    [pd.to_datetime] leaves them, in seconds; [None] is NaT. *)
Module OrdersDF.
Record row : Type := mk {
  order_id : string;
  order_purchase_timestamp : option Z;
  order_delivered_customer_date : option Z
}.
End OrdersDF.

(** [sales_data]: the items with the category column of the products. *)
Module SalesDF.
Record row : Type := mk {
  item : ItemsDF.row;
  normalized_category : cell
}.
End SalesDF.

(** The table [calculate_category_metrics] returns. *)
Module MetricsDF.
Record row : Type := mk {
  normalized_category : string;
  total_sales : nat;
  total_revenue : Q;
  avg_ticket : Q;
  product_diversity : nat;
  revenue_share : num;
  revenue_rank : Q
}.
End MetricsDF.

(** The table [analyze_average_ticket] returns. *)
Module TicketDF.
Record row : Type := mk {
  normalized_category : string;
  avg_ticket : Q;
  total_sales : nat;
  ticket_rank : Q;
  relative_to_mean : num
}.
End TicketDF.

(** The table [analyze_category_popularity] returns. *)
Module PopularityDF.
Record row : Type := mk {
  normalized_category : string;
  total_sales : nat;
  revenue_share : num;
  product_diversity : nat;
  sales_share : num;
  popularity_score : num
}.
End PopularityDF.

(** The table [analyze_sales_by_month] returns; [order_id] holds the count and
    [price] the sum of the bucket. *)
Module MonthlyDF.
Record row : Type := mk {
  month_year : Z;
  normalized_category : string;
  order_id : nat;
  price : Q
}.
End MonthlyDF.

(** The table [analyze_delivery_metrics] returns: the four aggregates of
    [delivery_time] ([None] is NaN) and the count of [order_id]. *)
Module DeliveryDF.
Record row : Type := mk {
  normalized_category : string;
  delivery_time_mean : option Q;
  delivery_time_std : option Q;
  delivery_time_min : option Q;
  delivery_time_max : option Q;
  order_id : nat
}.
End DeliveryDF.

(** ** [groupby], [sort_values], [rank] *)

(** The group keys of [groupby(col)]: the distinct non-missing values of the
    column, in increasing order.  Rows whose key is missing belong to no
    group ([dropna=True] is the default). *)
Fixpoint insert_key {K : Type} (ltb : K -> K -> bool) (k : K) (keys : list K)
    : list K :=
  match keys with
  | [] => [k]
  | h :: t => if ltb k h then k :: keys else h :: insert_key ltb k t
  end.

Definition add_key {K : Type} `{EqDecision K} (ltb : K -> K -> bool)
    (c : option K) (keys : list K) : list K :=
  match c with
  | Some k => if bool_decide (k ∈ keys) then keys else insert_key ltb k keys
  | None => keys
  end.

Definition group_keys {K : Type} `{EqDecision K} (ltb : K -> K -> bool)
    (column : list (option K)) : list K :=
  fold_right (add_key ltb) [] column.

(** The rows of the group of key [k]. *)
Definition group_rows {A K : Type} `{EqDecision K} (key : A -> option K)
    (k : K) (df : list A) : list A :=
  List.filter (fun r => bool_decide (key r = Some k)) df.

(** [nunique]: the number of distinct values. *)
Definition nunique {A : Type} `{EqDecision A} (values : list A) : nat :=
  length (drop_duplicates values).

(** [sort_values(col, ascending=False)]: [after x h] says that [x] sorts
    after [h].  Rows of equal key keep their order here; pandas' default
    quicksort promises no order among them. *)
Fixpoint insert_sorted {A : Type} (after : A -> A -> bool) (x : A) (l : list A)
    : list A :=
  match l with
  | [] => [x]
  | h :: t => if after x h then h :: insert_sorted after x t else x :: l
  end.

Definition sort_values {A : Type} (after : A -> A -> bool) (df : list A)
    : list A :=
  fold_right (insert_sorted after) [] df.

(** Descending order of a finite column. *)
Definition desc {A : Type} (key : A -> Q) (x h : A) : bool :=
  Qltb (key x) (key h).

(** Descending order of a float column, missing values last. *)
Definition desc_num {A : Type} (key : A -> num) (x h : A) : bool :=
  match key x, key h with
  | NaN, NaN => false
  | NaN, _ => true
  | _, NaN => false
  | NInf, NInf => false
  | NInf, _ => true
  | _, NInf => false
  | PInf, _ => false
  | Fin _, PInf => true
  | Fin a, Fin b => Qltb a b
  end.

(** The 1-based places, counted from [start], at which [v] stands in
    [sorted]. *)
Fixpoint positions_from (start : nat) (v : Q) (sorted : list Q) : list nat :=
  match sorted with
  | [] => []
  | h :: t =>
      if Qeq_bool h v then start :: positions_from (S start) v t
      else positions_from (S start) v t
  end.

(** [Series.rank(ascending=False)] with the default [method='average']: the
    values are sorted in decreasing order and a value gets the mean of the
    places its occurrences take. *)
Definition rank_descending (values : list Q) (v : Q) : Q :=
  let places := positions_from 1 v (sort_values (desc (fun x => x)) values) in
  (float_of_count (fold_right Nat.add 0%nat places)
   / float_of_count (length places))%Q.

(** ** [category_mapper.py] *)

(** The classes are modelled over any workbook format: [xlsx] is the content
    of a workbook file, [to_excel] and [read_excel] are
    [DataFrame.to_excel(file, index=False)] and [pd.read_excel(file)] on the
    mapping table.  The format as pandas writes and reads it, [workbook]
    with [write_workbook] and [read_workbook], follows the section. *)
Section Pipeline.

Variable xlsx : Type.
Variable to_excel : list MappingDF.row -> xlsx.
Variable read_excel : xlsx -> list MappingDF.row.

(** Two functions of pandas and numpy that the analyzer calls and the model
    does not spell out: the square root behind [std], and
    [dt.to_period('M')], which sends a timestamp to the index of its calendar
    month. *)
Variable fsqrt : Q -> Q.
Variable to_period_M : Z -> Z.

(** The files on disk are a map from paths to contents; [os.path.exists] is
    definedness. *)
Definition path_exists (fs : gmap string xlsx) (path : string) : bool :=
  bool_decide (is_Some (fs !! path)).

Record CategoryMapper : Type := mkCategoryMapper {
  mapping_file : string;
  mapping_df : option (list MappingDF.row)
}.

(** [CategoryMapper.__init__]. *)
Definition CategoryMapper__init__ (mapping_file : string) : CategoryMapper :=
  {| mapping_file := mapping_file; mapping_df := None |}.

(** The lambda of [create_initial_mapping]:
    [str(x).title().replace(' ', '_') if pd.notna(x) else 'Unknown']. *)
Definition normalize_label (x : cell) : string :=
  match x with
  | Some s => replace " "%char "_"%char (title s)
  | None => "Unknown"
  end.

(** [save_mapping]: writes the table when there is one. *)
Definition save_mapping (fs : gmap string xlsx) (self : CategoryMapper)
    : gmap string xlsx :=
  match mapping_df self with
  | Some df => <[mapping_file self := to_excel df]> fs
  | None => fs
  end.

(** The frame built from [mapping_data], one row per row of [categories_df]. *)
Definition mapping_data (categories_df : list CategoriesDF.row)
    : list MappingDF.row :=
  List.map (fun r =>
    {| MappingDF.original_portuguese_category :=
         CategoriesDF.product_category_name r;
       MappingDF.english_translation :=
         CategoriesDF.product_category_name_english r;
       MappingDF.normalized_category :=
         Some (normalize_label (CategoriesDF.product_category_name_english r)) |})
    categories_df.

(** [create_initial_mapping]: builds the table, drops duplicate rows, saves. *)
Definition create_initial_mapping (fs : gmap string xlsx)
    (self : CategoryMapper) (categories_df : list CategoriesDF.row)
    : gmap string xlsx * CategoryMapper :=
  let self' :=
    {| mapping_file := mapping_file self;
       mapping_df := Some (drop_duplicates (mapping_data categories_df)) |} in
  (save_mapping fs self', self').

(** [load_mapping]. *)
Definition load_mapping (fs : gmap string xlsx) (self : CategoryMapper)
    : result CategoryMapper :=
  match fs !! mapping_file self with
  | Some file =>
      Ok {| mapping_file := mapping_file self;
            mapping_df := Some (read_excel file) |}
  | None => Raise (FileNotFoundError (mapping_file self))
  end.

(** The boolean-mask selection and [iloc[0]] of [get_normalized_category]. *)
Definition lookup_mapping (df : list MappingDF.row) (portuguese_category : cell)
    : cell :=
  match List.filter
          (fun r => cell_eqb (MappingDF.original_portuguese_category r)
                             portuguese_category) df with
  | r :: _ => MappingDF.normalized_category r
  | [] => Some "Unknown"
  end.

(** [get_normalized_category]: loads the table on first use. *)
Definition get_normalized_category (fs : gmap string xlsx)
    (self : CategoryMapper) (portuguese_category : cell)
    : result (cell * CategoryMapper) :=
  let* self1 :=
    match mapping_df self with
    | None => load_mapping fs self
    | Some _ => Ok self
    end in
  match mapping_df self1 with
  | Some df => Ok (lookup_mapping df portuguese_category, self1)
  | None => Raise TypeError
  end.

(** The table a mapper works with: the one in memory, else the one on disk. *)
Definition available_mapping (fs : gmap string xlsx) (self : CategoryMapper)
    : option (list MappingDF.row) :=
  match mapping_df self with
  | Some df => Some df
  | None => read_excel <$> (fs !! mapping_file self)
  end.

(** ** [data_loader.py] *)

(** The tables [load_data] reads; a table none of whose columns is used
    (sellers) is [OtherTable]. *)
Inductive RawTable : Type :=
| ProductsTable (df : list ProductsDF.row)
| CategoriesTable (df : list CategoriesDF.row)
| OtherTable.

Record OlistDataLoader : Type := mkOlistDataLoader {
  data_path : string;
  datasets : gmap string RawTable;
  category_mapper : CategoryMapper
}.

(** [OlistDataLoader.__init__]. *)
Definition OlistDataLoader__init__ (data_path mapping_file : string)
    : OlistDataLoader :=
  {| data_path := data_path;
     datasets := ∅;
     category_mapper := CategoryMapper__init__ mapping_file |}.

(** [self.datasets[key]] read as the products table, as the categories table. *)
Definition products_of (datasets : gmap string RawTable) (key : string)
    : result (list ProductsDF.row) :=
  match datasets !! key with
  | Some (ProductsTable df) => Ok df
  | _ => Raise (KeyError key)
  end.

Definition categories_of (datasets : gmap string RawTable) (key : string)
    : result (list CategoriesDF.row) :=
  match datasets !! key with
  | Some (CategoriesTable df) => Ok df
  | _ => Raise (KeyError key)
  end.

(** [products_df.merge(categories_df, on='product_category_name', how='left')]. *)
Definition merge_products_categories (products_df : list ProductsDF.row)
    (categories_df : list CategoriesDF.row)
    : list (ProductsDF.row * cell) :=
  merge_left same_cell
    ProductsDF.product_category_name CategoriesDF.product_category_name
    (fun p c =>
       (p, match c with
           | Some c => CategoriesDF.product_category_name_english c
           | None => None
           end))
    products_df categories_df.

(** [merged_df['product_category_name'].apply(get_normalized_category)]: one
    call per row, on the same mapper object. *)
Fixpoint apply_get_normalized_category (fs : gmap string xlsx)
    (mapper : CategoryMapper) (merged_df : list (ProductsDF.row * cell))
    : result (list ProductCategoriesDF.row * CategoryMapper) :=
  match merged_df with
  | [] => Ok ([], mapper)
  | (p, english) :: rest =>
      let* (normalized, mapper1) :=
        get_normalized_category fs mapper (ProductsDF.product_category_name p) in
      let* (rows, mapper2) := apply_get_normalized_category fs mapper1 rest in
      Ok ({| ProductCategoriesDF.product_id := ProductsDF.product_id p;
             ProductCategoriesDF.product_category_name :=
               ProductsDF.product_category_name p;
             ProductCategoriesDF.product_category_name_english := english;
             ProductCategoriesDF.normalized_category := normalized |} :: rows,
          mapper2)
  end.

(** [prepare_product_categories]: returns the merged table, with the files
    and the loader as the call leaves them. *)
Definition prepare_product_categories (fs : gmap string xlsx)
    (self : OlistDataLoader)
    : result (list ProductCategoriesDF.row * gmap string xlsx * OlistDataLoader) :=
  let* products_df := products_of (datasets self) "products" in
  let* categories_df := categories_of (datasets self) "categories" in
  let* (fs1, mapper1) :=
    if negb (path_exists fs (mapping_file (category_mapper self)))
    then Ok (create_initial_mapping fs (category_mapper self) categories_df)
    else let* m := load_mapping fs (category_mapper self) in Ok (fs, m) in
  let merged_df := merge_products_categories products_df categories_df in
  let* (rows, mapper2) := apply_get_normalized_category fs1 mapper1 merged_df in
  Ok (rows, fs1,
      {| data_path := data_path self;
         datasets := datasets self;
         category_mapper := mapper2 |}).

(** ** [analyzer.py] *)

(** The frames an analyzer object can hold. *)
Inductive DataFrame : Type :=
| ProductCategories (df : list ProductCategoriesDF.row)
| Items (df : list ItemsDF.row)
| Orders (df : list OrdersDF.row).

(** The values of an object's attributes. *)
Inductive pyval : Type :=
| FrameV (df : DataFrame)
| StrV (s : string)
| DictV (d : gmap string DataFrame).

(** [self.name]: a lookup in the instance dictionary. *)
Definition getattr (self : gmap string pyval) (name : string) : result pyval :=
  match self !! name with
  | Some v => Ok v
  | None => Raise (AttributeError name)
  end.

(** [OlistAnalyzer.__init__]: three assignments to [self]; creating the
    report directory touches no attribute. *)
Definition OlistAnalyzer__init__ (products_df : list ProductCategoriesDF.row)
    (items_df : list ItemsDF.row) (output_dir : string) : gmap string pyval :=
  <["output_dir" := StrV output_dir]>
    (<["items_df" := FrameV (Items items_df)]>
       (<["products_df" := FrameV (ProductCategories products_df)]> ∅)).

(** Column selections: a frame without the selected columns raises
    [KeyError], a value that is no frame [TypeError]. *)
Definition items_columns (v : pyval) : result (list ItemsDF.row) :=
  match v with
  | FrameV (Items df) => Ok df
  | FrameV _ => Raise (KeyError "product_id")
  | _ => Raise TypeError
  end.

Definition product_columns (v : pyval) : result (list ProductCategoriesDF.row) :=
  match v with
  | FrameV (ProductCategories df) => Ok df
  | FrameV _ => Raise (KeyError "normalized_category")
  | _ => Raise TypeError
  end.

Definition orders_columns (v : pyval) : result (list OrdersDF.row) :=
  match v with
  | DictV d =>
      match d !! "orders" with
      | Some (Orders df) => Ok df
      | Some _ => Raise (KeyError "order_purchase_timestamp")
      | None => Raise (KeyError "orders")
      end
  | _ => Raise TypeError
  end.

(** [items_df.merge(products_df[['product_id', 'normalized_category']],
    on='product_id', how='left')]. *)
Definition sales_data_left (items_df : list ItemsDF.row)
    (products_df : list ProductCategoriesDF.row) : list SalesDF.row :=
  merge_left same_string ItemsDF.product_id ProductCategoriesDF.product_id
    (fun i p =>
       {| SalesDF.item := i;
          SalesDF.normalized_category :=
            match p with
            | Some p => ProductCategoriesDF.normalized_category p
            | None => None
            end |})
    items_df products_df.

(** The same merge without [how]: an inner join. *)
Definition sales_data_inner (items_df : list ItemsDF.row)
    (products_df : list ProductCategoriesDF.row) : list SalesDF.row :=
  merge_inner same_string ItemsDF.product_id ProductCategoriesDF.product_id
    (fun i p =>
       {| SalesDF.item := i;
          SalesDF.normalized_category :=
            ProductCategoriesDF.normalized_category p |})
    items_df products_df.

Definition sale_price (r : SalesDF.row) : Q := ItemsDF.price (SalesDF.item r).

Definition sale_product (r : SalesDF.row) : string :=
  ItemsDF.product_id (SalesDF.item r).

(** [groupby('normalized_category').agg(...)] followed by [reset_index] and
    the renaming of the columns: one row per group, before the two derived
    columns are added. *)
Definition base_metrics (sales_data : list SalesDF.row)
    : list (string * nat * Q * Q * nat) :=
  List.map (fun k =>
    let g := group_rows SalesDF.normalized_category k sales_data in
    (k,
     length g,
     Series_sum (List.map sale_price g),
     (Series_sum (List.map sale_price g) / float_of_count (length g))%Q,
     nunique (List.map sale_product g)))
    (group_keys String.ltb (List.map SalesDF.normalized_category sales_data)).

Definition base_revenue (m : string * nat * Q * Q * nat) : Q :=
  match m with (_, _, revenue, _, _) => revenue end.

(** A row of the metrics table: the base columns with [revenue_share] and
    [revenue_rank], both computed from the whole [total_revenue] column. *)
Definition metrics_row (revenues : list Q) (m : string * nat * Q * Q * nat)
    : MetricsDF.row :=
  match m with
  | (category, sales, revenue, ticket, diversity) =>
      {| MetricsDF.normalized_category := category;
         MetricsDF.total_sales := sales;
         MetricsDF.total_revenue := revenue;
         MetricsDF.avg_ticket := ticket;
         MetricsDF.product_diversity := diversity;
         MetricsDF.revenue_share :=
           num_mul (num_div (Fin revenue) (Fin (Series_sum revenues))) (Fin 100);
         MetricsDF.revenue_rank := rank_descending revenues revenue |}
  end.

(** The body of [calculate_category_metrics] on the two frames. *)
Definition category_metrics (items_df : list ItemsDF.row)
    (products_df : list ProductCategoriesDF.row) : list MetricsDF.row :=
  let sales_data := sales_data_left items_df products_df in
  let metrics := base_metrics sales_data in
  let revenues := List.map base_revenue metrics in
  sort_values (desc MetricsDF.total_revenue)
    (List.map (metrics_row revenues) metrics).

(** [calculate_category_metrics]. *)
Definition calculate_category_metrics (self : gmap string pyval)
    : result (list MetricsDF.row) :=
  let* items := getattr self "items_df" in
  let* items_df := items_columns items in
  let* products := getattr self "products_df" in
  let* products_df := product_columns products in
  Ok (category_metrics items_df products_df).

(** [DataFrame.head(n)]: the first [n] rows; for a negative [n], all rows but
    the last [-n]. *)
Definition head_rows {A : Type} (n : Z) (df : list A) : list A :=
  if (0 <=? n)%Z then firstn (Z.to_nat n) df
  else firstn (length df - Z.to_nat (- n)) df.

(** [plot_category_distribution]: the two bar charts that are saved, each as
    the list of its bars.  Both are drawn from [plot_data], the head of the
    table passed in: the first with [revenue_share] on the y axis, the second
    with [avg_ticket]; matplotlib and the two image files are not modelled. *)
Definition plot_category_distribution (metrics_df : list MetricsDF.row)
    (top_n : Z) : list (string * num) * list (string * Q) :=
  let plot_data := head_rows top_n metrics_df in
  (List.map
     (fun r => (MetricsDF.normalized_category r, MetricsDF.revenue_share r))
     plot_data,
   List.map
     (fun r => (MetricsDF.normalized_category r, MetricsDF.avg_ticket r))
     plot_data).

(** A row of the ticket table: three columns of the metrics table with
    [ticket_rank] and [relative_to_mean]. *)
Definition ticket_row (tickets : list Q) (m : MetricsDF.row) : TicketDF.row :=
  {| TicketDF.normalized_category := MetricsDF.normalized_category m;
     TicketDF.avg_ticket := MetricsDF.avg_ticket m;
     TicketDF.total_sales := MetricsDF.total_sales m;
     TicketDF.ticket_rank := rank_descending tickets (MetricsDF.avg_ticket m);
     TicketDF.relative_to_mean :=
       num_div (Fin (MetricsDF.avg_ticket m)) (Series_mean tickets) |}.

(** The body of [analyze_average_ticket] on the metrics table. *)
Definition average_ticket (metrics : list MetricsDF.row) : list TicketDF.row :=
  let tickets := List.map MetricsDF.avg_ticket metrics in
  sort_values (desc TicketDF.avg_ticket) (List.map (ticket_row tickets) metrics).

Definition analyze_average_ticket (self : gmap string pyval)
    : result (list TicketDF.row) :=
  let* metrics := calculate_category_metrics self in
  Ok (average_ticket metrics).

(** A row of the popularity table: four columns of the metrics table with
    [sales_share] and [popularity_score]. *)
Definition popularity_row (total_sales : nat) (max_diversity : num)
    (m : MetricsDF.row) : PopularityDF.row :=
  let sales_share :=
    num_div (Fin (float_of_count (MetricsDF.total_sales m)))
            (Fin (float_of_count total_sales)) in
  {| PopularityDF.normalized_category := MetricsDF.normalized_category m;
     PopularityDF.total_sales := MetricsDF.total_sales m;
     PopularityDF.revenue_share := MetricsDF.revenue_share m;
     PopularityDF.product_diversity := MetricsDF.product_diversity m;
     PopularityDF.sales_share := sales_share;
     PopularityDF.popularity_score :=
       num_add
         (num_add
            (num_mul (Fin (4 # 10)) sales_share)
            (num_div (num_mul (Fin (4 # 10)) (MetricsDF.revenue_share m))
                     (Fin 100)))
         (num_div
            (num_mul (Fin (2 # 10))
                     (Fin (float_of_count (MetricsDF.product_diversity m))))
            max_diversity) |}.

(** The body of [analyze_category_popularity] on the metrics table. *)
Definition category_popularity (metrics : list MetricsDF.row)
    : list PopularityDF.row :=
  let total_sales :=
    fold_right Nat.add 0%nat (List.map MetricsDF.total_sales metrics) in
  let max_diversity :=
    Series_max (List.map MetricsDF.product_diversity metrics) in
  sort_values (desc_num PopularityDF.popularity_score)
    (List.map (popularity_row total_sales max_diversity) metrics).

Definition analyze_category_popularity (self : gmap string pyval)
    : result (list PopularityDF.row) :=
  let* metrics := calculate_category_metrics self in
  Ok (category_popularity metrics).

(** A row of [sales_data] with the purchase timestamp of its order. *)
Definition dated_sales (sales_data : list SalesDF.row)
    (orders : list OrdersDF.row) : list (SalesDF.row * option Z) :=
  merge_inner same_string
    (fun r => ItemsDF.order_id (SalesDF.item r)) OrdersDF.order_id
    (fun r o => (r, OrdersDF.order_purchase_timestamp o))
    sales_data orders.

(** The two group keys of the monthly table, in the order of the pair. *)
Definition month_category_ltb (a b : Z * string) : bool :=
  (fst a <? fst b)%Z || (bool_decide (fst a = fst b) && String.ltb (snd a) (snd b)).

Definition month_category (r : SalesDF.row * option Z) : option (Z * string) :=
  match r with
  | (sale, Some t) =>
      match SalesDF.normalized_category sale with
      | Some c => Some (to_period_M t, c)
      | None => None
      end
  | (_, None) => None
  end.

(** The grouping of [analyze_sales_by_month]. *)
Definition monthly_sales (sales_data : list (SalesDF.row * option Z))
    : list MonthlyDF.row :=
  List.map (fun k =>
    let g := group_rows month_category k sales_data in
    {| MonthlyDF.month_year := fst k;
       MonthlyDF.normalized_category := snd k;
       MonthlyDF.order_id := length g;
       MonthlyDF.price := Series_sum (List.map (fun r => sale_price (fst r)) g) |})
    (group_keys month_category_ltb (List.map month_category sales_data)).

(** [analyze_sales_by_month]: the first merge is evaluated before
    [self.datasets] is read. *)
Definition analyze_sales_by_month (self : gmap string pyval)
    : result (list MonthlyDF.row) :=
  let* items := getattr self "items_df" in
  let* items_df := items_columns items in
  let* products := getattr self "products_df" in
  let* products_df := product_columns products in
  let sales_data := sales_data_inner items_df products_df in
  let* datasets := getattr self "datasets" in
  let* orders := orders_columns datasets in
  Ok (monthly_sales (dated_sales sales_data orders)).

(** [delivery_time]: the days between purchase and delivery; missing when
    either timestamp is. *)
Definition delivery_time (o : OrdersDF.row) : option Q :=
  match OrdersDF.order_delivered_customer_date o,
        OrdersDF.order_purchase_timestamp o with
  | Some delivered, Some purchased => Some ((delivered - purchased) # 86400)%Q
  | _, _ => None
  end.

(** The merge of [analyze_delivery_metrics]: each order with each of its
    categorised items; the pair is the category and the delivery time. *)
Definition delivery_data (orders : list OrdersDF.row)
    (sales_data : list SalesDF.row) : list (cell * option Q) :=
  merge_inner same_string
    OrdersDF.order_id (fun r => ItemsDF.order_id (SalesDF.item r))
    (fun o r => (SalesDF.normalized_category r, delivery_time o))
    orders sales_data.

(** The present values of a column: every aggregate below skips NaN. *)
Definition dropna {A : Type} (column : list (option A)) : list A :=
  omap (fun x => x) column.

Definition agg_mean (column : list (option Q)) : option Q :=
  match dropna column with
  | [] => None
  | vs => Some (Series_sum vs / float_of_count (length vs))%Q
  end.

(** [std], the sample standard deviation ([ddof=1]): NaN below two values. *)
Definition agg_std (column : list (option Q)) : option Q :=
  match dropna column with
  | [] | [_] => None
  | vs =>
      let m := (Series_sum vs / float_of_count (length vs))%Q in
      Some (fsqrt (Series_sum (List.map (fun v => (v - m) * (v - m)) vs)
                   / float_of_count (length vs - 1)))%Q
  end.

Definition agg_min (column : list (option Q)) : option Q :=
  match dropna column with
  | [] => None
  | v :: vs => Some (fold_right Qmin v vs)
  end.

Definition agg_max (column : list (option Q)) : option Q :=
  match dropna column with
  | [] => None
  | v :: vs => Some (fold_right Qmax v vs)
  end.

(** [groupby('normalized_category').agg({'delivery_time': ['mean', 'std',
    'min', 'max'], 'order_id': 'count'})]. *)
Definition delivery_metrics (data : list (cell * option Q))
    : list DeliveryDF.row :=
  List.map (fun k =>
    let g := List.map snd (group_rows fst k data) in
    {| DeliveryDF.normalized_category := k;
       DeliveryDF.delivery_time_mean := agg_mean g;
       DeliveryDF.delivery_time_std := agg_std g;
       DeliveryDF.delivery_time_min := agg_min g;
       DeliveryDF.delivery_time_max := agg_max g;
       DeliveryDF.order_id := length g |})
    (group_keys String.ltb (List.map fst data)).

(** [analyze_delivery_metrics]: [self.datasets] is the first thing read. *)
Definition analyze_delivery_metrics (self : gmap string pyval)
    : result (list DeliveryDF.row) :=
  let* datasets := getattr self "datasets" in
  let* orders := orders_columns datasets in
  let* items := getattr self "items_df" in
  let* items_df := items_columns items in
  let* products := getattr self "products_df" in
  let* products_df := product_columns products in
  Ok (delivery_metrics
        (delivery_data orders (sales_data_inner items_df products_df))).

(** The sheets of the detailed report, in the order they are written. *)
Record Report : Type := mkReport {
  sheet_metrics : list MetricsDF.row;
  sheet_monthly : list MonthlyDF.row;
  sheet_ticket : list TicketDF.row;
  sheet_popularity : list PopularityDF.row;
  sheet_delivery : list DeliveryDF.row
}.

(** [df.to_excel(writer, sheet_name=..., index=index)] on a sheet of the
    report.  pandas does not write a frame whose columns are a MultiIndex
    when [index=False]: it raises [NotImplementedError].  The columns are a
    MultiIndex when the frame comes from an [agg] that lists several
    functions for a column and the columns have not been renamed since. *)
Definition sheet_to_excel (multiindex_columns index : bool) : result unit :=
  if multiindex_columns && negb index then Raise NotImplementedError
  else Ok tt.

(** [generate_detailed_excel_report]: the five analyses in sequence, each
    followed by the [to_excel] of its sheet; the workbook is complete only if
    all ten calls return.  [calculate_category_metrics] renames its columns
    (flat), [analyze_sales_by_month] aggregates one function per column
    (flat), the ticket and the popularity table select columns of the
    metrics table (flat); [analyze_delivery_metrics] aggregates
    ['mean', 'std', 'min', 'max'] on one column and keeps the two-level
    columns that gives. *)
Definition generate_detailed_excel_report (self : gmap string pyval)
    : result Report :=
  let* category_metrics := calculate_category_metrics self in
  let* _ := sheet_to_excel false false in
  let* sales_by_month := analyze_sales_by_month self in
  let* _ := sheet_to_excel false true in
  let* avg_ticket_analysis := analyze_average_ticket self in
  let* _ := sheet_to_excel false false in
  let* category_popularity := analyze_category_popularity self in
  let* _ := sheet_to_excel false false in
  let* delivery_analysis := analyze_delivery_metrics self in
  let* _ := sheet_to_excel true false in
  Ok {| sheet_metrics := category_metrics;
        sheet_monthly := sales_by_month;
        sheet_ticket := avg_ticket_analysis;
        sheet_popularity := category_popularity;
        sheet_delivery := delivery_analysis |}.

(** ** [main.py] *)

(** The category table of a run: [prepare_product_categories] on the loader,
    then an analyzer on its result and the items table, then
    [calculate_category_metrics]. *)
Definition main_category_metrics (fs : gmap string xlsx)
    (data_loader : OlistDataLoader) (items_df : list ItemsDF.row)
    (reports_path : string) : result (list MetricsDF.row) :=
  let* prepared := prepare_product_categories fs data_loader in
  let products_with_categories := fst (fst prepared) in
  let analyzer :=
    OlistAnalyzer__init__ products_with_categories items_df reports_path in
  calculate_category_metrics analyzer.

(** [main], after [load_data]: the steps that compute something, in the order
    of the source; [items_df] is [data_loader.datasets['items']], and
    [top_n] is left at its default 10.  Printing, drawing and
    [save_metrics_report], which writes the table it is given, are taken to
    succeed.  A run that completes has the metrics table, the two charts and
    the detailed report. *)
Definition main (fs : gmap string xlsx) (data_loader : OlistDataLoader)
    (items_df : list ItemsDF.row) (reports_path : string)
    : result (list MetricsDF.row
              * (list (string * num) * list (string * Q)) * Report) :=
  let* prepared := prepare_product_categories fs data_loader in
  let products_with_categories := fst (fst prepared) in
  let analyzer :=
    OlistAnalyzer__init__ products_with_categories items_df reports_path in
  let* category_metrics := calculate_category_metrics analyzer in
  let charts := plot_category_distribution category_metrics 10 in
  let* report := generate_detailed_excel_report analyzer in
  Ok (category_metrics, charts, report).

End Pipeline.

Arguments path_exists {xlsx} fs path.
Arguments save_mapping {xlsx} to_excel fs self.
Arguments create_initial_mapping {xlsx} to_excel fs self categories_df.
Arguments load_mapping {xlsx} read_excel fs self.
Arguments get_normalized_category {xlsx} read_excel fs self portuguese_category.
Arguments apply_get_normalized_category {xlsx} read_excel fs mapper merged_df.
Arguments prepare_product_categories {xlsx} to_excel read_excel fs self.
Arguments main_category_metrics {xlsx} to_excel read_excel fs data_loader
  items_df reports_path.
Arguments available_mapping {xlsx} read_excel fs self.
Arguments main {xlsx} to_excel read_excel fsqrt to_period_M fs data_loader
  items_df reports_path.

(** ** The workbook of the mapping, as pandas writes and reads it *)

(** The strings that [pd.read_excel], called as [load_mapping] calls it (no
    [na_values], [keep_default_na] left at [True]), takes for a missing
    value: the default list of pandas 2. *)
Definition na_values : list string :=
  [ EmptyString; "#N/A"; "#N/A N/A"; "#NA"; "-1.#IND"; "-1.#QNAN"; "-NaN";
    "-nan"; "1.#IND"; "1.#QNAN"; "<NA>"; "N/A"; "NA"; "NULL"; "NaN"; "None";
    "n/a"; "nan"; "null" ].

Definition is_na_value (s : string) : bool := bool_decide (s ∈ na_values).

(** A cell as it is read back: an empty cell and a text of [na_values] are
    NaN, any other text is itself. *)
Definition read_cell (c : cell) : cell :=
  match c with
  | Some s => if is_na_value s then None else Some s
  | None => None
  end.

(** The sheet that [to_excel(file, index=False)] writes for the mapping
    table: under the three headers one row of cells per row of the table, a
    text cell for a string and an empty cell for NaN; so the sheet is the
    table.  [pd.read_excel] reads the rows in order, cell by cell.  This is
    what pandas and the Excel writer do with a table that [kept_as_text], in
    the vocabulary below, accepts; what they do with another table (a
    column read as numbers, a text stored as a formula) is not modelled. *)
Definition workbook : Type := list MappingDF.row.

Definition write_workbook (df : list MappingDF.row) : workbook := df.

Definition read_row (r : MappingDF.row) : MappingDF.row :=
  {| MappingDF.original_portuguese_category :=
       read_cell (MappingDF.original_portuguese_category r);
     MappingDF.english_translation :=
       read_cell (MappingDF.english_translation r);
     MappingDF.normalized_category :=
       read_cell (MappingDF.normalized_category r) |}.

Definition read_workbook (file : workbook) : list MappingDF.row :=
  List.map read_row file.

(** * The vocabulary of the properties *)

(** ** Canonical labels *)

(** Title-casing in the words of the specification, on ASCII text.  The
    letters are the 26 small letters and their capitals, paired by position
    in the two alphabets; these tables owe nothing to [upper], [lower] and
    [is_cased] above. *)
Definition small_letters : string := "abcdefghijklmnopqrstuvwxyz".

Definition capital_letters : string := "ABCDEFGHIJKLMNOPQRSTUVWXYZ".

(** The place of a character in an alphabet. *)
Fixpoint position (c : ascii) (alphabet : string) : option nat :=
  match alphabet with
  | EmptyString => None
  | String a rest =>
      if bool_decide (a = c) then Some 0%nat else S <$> position c rest
  end.

Definition letter (c : ascii) : bool :=
  bool_decide (is_Some (position c small_letters))
  || bool_decide (is_Some (position c capital_letters)).

(** The capital of a small letter, the small letter of a capital; any other
    character is left as it is. *)
Definition capital (c : ascii) : ascii :=
  match position c small_letters with
  | Some i => default c (get i capital_letters)
  | None => c
  end.

Definition small (c : ascii) : ascii :=
  match position c capital_letters with
  | Some i => default c (get i small_letters)
  | None => c
  end.

(** A character starts a word when it is the first of the label or follows
    a character that is no letter. *)
Definition word_start (s : string) (n : nat) : bool :=
  match n with
  | O => true
  | S m =>
      match get m s with
      | Some p => negb (letter p)
      | None => true
      end
  end.

(** The character of the canonical label at place [n], where the translated
    label [s] has [c]: a space becomes an underscore; any other character
    that starts a word is capitalised, and any other is put in small
    letters. *)
Definition canonical_char (s : string) (n : nat) (c : ascii) : ascii :=
  if bool_decide (c = " "%char) then "_"%char
  else if word_start s n then capital c else small c.

(** The flag [previous_is_cased] when [title_from b s] reaches index [n]. *)
Definition cased_before (b : bool) (s : string) (n : nat) : bool :=
  match n with
  | O => b
  | S m =>
      match get m s with
      | Some p => is_cased p
      | None => false
      end
  end.

(** The mapping row that [create_initial_mapping] derives from a row of the
    translation table. *)
Definition mapping_row (r : CategoriesDF.row) : MappingDF.row :=
  {| MappingDF.original_portuguese_category :=
       CategoriesDF.product_category_name r;
     MappingDF.english_translation :=
       CategoriesDF.product_category_name_english r;
     MappingDF.normalized_category :=
       Some (normalize_label (CategoriesDF.product_category_name_english r)) |}.

(** The canonical cell that belongs to a translated cell, in the words of
    the specification: for a missing translation the sentinel "Unknown";
    for a translated label an ASCII label of the same length that has, place
    by place, the [canonical_char] of the translated label. *)
Definition canonical_label_of (english canonical : cell) : Prop :=
  match english with
  | None => canonical = Some "Unknown"
  | Some s =>
      exists label,
        canonical = Some label
        /\ is_ascii label = true
        /\ String.length label = String.length s
        /\ forall n, get n label = option_map (canonical_char s n) (get n s)
  end.

(** A translation table whose translated labels are ASCII text. *)
Definition ascii_translations (categories_df : list CategoriesDF.row) : Prop :=
  forall r s,
    r ∈ categories_df ->
    CategoriesDF.product_category_name_english r = Some s ->
    is_ascii s = true.

(** ** Workbooks kept as text *)







(** ** Ranks *)

(** The number of values strictly greater than [v], and equal to [v]. *)
Definition count_greater (v : Q) (values : list Q) : nat :=
  length (List.filter (fun x => Qltb v x) values).

Definition count_equal (v : Q) (values : list Q) : nat :=
  length (List.filter (fun x => Qeq_bool x v) values).

(** The default ([method='average']) rank in closed form: the number of values
    strictly greater, plus the mean place among the equal values. *)
Definition average_rank (values : list Q) (v : Q) : Q :=
  (float_of_count (count_greater v values)
   + (float_of_count (count_equal v values) + 1) / 2)%Q.

(** The dense rank of the specification: one more than the number of distinct
    values strictly greater. *)
Fixpoint distinct_values (values : list Q) : list Q :=
  match values with
  | [] => []
  | v :: rest =>
      if existsb (Qeq_bool v) rest then distinct_values rest
      else v :: distinct_values rest
  end.

Definition dense_rank (values : list Q) (v : Q) : Q :=
  float_of_count (S (count_greater v (distinct_values values))).

(** A column in decreasing order. *)
Definition descending (l : list Q) : Prop :=
  StronglySorted (fun a b => (b <= a)%Q) l.

(** A table whose [rank] column is the average rank of its [key] column,
    descending; ties then share a rank and a greater key has a smaller rank. *)
Definition average_ranked {B : Type} (key rank : B -> Q) (table : list B)
    : Prop :=
  (forall r, r ∈ table ->
     (rank r == average_rank (List.map key table) (key r))%Q)
  /\ (forall r1 r2, r1 ∈ table -> r2 ∈ table ->
        (key r1 == key r2)%Q -> (rank r1 == rank r2)%Q)
  /\ (forall r1 r2, r1 ∈ table -> r2 ∈ table ->
        (key r1 < key r2)%Q -> (rank r2 < rank r1)%Q).

(** ** Deliveries and line items *)

(** An order that has reached the customer. *)
Definition delivered (o : OrdersDF.row) : bool :=
  notna (OrdersDF.order_delivered_customer_date o).



(** An item some row of the products table matches. *)
Definition has_product (products_df : list ProductCategoriesDF.row)
    (i : ItemsDF.row) : bool :=
  existsb
    (fun p => same_string (ItemsDF.product_id i) (ProductCategoriesDF.product_id p))
    products_df.

(** An item some row of the products table matches with a category in it. *)
Definition has_category (products_df : list ProductCategoriesDF.row)
    (i : ItemsDF.row) : bool :=
  existsb
    (fun p =>
       same_string (ItemsDF.product_id i) (ProductCategoriesDF.product_id p)
       && notna (ProductCategoriesDF.normalized_category p))
    products_df.

(** A products table in which every row has a category. *)
Definition all_categorised (products_df : list ProductCategoriesDF.row) : Prop :=
  forall p, p ∈ products_df ->
            is_Some (ProductCategoriesDF.normalized_category p).

(** The category and the [total_sales] of each row. *)
Definition sales_by_category (metrics : list MetricsDF.row)
    : list (string * nat) :=
  List.map
    (fun r => (MetricsDF.normalized_category r, MetricsDF.total_sales r))
    metrics.

(** ** More vocabulary: labels and translations *)

(** A string with [f] applied to each character ([str.lower], [str.upper]). *)
Fixpoint map_chars (f : ascii -> ascii) (s : string) : string :=
  match s with
  | EmptyString => EmptyString
  | String c s' => String (f c) (map_chars f s')
  end.

(** The canonical label of the first row of the translation table that has
    the raw label; "Unknown" when no row has it. *)
Definition first_translation (categories_df : list CategoriesDF.row)
    (raw : cell) : string :=
  match List.find
          (fun r => cell_eqb (CategoriesDF.product_category_name r) raw)
          categories_df with
  | Some r => normalize_label (CategoriesDF.product_category_name_english r)
  | None => "Unknown"
  end.

(** What [normalize_label] does to one character: [b] is the flag
    [previous_is_cased]. *)
Definition normalized_char (b : bool) (c : ascii) : ascii :=
  let t := if b then lower c else upper c in
  if bool_decide (t = " "%char) then "_"%char else t.

(** ** More vocabulary: the prepared products table *)

(** The row [prepare_product_categories] makes of a product, the translated
    label the merge attached to it, and the mapping in use. *)
Definition prepared_row (df : list MappingDF.row) (pe : ProductsDF.row * cell)
    : ProductCategoriesDF.row :=
  {| ProductCategoriesDF.product_id := ProductsDF.product_id (fst pe);
     ProductCategoriesDF.product_category_name :=
       ProductsDF.product_category_name (fst pe);
     ProductCategoriesDF.product_category_name_english := snd pe;
     ProductCategoriesDF.normalized_category :=
       lookup_mapping df (ProductsDF.product_category_name (fst pe)) |}.

(** A loader after [load_data]: the products and the translation table are
    in [datasets]. *)
Definition loaded (self : OlistDataLoader) (products_df : list ProductsDF.row)
    (categories_df : list CategoriesDF.row) : Prop :=
  datasets self !! "products" = Some (ProductsTable products_df)
  /\ datasets self !! "categories" = Some (CategoriesTable categories_df).

(** ** More vocabulary: ranks *)

(** The number of values strictly less than [v]. *)
Definition count_less (v : Q) (values : list Q) : nat :=
  length (List.filter (fun x => Qltb x v) values).

(** A table in which no two rows have the same key. *)
Definition no_ties {B : Type} (key : B -> Q) (table : list B) : Prop :=
  forall i j ri rj,
    table !! i = Some ri -> table !! j = Some rj ->
    (key ri == key rj)%Q -> i = j.

(** ** More vocabulary: attributes *)


(** * Sample tables *)

(** A translation table with one category; a products table with a product
    of that category, one of a category the translation lacks, and one with
    no category; four line items, the last of a product that is not in the
    products table. *)
Definition run_categories : list CategoriesDF.row :=
  [ {| CategoriesDF.product_category_name := Some "brinquedos";
       CategoriesDF.product_category_name_english := Some "toys" |} ].

Definition run_products : list ProductsDF.row :=
  [ {| ProductsDF.product_id := "p1";
       ProductsDF.product_category_name := Some "brinquedos" |};
    {| ProductsDF.product_id := "p2";
       ProductsDF.product_category_name := Some "pc_gamer" |};
    {| ProductsDF.product_id := "p3";
       ProductsDF.product_category_name := None |} ].

Definition run_items : list ItemsDF.row :=
  [ {| ItemsDF.order_item_id := 1; ItemsDF.order_id := "o1";
       ItemsDF.product_id := "p1"; ItemsDF.price := 10 |};
    {| ItemsDF.order_item_id := 2; ItemsDF.order_id := "o1";
       ItemsDF.product_id := "p2"; ItemsDF.price := 20 |};
    {| ItemsDF.order_item_id := 1; ItemsDF.order_id := "o2";
       ItemsDF.product_id := "p3"; ItemsDF.price := 30 |};
    {| ItemsDF.order_item_id := 1; ItemsDF.order_id := "o3";
       ItemsDF.product_id := "p9"; ItemsDF.price := 40 |} ].

Definition run_loader : OlistDataLoader :=
  {| data_path := "Olist";
     datasets :=
       <["products" := ProductsTable run_products]>
         (<["categories" := CategoriesTable run_categories]> ∅);
     category_mapper := CategoryMapper__init__ "Olist/category_mapping.xlsx" |}.

(** Three categories, two of them with the same revenue. *)
Definition tie_products : list ProductCategoriesDF.row :=
  [ {| ProductCategoriesDF.product_id := "a";
       ProductCategoriesDF.product_category_name := Some "automotivo";
       ProductCategoriesDF.product_category_name_english := Some "auto";
       ProductCategoriesDF.normalized_category := Some "Auto" |};
    {| ProductCategoriesDF.product_id := "b";
       ProductCategoriesDF.product_category_name := Some "brinquedos";
       ProductCategoriesDF.product_category_name_english := Some "toys";
       ProductCategoriesDF.normalized_category := Some "Toys" |};
    {| ProductCategoriesDF.product_id := "c";
       ProductCategoriesDF.product_category_name := Some "pet_shop";
       ProductCategoriesDF.product_category_name_english := Some "pet shop";
       ProductCategoriesDF.normalized_category := Some "Pet_Shop" |} ].

Definition tie_items : list ItemsDF.row :=
  [ {| ItemsDF.order_item_id := 1; ItemsDF.order_id := "o1";
       ItemsDF.product_id := "a"; ItemsDF.price := 10 |};
    {| ItemsDF.order_item_id := 1; ItemsDF.order_id := "o2";
       ItemsDF.product_id := "b"; ItemsDF.price := 10 |};
    {| ItemsDF.order_item_id := 1; ItemsDF.order_id := "o3";
       ItemsDF.product_id := "c"; ItemsDF.price := 5 |} ].

(** One category whose only item has price 0. *)
Definition free_items : list ItemsDF.row :=
  [ {| ItemsDF.order_item_id := 1; ItemsDF.order_id := "o1";
       ItemsDF.product_id := "a"; ItemsDF.price := 0 |} ].



(** A translation of two words, one in capitals, one with an underscore, and
    a raw label without translation. *)
Definition worded_categories : list CategoriesDF.row :=
  [ {| CategoriesDF.product_category_name := Some "pet_shop";
       CategoriesDF.product_category_name_english := Some "pet shop" |};
    {| CategoriesDF.product_category_name := Some "beleza_saude";
       CategoriesDF.product_category_name_english := Some "HEALTH beauty" |};
    {| CategoriesDF.product_category_name := Some "pc_gamer";
       CategoriesDF.product_category_name_english := Some "pc_gamer 2" |};
    {| CategoriesDF.product_category_name := Some "portateis";
       CategoriesDF.product_category_name_english := None |} ].

(** A raw label and a translation that pandas reads back as missing: the
    text null, and the text none, whose canonical label is None. *)
Definition na_categories : list CategoriesDF.row :=
  [ {| CategoriesDF.product_category_name := Some "null";
       CategoriesDF.product_category_name_english := Some "toys" |};
    {| CategoriesDF.product_category_name := Some "casa";
       CategoriesDF.product_category_name_english := Some "none" |} ].

(** One raw label with two translations. *)
Definition twice_translated : list CategoriesDF.row :=
  [ {| CategoriesDF.product_category_name := Some "casa";
       CategoriesDF.product_category_name_english := Some "home" |};
    {| CategoriesDF.product_category_name := Some "casa";
       CategoriesDF.product_category_name_english := Some "house" |} ].

(** Three categories with three different revenues, on the products of
    [tie_products]. *)
Definition ranked_items : list ItemsDF.row :=
  [ {| ItemsDF.order_item_id := 1; ItemsDF.order_id := "o1";
       ItemsDF.product_id := "c"; ItemsDF.price := 5 |};
    {| ItemsDF.order_item_id := 1; ItemsDF.order_id := "o2";
       ItemsDF.product_id := "a"; ItemsDF.price := 30 |};
    {| ItemsDF.order_item_id := 2; ItemsDF.order_id := "o2";
       ItemsDF.product_id := "b"; ItemsDF.price := 20 |} ].

(** The mapping file of [run_loader], holding the mapping built from
    [run_categories]. *)
Definition run_files : gmap string workbook :=
  <["Olist/category_mapping.xlsx" := mapping_data run_categories]> ∅.

(** * Properties of the category mapper *)

(** ** The canonical label *)

Lemma upper_space (c : ascii) : upper c = " "%char <-> c = " "%char.
Proof.
  destruct c as [[] [] [] [] [] [] [] []]; vm_compute; split; congruence.
Qed.

Lemma lower_space (c : ascii) : lower c = " "%char <-> c = " "%char.
Proof.
  destruct c as [[] [] [] [] [] [] [] []]; vm_compute; split; congruence.
Qed.

Lemma replace_cased_space (b : bool) (c : ascii) :
  (if bool_decide ((if b then lower c else upper c) = " "%char)
   then "_"%char else if b then lower c else upper c)
  = (if bool_decide (c = " "%char) then "_"%char
     else if b then lower c else upper c).
Proof.
  destruct b.
  - pose proof (lower_space c) as H.
    repeat case_bool_decide; tauto.
  - pose proof (upper_space c) as H.
    repeat case_bool_decide; tauto.
Qed.

Lemma get_replace_title_from (s : string) :
  forall (b : bool) (n : nat),
    get n (replace " "%char "_"%char (title_from b s))
    = option_map
        (fun c => if bool_decide (c = " "%char) then "_"%char
                  else if cased_before b s n then lower c else upper c)
        (get n s).
Proof.
  induction s as [|a s IH]; intros b n.
  - reflexivity.
  - destruct n as [|m]; simpl.
    + f_equal. apply replace_cased_space.
    + rewrite IH. destruct m; reflexivity.
Qed.

Lemma length_replace_title_from (s : string) :
  forall b, String.length (replace " "%char "_"%char (title_from b s))
            = String.length s.
Proof. induction s; intros b; simpl; [reflexivity | now rewrite IHs]. Qed.

(** ** [drop_duplicates] *)

Section DropDuplicates.
Context {A : Type} `{EqDecision A}.

Lemma elem_of_drop_duplicates_from (df : list A) :
  forall seen x, x ∈ drop_duplicates_from seen df <-> x ∈ df /\ x ∉ seen.
Proof.
  induction df as [|r df IH]; intros seen x; simpl.
  - split; [intros Hx; inversion Hx | intros [Hx _]; inversion Hx].
  - case_bool_decide as Hr.
    + rewrite IH, elem_of_cons. split; [tauto|].
      intros [[->|Hx] Hn]; [contradiction | tauto].
    + rewrite !elem_of_cons, IH, not_elem_of_cons.
      destruct (decide (x = r)) as [->|Hne]; tauto.
Qed.

Lemma elem_of_drop_duplicates (df : list A) (x : A) :
  x ∈ drop_duplicates df <-> x ∈ df.
Proof.
  unfold drop_duplicates. rewrite elem_of_drop_duplicates_from.
  split; [tauto | intros Hx; split; [exact Hx | apply not_elem_of_nil]].
Qed.

Lemma NoDup_drop_duplicates_from (df : list A) :
  forall seen, NoDup (drop_duplicates_from seen df).
Proof.
  induction df as [|r df IH]; intros seen; simpl.
  - constructor.
  - case_bool_decide as Hr; [apply IH|].
    constructor; [|apply IH].
    rewrite elem_of_drop_duplicates_from, not_elem_of_cons. tauto.
Qed.

Lemma NoDup_drop_duplicates (df : list A) : NoDup (drop_duplicates df).
Proof. apply NoDup_drop_duplicates_from. Qed.

(** The rows that survive are in the order of the table. *)
Lemma sublist_drop_duplicates_from (df : list A) :
  forall seen, sublist (drop_duplicates_from seen df) df.
Proof.
  induction df as [|r df IH]; intros seen; simpl.
  - constructor.
  - case_bool_decide; [apply sublist_cons | apply sublist_skip]; apply IH.
Qed.

(** The first row that a selection finds is the same before and after. *)
Lemma head_filter_drop_duplicates_from (p : A -> bool) (df : list A) :
  forall seen,
    (forall x, x ∈ seen -> p x = false) ->
    head (List.filter p (drop_duplicates_from seen df)) = head (List.filter p df).
Proof.
  induction df as [|r df IH]; intros seen Hseen; simpl; [reflexivity|].
  case_bool_decide as Hr.
  - rewrite (Hseen r Hr). apply IH, Hseen.
  - simpl. destruct (p r) eqn:Hp; [reflexivity|].
    apply IH. intros x Hx. apply elem_of_cons in Hx as [->|Hx]; auto.
Qed.

Lemma head_filter_drop_duplicates (p : A -> bool) (df : list A) :
  head (List.filter p (drop_duplicates df)) = head (List.filter p df).
Proof.
  apply head_filter_drop_duplicates_from. intros x Hx. inversion Hx.
Qed.

Lemma length_drop_duplicates_from (df : list A) :
  forall seen, (length (drop_duplicates_from seen df) <= length df)%nat.
Proof.
  induction df as [|r df IH]; intros seen; simpl; [lia|].
  case_bool_decide; simpl; [specialize (IH seen) | specialize (IH (r :: seen))]; lia.
Qed.

End DropDuplicates.

(** ** [create_initial_mapping], [load_mapping], [get_normalized_category] *)

Section CategoryMapperProperties.
Context {xlsx : Type}.
Variable to_excel : list MappingDF.row -> xlsx.
Variable read_excel : xlsx -> list MappingDF.row.

Lemma mapping_data_rows (categories_df : list CategoriesDF.row) :
  mapping_data categories_df = List.map mapping_row categories_df.
Proof. reflexivity. Qed.

Lemma mapping_df_create_initial_mapping (fs : gmap string xlsx)
    (self : CategoryMapper) (categories_df : list CategoriesDF.row) :
  mapping_df (snd (create_initial_mapping to_excel fs self categories_df))
  = Some (drop_duplicates (mapping_data categories_df)).
Proof. reflexivity. Qed.

Lemma elem_of_built_mapping (categories_df : list CategoriesDF.row)
    (m : MappingDF.row) :
  m ∈ drop_duplicates (mapping_data categories_df)
  <-> exists r, r ∈ categories_df /\ m = mapping_row r.
Proof.
  rewrite elem_of_drop_duplicates, mapping_data_rows, list_elem_of_fmap.
  split; intros (r & H1 & H2); exists r; auto.
Qed.

(** The casing functions of the model are the letter tables of the
    vocabulary. *)
Lemma upper_capital (c : ascii) : upper c = capital c.
Proof. destruct c as [[] [] [] [] [] [] [] []]; vm_compute; reflexivity. Qed.

Lemma lower_small (c : ascii) : lower c = small c.
Proof. destruct c as [[] [] [] [] [] [] [] []]; vm_compute; reflexivity. Qed.

Lemma is_cased_letter (c : ascii) : is_cased c = letter c.
Proof. destruct c as [[] [] [] [] [] [] [] []]; vm_compute; reflexivity. Qed.

Lemma get_normalize_label (s : string) (n : nat) :
  get n (normalize_label (Some s)) = option_map (canonical_char s n) (get n s).
Proof.
  unfold normalize_label, title. rewrite get_replace_title_from.
  destruct (get n s) as [c|]; [simpl|reflexivity].
  f_equal. unfold canonical_char.
  case_bool_decide; [reflexivity|].
  rewrite <- upper_capital, <- lower_small.
  destruct n as [|m]; simpl; [reflexivity|].
  destruct (get m s) as [p|]; simpl; [|reflexivity].
  rewrite <- is_cased_letter. destruct (is_cased p); reflexivity.
Qed.

Lemma is_ascii_normalized (b : bool) (c : ascii) :
  is_ascii_char c = true ->
  is_ascii_char
    (if bool_decide ((if b then lower c else upper c) = " "%char)
     then "_"%char else if b then lower c else upper c) = true.
Proof.
  destruct b, c as [[] [] [] [] [] [] [] []]; vm_compute; congruence.
Qed.

Lemma is_ascii_replace_title_from (s : string) :
  forall b, is_ascii s = true ->
            is_ascii (replace " "%char "_"%char (title_from b s)) = true.
Proof.
  induction s as [|c s IH]; intros b H; [reflexivity|].
  cbn [is_ascii] in H. apply andb_true_iff in H as [Hc Hs].
  cbn [title_from replace is_ascii].
  now rewrite (is_ascii_normalized b c Hc), IH.
Qed.

Lemma canonical_label_of_normalize_label (english : cell) :
  (forall s, english = Some s -> is_ascii s = true) ->
  canonical_label_of english (Some (normalize_label english)).
Proof.
  intros Hascii. destruct english as [s|]; [|reflexivity].
  exists (normalize_label (Some s)). split; [reflexivity|]. split; [|split].
  - apply is_ascii_replace_title_from. now apply Hascii.
  - apply length_replace_title_from.
  - apply get_normalize_label.
Qed.

(** C9, for a translation table whose translated labels are ASCII text
    (where the model of [str.title] is Python's): for every row of the table
    [create_initial_mapping] stores a row with the same raw label and
    translated label whose canonical label is the translated label
    title-cased, with each space replaced by an underscore
    ([canonical_label_of], place by place: [canonical_char]); for a missing
    translated label the canonical label is exactly "Unknown".  Nothing else
    is stored. *)
Theorem C9_canonical_label_of_build (fs : gmap string xlsx)
    (self : CategoryMapper) (categories_df : list CategoriesDF.row) :
  ascii_translations categories_df ->
  exists df,
    mapping_df (snd (create_initial_mapping to_excel fs self categories_df))
    = Some df
    /\ (forall r, r ∈ categories_df ->
          exists m, m ∈ df
            /\ MappingDF.original_portuguese_category m
               = CategoriesDF.product_category_name r
            /\ MappingDF.english_translation m
               = CategoriesDF.product_category_name_english r
            /\ canonical_label_of
                 (CategoriesDF.product_category_name_english r)
                 (MappingDF.normalized_category m))
    /\ (forall m, m ∈ df ->
          exists r, r ∈ categories_df
            /\ MappingDF.original_portuguese_category m
               = CategoriesDF.product_category_name r
            /\ MappingDF.english_translation m
               = CategoriesDF.product_category_name_english r
            /\ canonical_label_of
                 (MappingDF.english_translation m)
                 (MappingDF.normalized_category m)).
Proof.
  intros Hascii.
  exists (drop_duplicates (mapping_data categories_df)).
  split; [reflexivity|].
  split.
  - intros r Hr. exists (mapping_row r).
    split; [apply elem_of_built_mapping; eauto|].
    split; [reflexivity|]. split; [reflexivity|].
    apply canonical_label_of_normalize_label. intros s. now apply Hascii.
  - intros m Hm. apply elem_of_built_mapping in Hm as (r & Hr & ->).
    exists r. split; [exact Hr|].
    split; [reflexivity|]. split; [reflexivity|].
    apply canonical_label_of_normalize_label. intros s. now apply Hascii.
Qed.

(** C7, as the code has it: [create_initial_mapping] drops exact duplicate
    rows only.  The mapping has no two equal rows, holds exactly the rows
    derived from the translation table, in the order of their first
    occurrence, and two of its entries with the same raw label differ in the
    translated label; a lookup finds the first row of the label, as it would
    in the table before the duplicates were dropped. *)
Theorem C7_build_drops_equal_rows_only (fs : gmap string xlsx)
    (self : CategoryMapper) (categories_df : list CategoriesDF.row) :
  exists df,
    mapping_df (snd (create_initial_mapping to_excel fs self categories_df))
    = Some df
    /\ NoDup df
    /\ (forall m, m ∈ df <-> m ∈ mapping_data categories_df)
    /\ sublist df (mapping_data categories_df)
    /\ (forall m1 m2, m1 ∈ df -> m2 ∈ df ->
          MappingDF.original_portuguese_category m1
            = MappingDF.original_portuguese_category m2 ->
          MappingDF.english_translation m1 = MappingDF.english_translation m2 ->
          m1 = m2)
    /\ (forall raw, lookup_mapping df raw
                    = lookup_mapping (mapping_data categories_df) raw).
Proof.
  exists (drop_duplicates (mapping_data categories_df)).
  split; [reflexivity|].
  split; [apply NoDup_drop_duplicates|].
  split; [intros m; apply elem_of_drop_duplicates|].
  split; [apply sublist_drop_duplicates_from|].
  split.
  - intros m1 m2 H1 H2 Hraw Heng.
    apply elem_of_built_mapping in H1 as (r1 & _ & ->).
    apply elem_of_built_mapping in H2 as (r2 & _ & ->).
    unfold mapping_row in *. simpl in *. now rewrite Hraw, Heng.
  - intros raw. unfold lookup_mapping.
    pose proof (head_filter_drop_duplicates
      (fun r => cell_eqb (MappingDF.original_portuguese_category r) raw)
      (mapping_data categories_df)) as H.
    destruct (List.filter _ (drop_duplicates _)), (List.filter _ (mapping_data _));
      simpl in H; congruence.
Qed.

Lemma cell_eqb_true (a b : cell) :
  cell_eqb a b = true <-> exists s, a = Some s /\ b = Some s.
Proof.
  destruct a as [x|], b as [y|]; simpl.
  - rewrite bool_decide_eq_true. split.
    + intros ->. now exists y.
    + intros (s & [= ->] & [= ->]). reflexivity.
  - split; [discriminate | intros (s & _ & [=])].
  - split; [discriminate | intros (s & [=] & _)].
  - split; [discriminate | intros (s & [=] & _)].
Qed.

Lemma cell_eqb_false (a b : cell) : cell_eqb a b = false <-> a <> b \/ b = None.
Proof.
  destruct a as [x|], b as [y|]; simpl.
  - rewrite bool_decide_eq_false. split.
    + intros H. left. congruence.
    + intros [H|[=]] ->. now apply H.
  - split; [auto | reflexivity].
  - split; [intros _; left; discriminate | reflexivity].
  - split; [auto | reflexivity].
Qed.

(** The lookup finds the first row of the label. *)
Lemma lookup_mapping_first (before after : list MappingDF.row)
    (m : MappingDF.row) (raw : cell) :
  raw <> None ->
  MappingDF.original_portuguese_category m = raw ->
  (forall b, b ∈ before -> MappingDF.original_portuguese_category b <> raw) ->
  lookup_mapping (before ++ m :: after) raw = MappingDF.normalized_category m.
Proof.
  intros Hraw Hm Hbefore. unfold lookup_mapping.
  rewrite List.filter_app.
  assert (List.filter
            (fun r => cell_eqb (MappingDF.original_portuguese_category r) raw)
            before = []) as ->.
  { induction before as [|b before IH]; [reflexivity|]. simpl.
    assert (cell_eqb (MappingDF.original_portuguese_category b) raw = false)
      as ->.
    { apply cell_eqb_false. left. apply Hbefore, list_elem_of_here. }
    apply IH. intros b' Hb'. apply Hbefore. now apply list_elem_of_further. }
  simpl.
  assert (cell_eqb (MappingDF.original_portuguese_category m) raw = true) as ->.
  { apply cell_eqb_true. destruct raw as [s|]; [|contradiction]. eauto. }
  reflexivity.
Qed.

Lemma lookup_mapping_none (df : list MappingDF.row) (raw : cell) :
  (forall m, m ∈ df -> MappingDF.original_portuguese_category m <> raw) \/
  raw = None ->
  lookup_mapping df raw = Some "Unknown".
Proof.
  intros H. unfold lookup_mapping.
  assert (List.filter
            (fun r => cell_eqb (MappingDF.original_portuguese_category r) raw)
            df = []) as ->; [|reflexivity].
  induction df as [|m df IH]; [reflexivity|]. simpl.
  assert (cell_eqb (MappingDF.original_portuguese_category m) raw = false) as ->.
  { apply cell_eqb_false. destruct H as [H| ->]; [|now right].
    left. apply H, list_elem_of_here. }
  apply IH. destruct H as [H|H]; [|now right].
  left. intros m' Hm'. apply H. now apply list_elem_of_further.
Qed.

(** C8, as the code has it.  With a mapping at hand, in memory or in the
    mapping file, [get_normalized_category] returns for every raw label:
    "Unknown" when no row has the label (and for a missing label, NaN), and
    otherwise the canonical cell of the first row that has it.  With no
    table in memory and no mapping file it raises: the lazy [load_mapping]
    fails with [FileNotFoundError], whatever the label. *)
Theorem C8_lookup_total_with_a_mapping (fs : gmap string xlsx)
    (self : CategoryMapper) (raw : cell) :
  (forall df,
     available_mapping read_excel fs self = Some df ->
     exists canonical self',
       get_normalized_category read_excel fs self raw = Ok (canonical, self')
       /\ mapping_df self' = Some df
       /\ ((forall m, m ∈ df ->
              MappingDF.original_portuguese_category m <> raw) ->
           canonical = Some "Unknown")
       /\ (raw = None -> canonical = Some "Unknown")
       /\ (forall before m after,
             df = (before ++ m :: after)%list ->
             raw <> None ->
             MappingDF.original_portuguese_category m = raw ->
             (forall b, b ∈ before ->
                MappingDF.original_portuguese_category b <> raw) ->
             canonical = MappingDF.normalized_category m))
  /\ (available_mapping read_excel fs self = None ->
      mapping_df self = None
      /\ fs !! mapping_file self = None
      /\ get_normalized_category read_excel fs self raw
         = Raise (FileNotFoundError (mapping_file self))).
Proof.
  split.
  - intros df Hav. unfold available_mapping in Hav.
    assert (exists self',
      get_normalized_category read_excel fs self raw
        = Ok (lookup_mapping df raw, self') /\ mapping_df self' = Some df)
      as (self' & Hget & Hdf).
    { unfold get_normalized_category, load_mapping.
      destruct (mapping_df self) as [df0|] eqn:Hm.
      - injection Hav as ->. simpl. rewrite Hm. eauto.
      - destruct (fs !! mapping_file self) as [file|]; [|discriminate].
        simpl in Hav. injection Hav as <-. simpl. eauto. }
    exists (lookup_mapping df raw), self'.
    split; [exact Hget|]. split; [exact Hdf|].
    split; [|split].
    + intros Hno. apply lookup_mapping_none. now left.
    + intros Hraw. apply lookup_mapping_none. now right.
    + intros before m after -> Hraw Hm Hbefore.
      now apply lookup_mapping_first.
  - unfold available_mapping, get_normalized_category, load_mapping.
    destruct (mapping_df self) as [df|]; [discriminate|].
    destruct (fs !! mapping_file self) as [file|]; [discriminate|].
    intros _. auto.
Qed.

End CategoryMapperProperties.

(** ** Build, save and load through the workbook *)

Lemma read_cell_Unknown : read_cell (Some "Unknown") = Some "Unknown".
Proof. reflexivity. Qed.





(** * Properties of the analyzer *)

(** ** Sorting and counting *)

Lemma Qltb_lt (x y : Q) : Qltb x y = true <-> (x < y)%Q.
Proof.
  unfold Qltb. rewrite negb_true_iff. split.
  - intros H. apply Qnot_le_lt. intros Hle.
    apply Qle_bool_iff in Hle. congruence.
  - intros H. destruct (Qle_bool y x) eqn:E; [|reflexivity].
    apply Qle_bool_iff in E. exfalso. exact (Qlt_not_le _ _ H E).
Qed.

Lemma Qltb_ge (x y : Q) : Qltb x y = false <-> (y <= x)%Q.
Proof.
  unfold Qltb. rewrite negb_false_iff. apply Qle_bool_iff.
Qed.

Section Sorting.
Context {A : Type} (after : A -> A -> bool).

Lemma insert_sorted_Permutation (x : A) (l : list A) :
  Permutation (insert_sorted after x l) (x :: l).
Proof.
  induction l as [|h t IH]; simpl; [reflexivity|].
  destruct (after x h); [|reflexivity].
  rewrite IH. apply perm_swap.
Qed.

Lemma sort_values_Permutation (l : list A) : Permutation (sort_values after l) l.
Proof.
  induction l as [|x l IH]; simpl; [reflexivity|].
  rewrite insert_sorted_Permutation. now apply perm_skip.
Qed.

Lemma elem_of_sort_values (x : A) (l : list A) :
  x ∈ sort_values after l <-> x ∈ l.
Proof. now rewrite sort_values_Permutation. Qed.

End Sorting.

Lemma Permutation_List_filter {A : Type} (p : A -> bool) (l l' : list A) :
  Permutation l l' -> Permutation (List.filter p l) (List.filter p l').
Proof.
  induction 1 as [|x l l' _ IH|x y l|l l' l'' _ IH1 _ IH2]; simpl.
  - reflexivity.
  - destruct (p x); [now apply perm_skip | exact IH].
  - destruct (p x), (p y); try reflexivity. apply perm_swap.
  - now rewrite IH1.
Qed.

Lemma Series_sum_Permutation (l l' : list Q) :
  Permutation l l' -> (Series_sum l == Series_sum l')%Q.
Proof.
  induction 1 as [|x l l' _ IH|x y l|l l' l'' _ IH1 _ IH2]; simpl.
  - reflexivity.
  - now rewrite IH.
  - ring.
  - now rewrite IH1.
Qed.

(** ** The rank that pandas computes *)

Lemma insert_sorted_descending (x : Q) (l : list Q) :
  descending l -> descending (insert_sorted (desc (fun v => v)) x l).
Proof.
  unfold descending. induction 1 as [|h t Hs IH Hall]; simpl.
  - repeat constructor.
  - unfold desc at 1. destruct (Qltb x h) eqn:E.
    + constructor; [exact IH|].
      rewrite insert_sorted_Permutation. constructor; [|exact Hall].
      apply Qltb_lt in E. now apply Qlt_le_weak.
    + apply Qltb_ge in E. constructor; [now constructor|].
      constructor; [exact E|].
      eapply Forall_impl; [exact Hall|]. intros b Hb. simpl in Hb.
      now apply Qle_trans with h.
Qed.

Lemma sort_values_descending (l : list Q) :
  descending (sort_values (desc (fun v => v)) l).
Proof.
  induction l as [|x l IH]; simpl; [constructor|].
  now apply insert_sorted_descending.
Qed.

Lemma count_greater_below (v : Q) (l : list Q) :
  Forall (fun b => (b <= v)%Q) l -> count_greater v l = 0%nat.
Proof.
  unfold count_greater. induction 1 as [|b l Hb _ IH]; simpl; [reflexivity|].
  destruct (Qltb v b) eqn:E; [|exact IH].
  apply Qltb_lt in E. exfalso. exact (Qlt_not_le _ _ E Hb).
Qed.

Lemma count_equal_below (v h : Q) (l : list Q) :
  (h < v)%Q -> Forall (fun b => (b <= h)%Q) l -> count_equal v l = 0%nat.
Proof.
  intros Hlt. unfold count_equal.
  induction 1 as [|b l Hb _ IH]; simpl; [reflexivity|].
  destruct (Qeq_bool b v) eqn:E; [|exact IH].
  apply Qeq_bool_iff in E. exfalso. rewrite E in Hb.
  exact (Qlt_not_le _ _ Hlt Hb).
Qed.

(** In a descending list the occurrences of a value are consecutive and
    start after the greater values. *)
Lemma positions_from_descending (v : Q) (l : list Q) :
  descending l ->
  forall start,
    positions_from start v l
    = seq (start + count_greater v l) (count_equal v l).
Proof.
  unfold descending. induction 1 as [|h t Hs IH Hall]; intros start; simpl.
  - reflexivity.
  - unfold count_greater, count_equal in *. simpl.
    destruct (Qeq_bool h v) eqn:Eeq.
    + apply Qeq_bool_iff in Eeq.
      assert (Qltb v h = false) as ->.
      { apply Qltb_ge. rewrite Eeq. apply Qle_refl. }
      assert (count_greater v t = 0%nat) as Hg.
      { apply count_greater_below. eapply Forall_impl; [exact Hall|].
        intros b Hb. simpl in Hb. now rewrite <- Eeq. }
      unfold count_greater in Hg. rewrite IH, Hg. simpl.
      rewrite !Nat.add_0_r. reflexivity.
    + destruct (Qltb v h) eqn:Egt; simpl.
      * rewrite IH. f_equal. lia.
      * assert (h < v)%Q as Hlt.
        { apply Qltb_ge in Egt. apply Qle_lteq in Egt as [Hlt|Heq]; [exact Hlt|].
          apply Qeq_bool_neq in Eeq. contradiction. }
        rewrite IH.
        pose proof (count_equal_below v h t Hlt Hall) as He.
        unfold count_equal in He. rewrite He. reflexivity.
Qed.

Lemma sum_seq (n start : nat) :
  (2 * fold_right Nat.add 0 (seq start n) + n = n * (2 * start + n))%nat.
Proof.
  revert start. induction n as [|n IH]; intros start; simpl; [lia|].
  specialize (IH (S start)). nia.
Qed.

Lemma float_of_count_add (a b : nat) :
  (float_of_count (a + b) == float_of_count a + float_of_count b)%Q.
Proof. unfold float_of_count. now rewrite Nat2Z.inj_add, inject_Z_plus. Qed.

Lemma float_of_count_mul (a b : nat) :
  (float_of_count (a * b) == float_of_count a * float_of_count b)%Q.
Proof. unfold float_of_count. now rewrite Nat2Z.inj_mul, inject_Z_mult. Qed.

Lemma float_of_count_le (a b : nat) :
  (a <= b)%nat -> (float_of_count a <= float_of_count b)%Q.
Proof. intros H. unfold float_of_count. rewrite <- Zle_Qle. lia. Qed.

Lemma float_of_count_pos (a : nat) :
  (0 < a)%nat -> (0 < float_of_count a)%Q.
Proof.
  intros H. unfold float_of_count. change 0%Q with (inject_Z 0).
  rewrite <- Zlt_Qlt. lia.
Qed.

Lemma count_greater_sort_values (v : Q) (values : list Q) :
  count_greater v (sort_values (desc (fun x => x)) values)
  = count_greater v values.
Proof.
  unfold count_greater. apply Permutation_length, Permutation_List_filter,
    sort_values_Permutation.
Qed.

Lemma count_equal_sort_values (v : Q) (values : list Q) :
  count_equal v (sort_values (desc (fun x => x)) values) = count_equal v values.
Proof.
  unfold count_equal. apply Permutation_length, Permutation_List_filter,
    sort_values_Permutation.
Qed.

(** The rank pandas assigns is the closed form, for a value of the column. *)
Lemma rank_descending_average_rank (values : list Q) (v : Q) :
  (0 < count_equal v values)%nat ->
  (rank_descending values v == average_rank values v)%Q.
Proof.
  intros Hpos. unfold rank_descending, average_rank.
  rewrite (positions_from_descending v _ (sort_values_descending values)).
  rewrite length_seq, count_greater_sort_values, count_equal_sort_values.
  pose proof (sum_seq (count_equal v values) (1 + count_greater v values)) as Hs.
  assert (float_of_count
            (2 * fold_right Nat.add 0%nat
                   (seq (1 + count_greater v values) (count_equal v values))
             + count_equal v values)
          == float_of_count
               (count_equal v values
                * (2 * (1 + count_greater v values) + count_equal v values)))%Q
    as HQ by (rewrite Hs; reflexivity).
  clear Hs. rename HQ into Hs.
  rewrite float_of_count_add, !float_of_count_mul, !float_of_count_add in Hs.
  rewrite float_of_count_mul, float_of_count_add in Hs.
  pose proof (float_of_count_pos _ Hpos) as HE.
  set (S := float_of_count (fold_right Nat.add 0%nat _)) in *.
  set (E := float_of_count (count_equal v values)) in *.
  set (G := float_of_count (count_greater v values)) in *.
  change (float_of_count 2) with 2%Q in Hs.
  change (float_of_count 1) with 1%Q in Hs.
  field_simplify_eq; [|intros H0; rewrite H0 in HE; now apply Qlt_irrefl in HE].
  lra.
Qed.

Lemma count_greater_Permutation (v : Q) (l l' : list Q) :
  Permutation l l' -> count_greater v l = count_greater v l'.
Proof.
  intros H. unfold count_greater.
  now apply Permutation_length, Permutation_List_filter.
Qed.

Lemma count_equal_Permutation (v : Q) (l l' : list Q) :
  Permutation l l' -> count_equal v l = count_equal v l'.
Proof.
  intros H. unfold count_equal.
  now apply Permutation_length, Permutation_List_filter.
Qed.

Lemma count_equal_pos (v : Q) (l : list Q) :
  v ∈ l -> (0 < count_equal v l)%nat.
Proof.
  unfold count_equal. induction 1 as [v l|v w l _ IH]; simpl.
  - rewrite Qeq_bool_refl. simpl. lia.
  - destruct (Qeq_bool w v); simpl; lia.
Qed.

Lemma Qltb_proper (v w x : Q) : (v == w)%Q -> Qltb v x = Qltb w x.
Proof.
  intros H. destruct (Qltb w x) eqn:E.
  - apply Qltb_lt. apply Qltb_lt in E. now rewrite H.
  - apply Qltb_ge. apply Qltb_ge in E. now rewrite H.
Qed.

Lemma Qeq_bool_proper (v w x : Q) : (v == w)%Q -> Qeq_bool x v = Qeq_bool x w.
Proof.
  intros H. destruct (Qeq_bool x w) eqn:E.
  - apply Qeq_bool_iff. apply Qeq_bool_iff in E. now rewrite H.
  - destruct (Qeq_bool x v) eqn:E'; [|reflexivity].
    apply Qeq_bool_iff in E'. apply Qeq_bool_neq in E.
    exfalso. apply E. now rewrite E'.
Qed.

Lemma Qhalf (x : Q) : (x / 2 == x * (1 # 2))%Q.
Proof. field. Qed.

(** Equal values have equal ranks. *)
Lemma average_rank_Qeq (values : list Q) (v w : Q) :
  (v == w)%Q -> (average_rank values v == average_rank values w)%Q.
Proof.
  intros H. unfold average_rank, count_greater, count_equal.
  assert (List.filter (fun x => Qltb v x) values
          = List.filter (fun x => Qltb w x) values) as ->.
  { apply filter_ext. intros x. now apply Qltb_proper. }
  assert (List.filter (fun x => Qeq_bool x v) values
          = List.filter (fun x => Qeq_bool x w) values) as ->.
  { apply filter_ext. intros x. now apply Qeq_bool_proper. }
  reflexivity.
Qed.

Lemma count_greater_step (v w : Q) (values : list Q) :
  (v < w)%Q ->
  (count_greater w values + count_equal w values <= count_greater v values)%nat.
Proof.
  intros Hlt. unfold count_greater, count_equal.
  induction values as [|x l IH]; simpl; [lia|].
  destruct (Qltb w x) eqn:E1, (Qeq_bool x w) eqn:E2, (Qltb v x) eqn:E3;
    simpl; try lia; exfalso.
  - apply Qltb_lt in E1. apply Qeq_bool_iff in E2. rewrite E2 in E1.
    now apply Qlt_irrefl in E1.
  - apply Qltb_lt in E1. apply Qeq_bool_iff in E2. rewrite E2 in E1.
    now apply Qlt_irrefl in E1.
  - apply Qltb_lt in E1. apply Qltb_ge in E3.
    apply (Qlt_irrefl v). apply Qlt_le_trans with x; [|exact E3].
    now apply Qlt_trans with w.
  - apply Qeq_bool_iff in E2. apply Qltb_ge in E3. rewrite E2 in E3.
    exact (Qlt_not_le _ _ Hlt E3).
Qed.

(** A greater value has a smaller rank. *)
Lemma average_rank_lt (values : list Q) (v w : Q) :
  (v < w)%Q -> v ∈ values -> w ∈ values ->
  (average_rank values w < average_rank values v)%Q.
Proof.
  intros Hlt Hv Hw. unfold average_rank.
  pose proof (float_of_count_le _ _ (count_greater_step v w values Hlt)) as Hg.
  rewrite float_of_count_add in Hg.
  pose proof (float_of_count_pos _ (count_equal_pos v values Hv)) as Hev.
  pose proof (float_of_count_pos _ (count_equal_pos w values Hw)) as Hew.
  set (Gv := float_of_count (count_greater v values)) in *.
  set (Gw := float_of_count (count_greater w values)) in *.
  set (Ev := float_of_count (count_equal v values)) in *.
  set (Ew := float_of_count (count_equal w values)) in *.
  clearbody Gv Gw Ev Ew. rewrite !Qhalf. lra.
Qed.

(** Without ties the rank is the dense rank. *)
Lemma distinct_values_no_ties (values : list Q) :
  (forall x, x ∈ values -> count_equal x values = 1%nat) ->
  distinct_values values = values.
Proof.
  induction values as [|v l IH]; intros Hone; simpl; [reflexivity|].
  assert (existsb (Qeq_bool v) l = false) as ->.
  { pose proof (Hone v (list_elem_of_here _ _)) as H1.
    unfold count_equal in H1. simpl in H1. rewrite Qeq_bool_refl in H1.
    simpl in H1. destruct (existsb (Qeq_bool v) l) eqn:E; [|reflexivity].
    apply existsb_exists in E as (x & Hx & Hvx).
    assert (0 < length (List.filter (fun x => Qeq_bool x v) l))%nat; [|lia].
    clear -Hx Hvx. induction l as [|y l IH]; [destruct Hx|].
    simpl. destruct Hx as [->|Hx].
    - rewrite Qeq_bool_comm, Hvx. simpl. lia.
    - destruct (Qeq_bool y v); simpl; [lia | auto]. }
  f_equal. apply IH. intros x Hx.
  pose proof (Hone x (list_elem_of_further _ _ _ Hx)) as H1.
  pose proof (count_equal_pos x l Hx) as H2.
  unfold count_equal in *. simpl in H1.
  destruct (Qeq_bool v x); simpl in H1; lia.
Qed.

Lemma average_rank_dense_rank (values : list Q) (v : Q) :
  (forall x, x ∈ values -> count_equal x values = 1%nat) ->
  v ∈ values ->
  (average_rank values v == dense_rank values v)%Q.
Proof.
  intros Hone Hv. unfold average_rank, dense_rank.
  rewrite (distinct_values_no_ties values Hone), (Hone v Hv).
  change (S (count_greater v values)) with (1 + count_greater v values)%nat.
  rewrite float_of_count_add.
  change (float_of_count 1) with 1%Q. field.
Qed.

(** ** The analyzer object *)

Section AnalyzerObject.
Variable products_df : list ProductCategoriesDF.row.
Variable items_df : list ItemsDF.row.
Variable output_dir : string.

Lemma lookup_init_items_df :
  OlistAnalyzer__init__ products_df items_df output_dir !! "items_df"
  = Some (FrameV (Items items_df)).
Proof.
  unfold OlistAnalyzer__init__.
  rewrite lookup_insert_ne by discriminate. apply lookup_insert_eq.
Qed.

Lemma lookup_init_products_df :
  OlistAnalyzer__init__ products_df items_df output_dir !! "products_df"
  = Some (FrameV (ProductCategories products_df)).
Proof.
  unfold OlistAnalyzer__init__.
  rewrite !lookup_insert_ne by discriminate. apply lookup_insert_eq.
Qed.

Lemma lookup_init_output_dir :
  OlistAnalyzer__init__ products_df items_df output_dir !! "output_dir"
  = Some (StrV output_dir).
Proof. unfold OlistAnalyzer__init__. apply lookup_insert_eq. Qed.

(** The constructor defines three attributes and no other. *)
Lemma lookup_init_other (name : string) :
  name <> "products_df" -> name <> "items_df" -> name <> "output_dir" ->
  OlistAnalyzer__init__ products_df items_df output_dir !! name = None.
Proof.
  intros H1 H2 H3. unfold OlistAnalyzer__init__.
  rewrite !lookup_insert_ne by congruence. apply lookup_empty.
Qed.

Lemma dom_init :
  dom (OlistAnalyzer__init__ products_df items_df output_dir)
  = ({["products_df"; "items_df"; "output_dir"]} : gset string).
Proof.
  unfold OlistAnalyzer__init__. rewrite !dom_insert_L, dom_empty_L.
  apply set_eq. intros x. rewrite !elem_of_union, !elem_of_singleton.
  rewrite elem_of_empty. tauto.
Qed.

Lemma calculate_category_metrics_init :
  calculate_category_metrics
    (OlistAnalyzer__init__ products_df items_df output_dir)
  = Ok (category_metrics items_df products_df).
Proof.
  unfold calculate_category_metrics, getattr.
  rewrite lookup_init_items_df, lookup_init_products_df. reflexivity.
Qed.

Lemma analyze_average_ticket_init :
  analyze_average_ticket
    (OlistAnalyzer__init__ products_df items_df output_dir)
  = Ok (average_ticket (category_metrics items_df products_df)).
Proof.
  unfold analyze_average_ticket.
  rewrite calculate_category_metrics_init. reflexivity.
Qed.

Lemma analyze_category_popularity_init :
  analyze_category_popularity
    (OlistAnalyzer__init__ products_df items_df output_dir)
  = Ok (category_popularity (category_metrics items_df products_df)).
Proof.
  unfold analyze_category_popularity.
  rewrite calculate_category_metrics_init. reflexivity.
Qed.

End AnalyzerObject.

(** C5: an analyzer, as its constructor leaves it, has the attributes
    [products_df], [items_df] and [output_dir] and no attribute [datasets];
    on it [analyze_sales_by_month], [analyze_delivery_metrics] and therefore
    [generate_detailed_excel_report] raise [AttributeError] for [datasets]
    and return no table. *)
Theorem C5_datasets_is_never_defined (fsqrt : Q -> Q) (to_period_M : Z -> Z)
    (products_df : list ProductCategoriesDF.row) (items_df : list ItemsDF.row)
    (output_dir : string) :
  let self := OlistAnalyzer__init__ products_df items_df output_dir in
  dom self = ({["products_df"; "items_df"; "output_dir"]} : gset string)
  /\ self !! "datasets" = None
  /\ getattr self "datasets" = Raise (AttributeError "datasets")
  /\ analyze_sales_by_month to_period_M self
     = Raise (AttributeError "datasets")
  /\ analyze_delivery_metrics fsqrt self = Raise (AttributeError "datasets")
  /\ generate_detailed_excel_report fsqrt to_period_M self
     = Raise (AttributeError "datasets").
Proof.
  intros self.
  assert (self !! "datasets" = None) as Hnone.
  { apply lookup_init_other; discriminate. }
  assert (getattr self "datasets" = Raise (AttributeError "datasets")) as Hget.
  { unfold getattr. now rewrite Hnone. }
  assert (analyze_sales_by_month to_period_M self
          = Raise (AttributeError "datasets")) as Hmonth.
  { unfold analyze_sales_by_month.
    unfold getattr at 1. unfold self at 1. rewrite lookup_init_items_df. simpl.
    unfold getattr at 1. unfold self at 1. rewrite lookup_init_products_df. simpl.
    now rewrite Hget. }
  split; [apply dom_init|].
  split; [exact Hnone|].
  split; [exact Hget|].
  split; [exact Hmonth|].
  split.
  - unfold analyze_delivery_metrics. now rewrite Hget.
  - unfold generate_detailed_excel_report. unfold self at 1.
    rewrite calculate_category_metrics_init. simpl. now rewrite Hmonth.
Qed.

(** ** Ranks in the metrics and ticket tables *)

Lemma average_rank_Permutation (l l' : list Q) (v : Q) :
  Permutation l l' -> average_rank l v = average_rank l' v.
Proof.
  intros H. unfold average_rank.
  now rewrite (count_greater_Permutation v l l' H),
              (count_equal_Permutation v l l' H).
Qed.

Lemma elem_of_map {A B : Type} (f : A -> B) (l : list A) (y : B) :
  y ∈ List.map f l <-> exists x, x ∈ l /\ y = f x.
Proof.
  rewrite list_elem_of_In, in_map_iff. split.
  - intros (x & <- & Hx). exists x. now rewrite list_elem_of_In.
  - intros (x & Hx & ->). exists x. now rewrite <- list_elem_of_In.
Qed.

(** Any table built as the two ranked tables are: each row gets the rank of
    its key in the key column, and the rows are then sorted. *)
Lemma average_ranked_sorted_rows {A B : Type} (key : A -> Q)
    (build : list Q -> A -> B) (key' rank' : B -> Q)
    (after : B -> B -> bool) (rows : list A) :
  (forall vs a, key' (build vs a) = key a) ->
  (forall vs a, rank' (build vs a) = rank_descending vs (key a)) ->
  average_ranked key' rank'
    (sort_values after (List.map (build (List.map key rows)) rows)).
Proof.
  intros Hkey Hrank.
  set (table := sort_values after (List.map (build (List.map key rows)) rows)).
  assert (Permutation (List.map key' table) (List.map key rows)) as Hperm.
  { unfold table. rewrite sort_values_Permutation, map_map.
    erewrite map_ext; [reflexivity|]. intros a. apply Hkey. }
  assert (forall r, r ∈ table ->
            (rank' r == average_rank (List.map key' table) (key' r))%Q) as Hclosed.
  { intros r Hr. unfold table in Hr.
    apply elem_of_sort_values, elem_of_map in Hr as (a & Ha & ->).
    rewrite Hrank, Hkey, (average_rank_Permutation _ _ _ Hperm).
    apply rank_descending_average_rank, count_equal_pos, elem_of_map.
    now exists a. }
  assert (forall r, r ∈ table -> key' r ∈ List.map key' table) as Hin.
  { intros r Hr. apply elem_of_map. now exists r. }
  split; [exact Hclosed|]. split.
  - intros r1 r2 H1 H2 Heq.
    rewrite (Hclosed r1 H1), (Hclosed r2 H2). now apply average_rank_Qeq.
  - intros r1 r2 H1 H2 Hlt.
    rewrite (Hclosed r1 H1), (Hclosed r2 H2). apply average_rank_lt; auto.
Qed.

Lemma total_revenue_metrics_row (revenues : list Q)
    (m : string * nat * Q * Q * nat) :
  MetricsDF.total_revenue (metrics_row revenues m) = base_revenue m.
Proof. destruct m as [[[[c s] r] t] d]. reflexivity. Qed.

Lemma revenue_rank_metrics_row (revenues : list Q)
    (m : string * nat * Q * Q * nat) :
  MetricsDF.revenue_rank (metrics_row revenues m)
  = rank_descending revenues (base_revenue m).
Proof. destruct m as [[[[c s] r] t] d]. reflexivity. Qed.

(** C2, as the code has it: [revenue_rank] and [ticket_rank] are average
    ranks, descending.  A row's rank is the number of rows with a strictly
    greater value plus the mean place among the rows with the same value, so
    equal values get equal ranks and a greater value gets a smaller rank;
    this holds of [revenue_rank] over [total_revenue] in the metrics table
    and of [ticket_rank] over [avg_ticket] in the ticket table. *)
Theorem C2_ranks_are_average_ranks
    (products_df : list ProductCategoriesDF.row) (items_df : list ItemsDF.row)
    (output_dir : string) :
  let self := OlistAnalyzer__init__ products_df items_df output_dir in
  exists metrics tickets,
    calculate_category_metrics self = Ok metrics
    /\ analyze_average_ticket self = Ok tickets
    /\ average_ranked MetricsDF.total_revenue MetricsDF.revenue_rank metrics
    /\ average_ranked TicketDF.avg_ticket TicketDF.ticket_rank tickets.
Proof.
  intros self.
  exists (category_metrics items_df products_df),
         (average_ticket (category_metrics items_df products_df)).
  split; [apply calculate_category_metrics_init|].
  split; [apply analyze_average_ticket_init|].
  split.
  - unfold category_metrics.
    apply (average_ranked_sorted_rows base_revenue metrics_row).
    + apply total_revenue_metrics_row.
    + apply revenue_rank_metrics_row.
  - unfold average_ticket.
    apply (average_ranked_sorted_rows MetricsDF.avg_ticket ticket_row);
      reflexivity.
Qed.

(** ** Groups *)

Section Groups.
Context {K : Type} `{EqDecision K} (ltb : K -> K -> bool).

Lemma insert_key_Permutation (k : K) (keys : list K) :
  Permutation (insert_key ltb k keys) (k :: keys).
Proof.
  induction keys as [|h t IH]; simpl; [reflexivity|].
  destruct (ltb k h); [reflexivity|]. rewrite IH. apply perm_swap.
Qed.

Lemma elem_of_add_key (c : option K) (x : K) (keys : list K) :
  x ∈ add_key ltb c keys <-> c = Some x \/ x ∈ keys.
Proof.
  destruct c as [k|]; simpl.
  - case_bool_decide as Hk.
    + split; [auto|]. intros [[= ->]|Hx]; assumption.
    + rewrite insert_key_Permutation, elem_of_cons.
      split; (intros [H|H]; [left; congruence | now right]).
  - split; [auto|]. now intros [[=]|Hx].
Qed.

(** The table has one group for a key. *)
Lemma NoDup_group_keys (column : list (option K)) :
  NoDup (group_keys ltb column).
Proof.
  induction column as [|c column IH]; simpl; [constructor|].
  destruct c as [k|]; simpl; [|exact IH].
  case_bool_decide as Hk; [exact IH|].
  rewrite insert_key_Permutation. now constructor.
Qed.

(** The groups are the keys that occur: a missing key makes no group. *)
Lemma elem_of_group_keys (column : list (option K)) (k : K) :
  k ∈ group_keys ltb column <-> Some k ∈ column.
Proof.
  induction column as [|c column IH].
  - split; intros H; inversion H.
  - change (group_keys ltb (c :: column))
      with (add_key ltb c (group_keys ltb column)).
    rewrite elem_of_add_key, elem_of_cons, IH.
    split; (intros [H|H]; [left; congruence | now right]).
Qed.

End Groups.

Lemma elem_of_List_filter {A : Type} (p : A -> bool) (l : list A) (x : A) :
  x ∈ List.filter p l <-> x ∈ l /\ p x = true.
Proof. now rewrite !list_elem_of_In, filter_In. Qed.

Lemma length_pos_of_elem {A : Type} (x : A) (l : list A) :
  x ∈ l -> (1 <= length l)%nat.
Proof. destruct 1; simpl; lia. Qed.

Lemma nunique_pos {A : Type} `{EqDecision A} (l : list A) :
  (1 <= length l)%nat -> (1 <= nunique l)%nat.
Proof.
  destruct l as [|x l]; simpl; [lia|]. intros _.
  unfold nunique, drop_duplicates. simpl. lia.
Qed.

Lemma nunique_le_length {A : Type} `{EqDecision A} (l : list A) :
  (nunique l <= length l)%nat.
Proof. apply length_drop_duplicates_from. Qed.

(** ** Rows of the metrics table *)

Lemma elem_of_category_metrics (items_df : list ItemsDF.row)
    (products_df : list ProductCategoriesDF.row) (r : MetricsDF.row) :
  r ∈ category_metrics items_df products_df <->
  exists m,
    m ∈ base_metrics (sales_data_left items_df products_df)
    /\ r = metrics_row
             (List.map base_revenue
                (base_metrics (sales_data_left items_df products_df))) m.
Proof. unfold category_metrics. now rewrite elem_of_sort_values, elem_of_map. Qed.

(** Every group has a row of the sales data in it. *)
Lemma elem_of_base_metrics (sales_data : list SalesDF.row)
    (m : string * nat * Q * Q * nat) :
  m ∈ base_metrics sales_data ->
  exists k g,
    g = group_rows SalesDF.normalized_category k sales_data
    /\ (1 <= length g)%nat
    /\ m = (k, length g, Series_sum (List.map sale_price g),
            (Series_sum (List.map sale_price g) / float_of_count (length g))%Q,
            nunique (List.map sale_product g)).
Proof.
  unfold base_metrics. rewrite elem_of_map. intros (k & Hk & ->).
  exists k, (group_rows SalesDF.normalized_category k sales_data).
  split; [reflexivity|]. split; [|reflexivity].
  apply elem_of_group_keys, elem_of_map in Hk as (row & Hrow & Hcat).
  apply (length_pos_of_elem row). unfold group_rows.
  apply elem_of_List_filter. split; [exact Hrow|].
  now apply bool_decide_eq_true.
Qed.

Lemma metrics_row_counts (items_df : list ItemsDF.row)
    (products_df : list ProductCategoriesDF.row) (r : MetricsDF.row) :
  r ∈ category_metrics items_df products_df ->
  (1 <= MetricsDF.total_sales r)%nat
  /\ (1 <= MetricsDF.product_diversity r)%nat
  /\ (MetricsDF.product_diversity r <= MetricsDF.total_sales r)%nat.
Proof.
  intros Hr. apply elem_of_category_metrics in Hr as (m & Hm & ->).
  apply elem_of_base_metrics in Hm as (k & g & _ & Hg & ->). simpl.
  split; [exact Hg|]. split.
  - apply nunique_pos. now rewrite length_map.
  - etransitivity; [apply nunique_le_length|]. now rewrite length_map.
Qed.

Lemma revenues_Permutation (items_df : list ItemsDF.row)
    (products_df : list ProductCategoriesDF.row) :
  Permutation
    (List.map MetricsDF.total_revenue (category_metrics items_df products_df))
    (List.map base_revenue
       (base_metrics (sales_data_left items_df products_df))).
Proof.
  unfold category_metrics. rewrite sort_values_Permutation, map_map.
  erewrite map_ext; [reflexivity|]. intros m. apply total_revenue_metrics_row.
Qed.

(** ** Division by zero *)

Lemma signed_inf_not_finite (x : Q) : is_finite (signed_inf x) = false.
Proof. unfold signed_inf. destruct (Qeq_bool x 0), (Qltb 0 x); reflexivity. Qed.

Lemma num_div_zero (x total : Q) :
  (total == 0)%Q -> num_div (Fin x) (Fin total) = signed_inf x.
Proof. intros H. simpl. now rewrite (Qeq_eq_bool _ _ H). Qed.

Lemma num_mul_not_finite (a : num) (q : Q) :
  is_finite a = false -> is_finite (num_mul a (Fin q)) = false.
Proof.
  destruct a; simpl; try discriminate; intros _;
    try apply signed_inf_not_finite; try reflexivity.
  destruct (signed_inf q) eqn:E; try reflexivity.
  pose proof (signed_inf_not_finite q) as H. now rewrite E in H.
Qed.

Lemma num_mul_not_finite_l (a : num) :
  is_finite a = false -> is_finite (num_mul (Fin (4 # 10)) a) = false.
Proof. destruct a; simpl; try discriminate; reflexivity. Qed.

Lemma num_div_not_finite (a : num) :
  is_finite a = false -> is_finite (num_div a (Fin 100)) = false.
Proof. destruct a; simpl; try discriminate; reflexivity. Qed.

Lemma num_add_not_finite_l (a b : num) :
  is_finite a = false -> is_finite (num_add a b) = false.
Proof. destruct a, b; simpl; try discriminate; reflexivity. Qed.

Lemma num_add_not_finite_r (a b : num) :
  is_finite b = false -> is_finite (num_add a b) = false.
Proof. destruct a, b; simpl; try discriminate; reflexivity. Qed.

Lemma revenue_share_not_finite (revenues : list Q)
    (m : string * nat * Q * Q * nat) :
  (Series_sum revenues == 0)%Q ->
  is_finite (MetricsDF.revenue_share (metrics_row revenues m)) = false.
Proof.
  intros H. destruct m as [[[[c s] r] t] d]. unfold metrics_row.
  cbn [MetricsDF.revenue_share]. rewrite (num_div_zero _ _ H).
  apply num_mul_not_finite, signed_inf_not_finite.
Qed.

Lemma popularity_score_not_finite (total_sales : nat) (max_diversity : num)
    (m : MetricsDF.row) :
  is_finite (MetricsDF.revenue_share m) = false ->
  is_finite (PopularityDF.popularity_score
               (popularity_row total_sales max_diversity m)) = false.
Proof.
  intros H. unfold popularity_row. cbn [PopularityDF.popularity_score].
  apply num_add_not_finite_l, num_add_not_finite_r, num_div_not_finite,
    num_mul_not_finite_l, H.
Qed.

Lemma fold_max_ge (v : nat) (rest : list nat) :
  (v <= fold_right Nat.max v rest)%nat.
Proof. induction rest as [|x rest IH]; simpl; lia. Qed.

Lemma fold_max_ge_elem (v x : nat) (rest : list nat) :
  x ∈ rest -> (x <= fold_right Nat.max v rest)%nat.
Proof. induction 1; simpl; lia. Qed.

(** C3, as the code has it: nothing aborts.  On an analyzer as its
    constructor leaves it, [calculate_category_metrics] and
    [analyze_category_popularity] always return a table; when the revenue of
    all categories sums to zero, every [revenue_share] and every
    [popularity_score] in those tables is NaN or an infinity.  The largest
    [product_diversity] is never zero, since every category of the table has
    at least one line item and one product; of an empty table it is NaN, and
    the popularity table is empty too. *)
Theorem C3_division_by_zero_is_silent
    (products_df : list ProductCategoriesDF.row) (items_df : list ItemsDF.row)
    (output_dir : string) :
  let self := OlistAnalyzer__init__ products_df items_df output_dir in
  exists metrics popularity,
    calculate_category_metrics self = Ok metrics
    /\ analyze_category_popularity self = Ok popularity
    /\ ((Series_sum (List.map MetricsDF.total_revenue metrics) == 0)%Q ->
        (forall r, r ∈ metrics ->
           is_finite (MetricsDF.revenue_share r) = false)
        /\ (forall r, r ∈ popularity ->
              is_finite (PopularityDF.popularity_score r) = false))
    /\ (forall r, r ∈ metrics ->
          (1 <= MetricsDF.total_sales r)%nat
          /\ (1 <= MetricsDF.product_diversity r)%nat)
    /\ (forall q,
          Series_max (List.map MetricsDF.product_diversity metrics) = Fin q ->
          (1 <= q)%Q)
    /\ (Series_max (List.map MetricsDF.product_diversity metrics) = NaN ->
        metrics = [] /\ popularity = []).
Proof.
  intros self.
  exists (category_metrics items_df products_df),
         (category_popularity (category_metrics items_df products_df)).
  split; [apply calculate_category_metrics_init|].
  split; [apply analyze_category_popularity_init|].
  assert (forall r, r ∈ category_metrics items_df products_df ->
            (1 <= MetricsDF.total_sales r)%nat
            /\ (1 <= MetricsDF.product_diversity r)%nat) as Hcounts.
  { intros r Hr. destruct (metrics_row_counts _ _ _ Hr) as (H1 & H2 & _). auto. }
  split; [|split; [exact Hcounts|split]].
  - intros Hzero.
    rewrite (Series_sum_Permutation _ _ (revenues_Permutation _ _)) in Hzero.
    assert (forall r, r ∈ category_metrics items_df products_df ->
              is_finite (MetricsDF.revenue_share r) = false) as Hshare.
    { intros r Hr. apply elem_of_category_metrics in Hr as (m & _ & ->).
      now apply revenue_share_not_finite. }
    split; [exact Hshare|].
    intros r Hr. unfold category_popularity in Hr.
    apply elem_of_sort_values, elem_of_map in Hr as (m & Hm & ->).
    apply popularity_score_not_finite, Hshare, Hm.
  - intros q Hq.
    destruct (category_metrics items_df products_df) as [|r rest] eqn:E;
      [discriminate|].
    simpl in Hq. injection Hq as <-.
    change 1%Q with (float_of_count 1). apply float_of_count_le.
    destruct (Hcounts r (list_elem_of_here _ _)) as [_ Hd].
    etransitivity; [exact Hd | apply fold_max_ge].
  - intros Hnan.
    destruct (category_metrics items_df products_df) as [|r rest];
      [split; reflexivity | discriminate].
Qed.

(** ** Delivery metrics *)






#[local] Arguments delivery_data : simpl never.







(** ** Items without a product *)

Lemma group_keys_notna {K : Type} `{EqDecision K} (ltb : K -> K -> bool)
    {A : Type} (key : A -> option K) (df : list A) :
  group_keys ltb (List.map key (List.filter (fun r => notna (key r)) df))
  = group_keys ltb (List.map key df).
Proof.
  induction df as [|r df IH]; simpl; [reflexivity|].
  destruct (key r) as [k|] eqn:E; simpl; [|exact IH].
  now rewrite E, IH.
Qed.

Lemma group_rows_notna {A K : Type} `{EqDecision K} (key : A -> option K)
    (k : K) (df : list A) :
  group_rows key k (List.filter (fun r => notna (key r)) df)
  = group_rows key k df.
Proof.
  unfold group_rows. induction df as [|r df IH]; simpl; [reflexivity|].
  destruct (key r) as [k'|] eqn:E; simpl.
  - rewrite E, IH. reflexivity.
  - now rewrite IH.
Qed.

(** Rows of the sales data without a category belong to no group. *)
Lemma base_metrics_notna (sales_data : list SalesDF.row) :
  base_metrics
    (List.filter (fun r => notna (SalesDF.normalized_category r)) sales_data)
  = base_metrics sales_data.
Proof.
  unfold base_metrics.
  rewrite (group_keys_notna String.ltb SalesDF.normalized_category).
  apply map_ext. intros k.
  now rewrite (group_rows_notna SalesDF.normalized_category).
Qed.

Lemma existsb_filter_nil {A : Type} (p : A -> bool) (l : list A) :
  existsb p l = false <-> List.filter p l = [].
Proof.
  induction l as [|x l IH]; simpl; [tauto|].
  destruct (p x); simpl; [split; discriminate | exact IH].
Qed.

(** The rows of the left join that have a category come from the items that
    have a product. *)
Lemma sales_data_left_notna (items_df : list ItemsDF.row)
    (products_df : list ProductCategoriesDF.row) :
  List.filter (fun r => notna (SalesDF.normalized_category r))
    (sales_data_left items_df products_df)
  = List.filter (fun r => notna (SalesDF.normalized_category r))
      (sales_data_left (List.filter (has_product products_df) items_df)
         products_df).
Proof.
  unfold sales_data_left, merge_left.
  induction items_df as [|i items IH]; [reflexivity|].
  cbn [flat_map List.filter]. rewrite List.filter_app, IH.
  unfold has_product at 2.
  destruct (existsb _ products_df) eqn:E.
  - cbn [flat_map]. now rewrite List.filter_app.
  - apply existsb_filter_nil in E. rewrite E. reflexivity.
Qed.

(** The metrics table does not see the items whose product is not in the
    products table: it is the table of the remaining items. *)
Theorem unmatched_items_are_dropped (items_df : list ItemsDF.row)
    (products_df : list ProductCategoriesDF.row) :
  category_metrics items_df products_df
  = category_metrics (List.filter (has_product products_df) items_df)
      products_df.
Proof.
  unfold category_metrics.
  rewrite <- (base_metrics_notna (sales_data_left items_df products_df)).
  rewrite <- (base_metrics_notna
                (sales_data_left (List.filter (has_product products_df) items_df)
                   products_df)).
  now rewrite sales_data_left_notna.
Qed.

(** [product_diversity] never exceeds [total_sales], and both are positive. *)
Theorem product_diversity_le_total_sales
    (products_df : list ProductCategoriesDF.row) (items_df : list ItemsDF.row)
    (output_dir : string) :
  exists metrics,
    calculate_category_metrics
      (OlistAnalyzer__init__ products_df items_df output_dir) = Ok metrics
    /\ forall r, r ∈ metrics ->
         (1 <= MetricsDF.product_diversity r)%nat
         /\ (MetricsDF.product_diversity r <= MetricsDF.total_sales r)%nat.
Proof.
  exists (category_metrics items_df products_df).
  split; [apply calculate_category_metrics_init|].
  intros r Hr. destruct (metrics_row_counts _ _ _ Hr) as (_ & H1 & H2). auto.
Qed.

(** ** The sum of the revenue shares *)

Lemma revenue_share_finite (revenues : list Q)
    (m : string * nat * Q * Q * nat) :
  ~ (Series_sum revenues == 0)%Q ->
  MetricsDF.revenue_share (metrics_row revenues m)
  = Fin (base_revenue m / Series_sum revenues * 100).
Proof.
  intros H. destruct m as [[[[c s] r] t] d]. simpl.
  destruct (Qeq_bool (Series_sum revenues) 0) eqn:E; [|reflexivity].
  apply Qeq_bool_iff in E. contradiction.
Qed.

Lemma Series_sum_skipna_finite (values : list Q) :
  Series_sum_skipna (List.map Fin values) = Fin (Series_sum values).
Proof.
  induction values as [|v l IH]; simpl; [reflexivity|]. now rewrite IH.
Qed.

Lemma Series_sum_scaled (total : Q) (values : list Q) :
  (Series_sum (List.map (fun v => v / total * 100) values)
   == Series_sum values / total * 100)%Q.
Proof.
  induction values as [|v l IH]; simpl.
  - unfold Qdiv. ring.
  - rewrite IH. unfold Qdiv. ring.
Qed.

(** When the [total_revenue] column does not sum to zero, the
    [revenue_share] column sums to 100 (in exact arithmetic). *)
Theorem revenue_shares_sum_to_100
    (products_df : list ProductCategoriesDF.row) (items_df : list ItemsDF.row)
    (output_dir : string) :
  exists metrics,
    calculate_category_metrics
      (OlistAnalyzer__init__ products_df items_df output_dir) = Ok metrics
    /\ (~ (Series_sum (List.map MetricsDF.total_revenue metrics) == 0)%Q ->
        exists q,
          Series_sum_skipna (List.map MetricsDF.revenue_share metrics) = Fin q
          /\ (q == 100)%Q).
Proof.
  exists (category_metrics items_df products_df).
  split; [apply calculate_category_metrics_init|].
  intros Hnz.
  pose proof (revenues_Permutation items_df products_df) as Hperm.
  set (revenues := List.map base_revenue
         (base_metrics (sales_data_left items_df products_df))) in *.
  assert (~ (Series_sum revenues == 0)%Q) as Hnz'.
  { now rewrite <- (Series_sum_Permutation _ _ Hperm). }
  assert (List.map MetricsDF.revenue_share
            (category_metrics items_df products_df)
          = List.map Fin
              (List.map (fun v => v / Series_sum revenues * 100)%Q
                 (List.map MetricsDF.total_revenue
                    (category_metrics items_df products_df)))) as ->.
  { rewrite !map_map. apply map_ext_in. intros r Hr.
    apply list_elem_of_In, elem_of_category_metrics in Hr as (m & _ & ->).
    fold revenues. rewrite total_revenue_metrics_row.
    now apply revenue_share_finite. }
  eexists. split; [apply Series_sum_skipna_finite|].
  rewrite Series_sum_scaled, (Series_sum_Permutation _ _ Hperm).
  field. exact Hnz'.
Qed.

(** * Runs on small tables *)

(** C1, on the run above: the items of the product with an untranslated
    category and of the product with no category are counted under
    "Unknown", but the item whose product is not in the products table is
    counted in no row: the table accounts for three of the four items. *)
Theorem C1_item_of_unknown_product_is_dropped :
  exists metrics,
    main_category_metrics write_workbook read_workbook ∅ run_loader run_items
      "reports" = Ok metrics
    /\ sales_by_category metrics = [("Unknown", 2%nat); ("Toys", 1%nat)]
    /\ length run_items = 4%nat
    /\ Series_sum (List.map MetricsDF.total_revenue metrics) = 60%Q
    /\ Series_sum (List.map ItemsDF.price run_items) = 100%Q.
Proof. eexists. split; [vm_compute; reflexivity|]. vm_compute. auto. Qed.

(** C4, on a table with one item whose product is not in the products table:
    the sales input is not empty and its revenue is 10, yet the metrics table
    is empty and its [revenue_share] column sums to 0, not to 100. *)
Theorem C4_shares_of_dropped_items_sum_to_0 :
  let items_df :=
    [ {| ItemsDF.order_item_id := 1; ItemsDF.order_id := "o1";
         ItemsDF.product_id := "p9"; ItemsDF.price := 10 |} ] in
  Series_sum (List.map ItemsDF.price items_df) = 10%Q
  /\ calculate_category_metrics (OlistAnalyzer__init__ [] items_df "reports")
     = Ok []
  /\ Series_sum_skipna (List.map MetricsDF.revenue_share []) = Fin 0.
Proof. vm_compute. auto. Qed.

(** C2 fails on the tie: the revenues are 10, 10 and 5, their dense ranks 1, 1
    and 2, and the code ranks them 3/2, 3/2 and 3, in [revenue_rank] and in
    [ticket_rank] alike. *)
Lemma C2_ranks_are_not_dense :
  let self := OlistAnalyzer__init__ tie_products tie_items "reports" in
  exists metrics tickets,
    calculate_category_metrics self = Ok metrics
    /\ analyze_average_ticket self = Ok tickets
    /\ List.map MetricsDF.total_revenue metrics = [10; 10; 5]%Q
    /\ List.map (dense_rank (List.map MetricsDF.total_revenue metrics))
         (List.map MetricsDF.total_revenue metrics) = [1; 1; 2]%Q
    /\ List.map MetricsDF.revenue_rank metrics = [3 # 2; 3 # 2; 3]%Q
    /\ List.map TicketDF.ticket_rank tickets = [3 # 2; 3 # 2; 3]%Q
    /\ ~ (forall r, r ∈ metrics ->
            (MetricsDF.revenue_rank r
             == dense_rank (List.map MetricsDF.total_revenue metrics)
                  (MetricsDF.total_revenue r))%Q).
Proof.
  do 2 eexists.
  split; [vm_compute; reflexivity|].
  split; [vm_compute; reflexivity|].
  split; [vm_compute; reflexivity|].
  split; [vm_compute; reflexivity|].
  split; [vm_compute; reflexivity|].
  split; [vm_compute; reflexivity|].
  intros H. specialize (H _ (list_elem_of_here _ _)).
  vm_compute in H. discriminate.
Qed.

(** C3 fails when the revenue is zero: both functions return a table, with
    NaN in [revenue_share] and in [popularity_score]. *)
Lemma C3_zero_revenue_returns_NaN :
  let self := OlistAnalyzer__init__ tie_products free_items "reports" in
  exists m p,
    calculate_category_metrics self = Ok [m]
    /\ analyze_category_popularity self = Ok [p]
    /\ ~ raises (calculate_category_metrics self)
    /\ ~ raises (analyze_category_popularity self)
    /\ Series_sum (List.map MetricsDF.total_revenue [m]) = 0%Q
    /\ MetricsDF.revenue_share m = NaN
    /\ PopularityDF.popularity_score p = NaN.
Proof.
  do 2 eexists.
  split; [vm_compute; reflexivity|].
  split; [vm_compute; reflexivity|].
  vm_compute. tauto.
Qed.


(** C7 fails on that table: both rows stay in the mapping, which then has two
    entries for the raw label. *)
Lemma C7_raw_label_kept_twice :
  exists m1 m2,
    mapping_df
      (snd (create_initial_mapping write_workbook ∅
              (CategoryMapper__init__ "category_mapping.xlsx")
              twice_translated))
    = Some [m1; m2]
    /\ MappingDF.original_portuguese_category m1 = Some "casa"
    /\ MappingDF.original_portuguese_category m2 = Some "casa"
    /\ ~ NoDup (List.map MappingDF.original_portuguese_category [m1; m2]).
Proof.
  do 2 eexists. split; [vm_compute; reflexivity|].
  split; [reflexivity|]. split; [reflexivity|].
  simpl. intros H. apply NoDup_cons in H as [H _].
  apply H. left.
Qed.

(** C8 fails on a mapper that has no table in memory and no mapping file:
    the lookup raises, for a label and for a missing label alike.  And a
    lookup that returns need not return a label: in the workbook built from
    [na_categories] the canonical cell of casa holds the text None, which is
    read back as a missing value, and the lookup of casa returns NaN. *)
Lemma C8_lookup_raises_without_mapping :
  let self := CategoryMapper__init__ "category_mapping.xlsx" in
  let fs : gmap string workbook :=
    <["category_mapping.xlsx" := write_workbook (mapping_data na_categories)]>
      ∅ in
  available_mapping read_workbook ∅ self = None
  /\ get_normalized_category read_workbook ∅ self (Some "brinquedos")
     = Raise (FileNotFoundError "category_mapping.xlsx")
  /\ get_normalized_category read_workbook ∅ self None
     = Raise (FileNotFoundError "category_mapping.xlsx")
  /\ exists self',
       get_normalized_category read_workbook fs self (Some "casa")
       = Ok (None, self').
Proof.
  intros self fs. split; [reflexivity|]. split; [reflexivity|].
  split; [reflexivity|]. eexists. vm_compute. reflexivity.
Qed.

(** C9 at a table of ASCII labels. *)
Lemma C9_canonical_label_of_build_on_words :
  let self := CategoryMapper__init__ "category_mapping.xlsx" in
  ascii_translations worded_categories
  /\ exists df,
       mapping_df
         (snd (create_initial_mapping write_workbook ∅ self worded_categories))
       = Some df
       /\ (forall r, r ∈ worded_categories ->
             exists m, m ∈ df
               /\ MappingDF.original_portuguese_category m
                  = CategoriesDF.product_category_name r
               /\ MappingDF.english_translation m
                  = CategoriesDF.product_category_name_english r
               /\ canonical_label_of
                    (CategoriesDF.product_category_name_english r)
                    (MappingDF.normalized_category m))
       /\ (forall m, m ∈ df ->
             exists r, r ∈ worded_categories
               /\ MappingDF.original_portuguese_category m
                  = CategoriesDF.product_category_name r
               /\ MappingDF.english_translation m
                  = CategoriesDF.product_category_name_english r
               /\ canonical_label_of
                    (MappingDF.english_translation m)
                    (MappingDF.normalized_category m)).
Proof.
  intros self.
  assert (ascii_translations worded_categories) as Hascii.
  { intros r s Hr He. unfold worded_categories in Hr.
    repeat (apply elem_of_cons in Hr as [->|Hr];
            [simpl in He; try discriminate; injection He as <-; reflexivity|]).
    inversion Hr. }
  split; [exact Hascii|].
  apply (C9_canonical_label_of_build write_workbook ∅ self worded_categories
           Hascii).
Defined.

(** The canonical labels of that table, as they are computed. *)
Lemma canonical_labels_of_words :
  List.map MappingDF.normalized_category (mapping_data worded_categories)
  = [Some "Pet_Shop"; Some "Health_Beauty"; Some "Pc_Gamer_2"; Some "Unknown"].
Proof. vm_compute. reflexivity. Qed.



(** * Further properties of the category mapper *)

(** ** Normalisation of labels *)

Lemma replace_title_from_cons (b : bool) (c : ascii) (s : string) :
  replace " "%char "_"%char (title_from b (String c s))
  = String (normalized_char b c)
      (replace " "%char "_"%char (title_from (is_cased c) s)).
Proof. reflexivity. Qed.

Lemma normalized_char_fixed (b : bool) (c : ascii) :
  normalized_char b (normalized_char b c) = normalized_char b c
  /\ is_cased (normalized_char b c) = is_cased c
  /\ normalized_char b c <> " "%char.
Proof.
  destruct b, c as [[] [] [] [] [] [] [] []]; vm_compute;
    repeat split; congruence.
Qed.

Lemma normalized_char_case (b : bool) (c : ascii) :
  normalized_char b (lower c) = normalized_char b c
  /\ normalized_char b (upper c) = normalized_char b c
  /\ is_cased (lower c) = is_cased c
  /\ is_cased (upper c) = is_cased c.
Proof.
  destruct b, c as [[] [] [] [] [] [] [] []]; vm_compute;
    repeat split; congruence.
Qed.

Lemma normalized_char_underscore (b : bool) (c : ascii) :
  let c' := if bool_decide (c = " "%char) then "_"%char else c in
  normalized_char b c' = normalized_char b c /\ is_cased c' = is_cased c.
Proof.
  destruct b, c as [[] [] [] [] [] [] [] []]; vm_compute; split; congruence.
Qed.

Lemma normalize_from_idempotent (s : string) :
  forall b,
    replace " "%char "_"%char
      (title_from b (replace " "%char "_"%char (title_from b s)))
    = replace " "%char "_"%char (title_from b s).
Proof.
  induction s as [|c s IH]; intros b; [reflexivity|].
  rewrite (replace_title_from_cons b c s), replace_title_from_cons.
  destruct (normalized_char_fixed b c) as (H1 & H2 & _).
  now rewrite H1, H2, IH.
Qed.

Lemma normalize_from_map_chars (f : ascii -> ascii) (s : string) :
  (forall b c, normalized_char b (f c) = normalized_char b c
               /\ is_cased (f c) = is_cased c) ->
  forall b,
    replace " "%char "_"%char (title_from b (map_chars f s))
    = replace " "%char "_"%char (title_from b s).
Proof.
  intros Hf. induction s as [|c s IH]; intros b; [reflexivity|].
  change (map_chars f (String c s)) with (String (f c) (map_chars f s)).
  rewrite !replace_title_from_cons.
  destruct (Hf b c) as [H1 H2]. now rewrite H1, H2, IH.
Qed.

Lemma replace_map_chars (s : string) :
  replace " "%char "_"%char s
  = map_chars (fun c => if bool_decide (c = " "%char) then "_"%char else c) s.
Proof. induction s as [|c s IH]; simpl; [reflexivity | now rewrite IH]. Qed.

Lemma normalize_from_no_space (s : string) :
  forall b n,
    get n (replace " "%char "_"%char (title_from b s)) <> Some " "%char.
Proof.
  induction s as [|c s IH]; intros b n; [destruct n; discriminate|].
  rewrite replace_title_from_cons. destruct n as [|n]; simpl.
  - destruct (normalized_char_fixed b c) as (_ & _ & H). congruence.
  - apply IH.
Qed.

(** A canonical label holds no space, and normalising it again gives it
    back: canonical labels are the fixed points of [normalize_label]. *)
Theorem normalize_label_idempotent (x : cell) :
  normalize_label (Some (normalize_label x)) = normalize_label x
  /\ forall n, get n (normalize_label x) <> Some " "%char.
Proof.
  split.
  - destruct x as [s|]; [|reflexivity].
    unfold normalize_label, title. apply normalize_from_idempotent.
  - intros n. destruct x as [s|].
    + apply normalize_from_no_space.
    + do 8 (destruct n as [|n]; [discriminate|]). discriminate.
Qed.

(** The canonical label does not depend on the letter case of the translated
    label, nor on whether its words are separated by spaces or by
    underscores: labels that differ only in these get the same canonical
    label. *)
Theorem normalize_label_ignores_case_and_separator (s : string) :
  normalize_label (Some (map_chars lower s)) = normalize_label (Some s)
  /\ normalize_label (Some (map_chars upper s)) = normalize_label (Some s)
  /\ normalize_label (Some (replace " "%char "_"%char s))
     = normalize_label (Some s).
Proof.
  unfold normalize_label, title. repeat split.
  - apply normalize_from_map_chars. intros b c.
    destruct (normalized_char_case b c) as (H1 & _ & H3 & _). auto.
  - apply normalize_from_map_chars. intros b c.
    destruct (normalized_char_case b c) as (_ & H2 & _ & H4). auto.
  - rewrite (replace_map_chars s). apply normalize_from_map_chars. intros b c.
    apply normalized_char_underscore.
Qed.

(** ** Building, loading and looking up *)

Section MapperBehaviour.
Context {xlsx : Type}.
Variable to_excel : list MappingDF.row -> xlsx.
Variable read_excel : xlsx -> list MappingDF.row.

Lemma lookup_mapping_mapping_data (categories_df : list CategoriesDF.row)
    (raw : cell) :
  lookup_mapping (mapping_data categories_df) raw
  = Some (first_translation categories_df raw).
Proof.
  unfold lookup_mapping, first_translation, mapping_data.
  induction categories_df as [|r l IH]; simpl; [reflexivity|].
  destruct (cell_eqb (CategoriesDF.product_category_name r) raw);
    [reflexivity | exact IH].
Qed.

Lemma lookup_built_mapping (categories_df : list CategoriesDF.row)
    (raw : cell) :
  lookup_mapping (drop_duplicates (mapping_data categories_df)) raw
  = Some (first_translation categories_df raw).
Proof.
  rewrite <- lookup_mapping_mapping_data. unfold lookup_mapping.
  pose proof (head_filter_drop_duplicates
    (fun r => cell_eqb (MappingDF.original_portuguese_category r) raw)
    (mapping_data categories_df)) as H.
  destruct (List.filter _ (drop_duplicates _)), (List.filter _ (mapping_data _));
    simpl in H; congruence.
Qed.

(** Build, then look up: on the mapper that [create_initial_mapping] leaves,
    whatever is on disk, [get_normalized_category] returns the canonical
    label of the first row of the translation table that has the raw label,
    and "Unknown" when there is none; the mapper is not changed by the
    lookup. *)
Theorem lookup_after_build (fs fs' : gmap string xlsx) (self : CategoryMapper)
    (categories_df : list CategoriesDF.row) (raw : cell) :
  let built := snd (create_initial_mapping to_excel fs self categories_df) in
  get_normalized_category read_excel fs' built raw
  = Ok (Some (first_translation categories_df raw), built).
Proof.
  intros built. unfold get_normalized_category. simpl.
  now rewrite lookup_built_mapping.
Qed.

(** [get_normalized_category] raises in one situation only: no table in
    memory and no mapping file on disk; it then raises [FileNotFoundError]
    for the mapping file, whatever the label. *)
Theorem get_normalized_category_raises_iff (fs : gmap string xlsx)
    (self : CategoryMapper) (raw : cell) :
  (raises (get_normalized_category read_excel fs self raw)
   <-> mapping_df self = None /\ fs !! mapping_file self = None)
  /\ (raises (get_normalized_category read_excel fs self raw) ->
      get_normalized_category read_excel fs self raw
      = Raise (FileNotFoundError (mapping_file self))).
Proof.
  unfold get_normalized_category, load_mapping.
  destruct (mapping_df self) as [df|] eqn:Hm; simpl.
  - rewrite Hm. simpl. split; [|tauto]. split; [tauto | intros [[=] _]].
  - destruct (fs !! mapping_file self) as [file|]; simpl.
    + split; [|tauto]. split; [tauto | intros [_ [=]]].
    + split; [tauto | reflexivity].
Qed.

(** The table is loaded at most once: after a lookup that returned, the
    mapper holds a table, and every later lookup on it returns, leaves it as
    it is, and does not depend on the files. *)
Theorem get_normalized_category_caches (fs : gmap string xlsx)
    (self self' : CategoryMapper) (raw : cell) (canonical : cell) :
  get_normalized_category read_excel fs self raw = Ok (canonical, self') ->
  mapping_file self' = mapping_file self
  /\ (forall df, mapping_df self = Some df -> self' = self)
  /\ exists df,
       mapping_df self' = Some df
       /\ forall (fs' : gmap string xlsx) raw',
            get_normalized_category read_excel fs' self' raw'
            = Ok (lookup_mapping df raw', self').
Proof.
  unfold get_normalized_category at 1. unfold load_mapping.
  destruct (mapping_df self) as [df|] eqn:Hm; simpl.
  - rewrite Hm. intros [= _ <-].
    split; [reflexivity|]. split; [intros; reflexivity|].
    exists df. split; [exact Hm|]. intros fs' raw'.
    unfold get_normalized_category. rewrite Hm. simpl. now rewrite Hm.
  - destruct (fs !! mapping_file self) as [file|]; simpl; [|discriminate].
    intros [= _ <-]. split; [reflexivity|]. split; [discriminate|].
    eexists. split; [reflexivity|]. intros fs' raw'. reflexivity.
Qed.

End MapperBehaviour.

(** * Properties of the data loader *)

Section LoaderBehaviour.
Context {xlsx : Type}.
Variable to_excel : list MappingDF.row -> xlsx.
Variable read_excel : xlsx -> list MappingDF.row.

(** On a mapper that holds a table, the column of canonical labels is
    computed without an error and without a change to the mapper. *)
Lemma apply_get_normalized_category_loaded (fs : gmap string xlsx)
    (mapper : CategoryMapper) (df : list MappingDF.row)
    (merged_df : list (ProductsDF.row * cell)) :
  mapping_df mapper = Some df ->
  apply_get_normalized_category read_excel fs mapper merged_df
  = Ok (List.map (prepared_row df) merged_df, mapper).
Proof.
  intros Hm. induction merged_df as [|[p e] rest IH]; [reflexivity|].
  cbn [apply_get_normalized_category]. unfold get_normalized_category at 1.
  rewrite Hm. simpl. rewrite Hm. simpl. rewrite IH. reflexivity.
Qed.

(** The table, the files and the mapper that [prepare_product_categories]
    returns on a loaded loader, in each of its two branches. *)
Lemma prepare_product_categories_loaded (fs : gmap string xlsx)
    (self : OlistDataLoader) (products_df : list ProductsDF.row)
    (categories_df : list CategoriesDF.row) :
  loaded self products_df categories_df ->
  let file := mapping_file (category_mapper self) in
  let merged_df := merge_products_categories products_df categories_df in
  prepare_product_categories to_excel read_excel fs self
  = match fs !! file with
    | Some content =>
        Ok (List.map (prepared_row (read_excel content)) merged_df, fs,
            {| data_path := data_path self;
               datasets := datasets self;
               category_mapper :=
                 {| mapping_file := file;
                    mapping_df := Some (read_excel content) |} |})
    | None =>
        let df := drop_duplicates (mapping_data categories_df) in
        Ok (List.map (prepared_row df) merged_df,
            <[file := to_excel df]> fs,
            {| data_path := data_path self;
               datasets := datasets self;
               category_mapper :=
                 {| mapping_file := file; mapping_df := Some df |} |})
    end.
Proof.
  intros [Hp Hc] file merged_df.
  unfold prepare_product_categories, products_of, categories_of.
  rewrite Hp, Hc. simpl. unfold path_exists. fold file.
  destruct (fs !! file) as [content|] eqn:Hf.
  - rewrite bool_decide_eq_true_2 by eauto. simpl.
    unfold load_mapping. fold file. rewrite Hf. simpl.
    rewrite (apply_get_normalized_category_loaded _ _ (read_excel content))
      by reflexivity.
    reflexivity.
  - rewrite bool_decide_eq_false_2 by (intros [? [=]]). simpl.
    rewrite (apply_get_normalized_category_loaded _ _
               (drop_duplicates (mapping_data categories_df)))
      by reflexivity.
    reflexivity.
Qed.

(** [prepare_product_categories] raises exactly when one of the two tables
    it reads is not in [datasets], with a [KeyError] for the first table that
    is missing; a loader just constructed raises [KeyError] for "products".
    A missing mapping file is no error: the file is then created. *)
Theorem prepare_product_categories_raises_iff (fs : gmap string xlsx)
    (self : OlistDataLoader) :
  (raises (prepare_product_categories to_excel read_excel fs self)
   <-> raises (products_of (datasets self) "products")
       \/ raises (categories_of (datasets self) "categories"))
  /\ (raises (products_of (datasets self) "products") ->
      prepare_product_categories to_excel read_excel fs self
      = Raise (KeyError "products"))
  /\ (~ raises (products_of (datasets self) "products") ->
      raises (categories_of (datasets self) "categories") ->
      prepare_product_categories to_excel read_excel fs self
      = Raise (KeyError "categories"))
  /\ (forall data_path mapping_file,
        prepare_product_categories to_excel read_excel fs
          (OlistDataLoader__init__ data_path mapping_file)
        = Raise (KeyError "products")).
Proof.
  assert (forall p c, loaded self p c ->
            ~ raises (prepare_product_categories to_excel read_excel fs self))
    as Hok.
  { intros p c Hl. rewrite (prepare_product_categories_loaded fs self p c Hl).
    simpl. destruct (fs !! _); simpl; tauto. }
  unfold loaded in Hok.
  unfold prepare_product_categories in *.
  unfold products_of, categories_of in *.
  destruct (datasets self !! "products") as [[p| |]|] eqn:Hp; simpl;
    try (repeat split; try tauto; intros; reflexivity).
  destruct (datasets self !! "categories") as [[|c|]|] eqn:Hc; simpl;
    try (repeat split; try tauto; intros; reflexivity).
  specialize (Hok p c (conj eq_refl eq_refl)).
  repeat split; try tauto; intros; reflexivity.
Qed.

Lemma elem_of_merge_products_categories (products_df : list ProductsDF.row)
    (categories_df : list CategoriesDF.row) (pe : ProductsDF.row * cell) :
  pe ∈ merge_products_categories products_df categories_df ->
  fst pe ∈ products_df.
Proof.
  unfold merge_products_categories, merge_left.
  rewrite !list_elem_of_In, in_flat_map. intros (p & Hp & Hin).
  destruct (List.filter _ categories_df) as [|c cs].
  - destruct Hin as [<-|[]]. exact Hp.
  - apply in_map_iff in Hin as (c' & <- & _). exact Hp.
Qed.

Lemma merge_products_categories_keeps (products_df : list ProductsDF.row)
    (categories_df : list CategoriesDF.row) (p : ProductsDF.row) :
  p ∈ products_df ->
  exists e, (p, e) ∈ merge_products_categories products_df categories_df.
Proof.
  unfold merge_products_categories, merge_left. intros Hp.
  destruct (List.filter
    (fun c => same_cell (ProductsDF.product_category_name p)
                        (CategoriesDF.product_category_name c))
    categories_df) as [|c cs] eqn:Hf.
  - exists None. apply list_elem_of_In, in_flat_map. exists p.
    split; [now apply list_elem_of_In|]. rewrite Hf. now left.
  - exists (CategoriesDF.product_category_name_english c).
    apply list_elem_of_In, in_flat_map. exists p.
    split; [now apply list_elem_of_In|]. rewrite Hf. now left.
Qed.

(** With one row for a raw label, at most one row of the translation table
    joins a product. *)
Lemma filter_unique_key (k : cell) (categories_df : list CategoriesDF.row) :
  NoDup (List.map CategoriesDF.product_category_name categories_df) ->
  List.filter
    (fun c => same_cell k (CategoriesDF.product_category_name c)) categories_df
  = match List.find
            (fun c => same_cell k (CategoriesDF.product_category_name c))
            categories_df with
    | Some c => [c]
    | None => []
    end.
Proof.
  induction categories_df as [|c l IH]; simpl; [reflexivity|].
  intros Hnd. apply NoDup_cons in Hnd as [Hc Hnd].
  destruct (same_cell k (CategoriesDF.product_category_name c)) eqn:E.
  - f_equal. unfold same_cell in E. apply bool_decide_eq_true in E. subst k.
    clear IH Hnd. induction l as [|c' l IH]; simpl; [reflexivity|].
    simpl in Hc. rewrite not_elem_of_cons in Hc. destruct Hc as [Hne Hc].
    unfold same_cell at 1. rewrite bool_decide_eq_false_2 by exact Hne.
    now apply IH.
  - now apply IH.
Qed.

Lemma merge_products_categories_unique (products_df : list ProductsDF.row)
    (categories_df : list CategoriesDF.row) :
  NoDup (List.map CategoriesDF.product_category_name categories_df) ->
  List.map fst (merge_products_categories products_df categories_df)
  = products_df.
Proof.
  intros Hnd. unfold merge_products_categories, merge_left.
  induction products_df as [|p l IH]; [reflexivity|].
  cbn [flat_map]. rewrite map_app, IH. rewrite (filter_unique_key _ _ Hnd).
  destruct (List.find _ categories_df); reflexivity.
Qed.

(** No product is lost or invented by [prepare_product_categories]: every
    product is in the result, with its identifier and raw label, and every
    row of the result comes from a product.  When no raw label occurs twice
    in the translation table, the result has exactly the products, in their
    order; otherwise a product is repeated, once for each row of the
    translation table with its raw label. *)
Theorem prepare_product_categories_keeps_products (fs : gmap string xlsx)
    (self : OlistDataLoader) (products_df : list ProductsDF.row)
    (categories_df : list CategoriesDF.row) :
  loaded self products_df categories_df ->
  exists rows fs' self',
    prepare_product_categories to_excel read_excel fs self
    = Ok (rows, fs', self')
    /\ (forall p, p ∈ products_df ->
          exists r, r ∈ rows
            /\ ProductCategoriesDF.product_id r = ProductsDF.product_id p
            /\ ProductCategoriesDF.product_category_name r
               = ProductsDF.product_category_name p)
    /\ (forall r, r ∈ rows ->
          exists p, p ∈ products_df
            /\ ProductCategoriesDF.product_id r = ProductsDF.product_id p
            /\ ProductCategoriesDF.product_category_name r
               = ProductsDF.product_category_name p)
    /\ (NoDup (List.map CategoriesDF.product_category_name categories_df) ->
        List.map ProductCategoriesDF.product_id rows
        = List.map ProductsDF.product_id products_df
        /\ List.map ProductCategoriesDF.product_category_name rows
           = List.map ProductsDF.product_category_name products_df).
Proof.
  intros Hl.
  rewrite (prepare_product_categories_loaded fs self _ _ Hl). simpl.
  assert (forall df,
    let rows := List.map (prepared_row df)
                  (merge_products_categories products_df categories_df) in
    (forall p, p ∈ products_df ->
       exists r, r ∈ rows
         /\ ProductCategoriesDF.product_id r = ProductsDF.product_id p
         /\ ProductCategoriesDF.product_category_name r
            = ProductsDF.product_category_name p)
    /\ (forall r, r ∈ rows ->
          exists p, p ∈ products_df
            /\ ProductCategoriesDF.product_id r = ProductsDF.product_id p
            /\ ProductCategoriesDF.product_category_name r
               = ProductsDF.product_category_name p)
    /\ (NoDup (List.map CategoriesDF.product_category_name categories_df) ->
        List.map ProductCategoriesDF.product_id rows
        = List.map ProductsDF.product_id products_df
        /\ List.map ProductCategoriesDF.product_category_name rows
           = List.map ProductsDF.product_category_name products_df)) as H.
  { intros df rows. split; [|split].
    - intros p Hp.
      destruct (merge_products_categories_keeps _ categories_df p Hp) as [e He].
      exists (prepared_row df (p, e)). split; [|split; reflexivity].
      apply elem_of_map. now exists (p, e).
    - intros r Hr. apply elem_of_map in Hr as (pe & Hpe & ->).
      exists (fst pe). split; [|split; reflexivity].
      now apply elem_of_merge_products_categories in Hpe.
    - intros Hnd. unfold rows. rewrite !map_map.
      rewrite <- (merge_products_categories_unique products_df categories_df Hnd)
        at 2 4.
      rewrite !map_map. split; reflexivity. }
  destruct (fs !! _); do 3 eexists; (split; [reflexivity | apply H]).
Qed.

(** Later runs: when the mapping file exists, [prepare_product_categories]
    writes nothing, keeps the table of the file in the mapper, and takes
    every canonical label from that table; the translation table of the run
    decides no canonical label. *)
Theorem prepare_product_categories_uses_mapping_file (fs : gmap string xlsx)
    (self : OlistDataLoader) (products_df : list ProductsDF.row)
    (categories_df : list CategoriesDF.row) (content : xlsx) :
  loaded self products_df categories_df ->
  fs !! mapping_file (category_mapper self) = Some content ->
  exists rows self',
    prepare_product_categories to_excel read_excel fs self
    = Ok (rows, fs, self')
    /\ mapping_df (category_mapper self') = Some (read_excel content)
    /\ mapping_file (category_mapper self')
       = mapping_file (category_mapper self)
    /\ datasets self' = datasets self
    /\ forall r, r ∈ rows ->
         ProductCategoriesDF.normalized_category r
         = lookup_mapping (read_excel content)
             (ProductCategoriesDF.product_category_name r).
Proof.
  intros Hl Hf.
  rewrite (prepare_product_categories_loaded fs self _ _ Hl). simpl.
  rewrite Hf. do 2 eexists. split; [reflexivity|].
  repeat split. intros r Hr. apply elem_of_map in Hr as (pe & _ & ->).
  reflexivity.
Qed.

(** A missing raw label has no translation. *)
Lemma first_translation_missing (categories_df : list CategoriesDF.row) :
  first_translation categories_df None = "Unknown".
Proof.
  unfold first_translation.
  assert (List.find
    (fun c => cell_eqb (CategoriesDF.product_category_name c) None)
    categories_df = None) as ->; [|reflexivity].
  induction categories_df as [|c l IH]; simpl; [reflexivity|].
  destruct (CategoriesDF.product_category_name c); simpl; apply IH.
Qed.

(** First run: without a mapping file, [prepare_product_categories] writes
    the mapping built from the translation table to the mapping file,
    touches no other file, and labels every row from that table: a product
    gets the canonical label of the first translation of its raw label, and
    "Unknown" when its raw label is missing or has no translation. *)
Theorem prepare_product_categories_creates_mapping_file
    (fs : gmap string xlsx) (self : OlistDataLoader)
    (products_df : list ProductsDF.row)
    (categories_df : list CategoriesDF.row) :
  loaded self products_df categories_df ->
  fs !! mapping_file (category_mapper self) = None ->
  exists rows fs' self',
    prepare_product_categories to_excel read_excel fs self
    = Ok (rows, fs', self')
    /\ fs' !! mapping_file (category_mapper self)
       = Some (to_excel (drop_duplicates (mapping_data categories_df)))
    /\ (forall path, path <> mapping_file (category_mapper self) ->
          fs' !! path = fs !! path)
    /\ mapping_df (category_mapper self')
       = Some (drop_duplicates (mapping_data categories_df))
    /\ (forall r, r ∈ rows ->
          ProductCategoriesDF.normalized_category r
          = Some (first_translation categories_df
                    (ProductCategoriesDF.product_category_name r)))
    /\ (forall r, r ∈ rows ->
          ProductCategoriesDF.product_category_name r = None ->
          ProductCategoriesDF.normalized_category r = Some "Unknown").
Proof.
  intros Hl Hf.
  rewrite (prepare_product_categories_loaded fs self _ _ Hl). simpl.
  rewrite Hf. do 3 eexists. split; [reflexivity|].
  split; [apply lookup_insert_eq|].
  split; [intros path Hne; now apply lookup_insert_ne|].
  split; [reflexivity|].
  assert (forall r,
    r ∈ List.map (prepared_row (drop_duplicates (mapping_data categories_df)))
          (merge_products_categories products_df categories_df) ->
    ProductCategoriesDF.normalized_category r
    = Some (first_translation categories_df
              (ProductCategoriesDF.product_category_name r))) as Hlabel.
  { intros r Hr. apply elem_of_map in Hr as (pe & _ & ->).
    apply lookup_built_mapping. }
  split; [exact Hlabel|].
  intros r Hr Hnone. rewrite (Hlabel r Hr), Hnone.
  now rewrite first_translation_missing.
Qed.

(** Run twice: if the workbook written by the first run reads back as the
    table written, a second run of [prepare_product_categories], by the same
    loader or by another loader on the same tables and mapping file, returns
    the table of the first run and writes nothing. *)
Theorem prepare_product_categories_twice (fs : gmap string xlsx)
    (self other : OlistDataLoader) (products_df : list ProductsDF.row)
    (categories_df : list CategoriesDF.row) :
  loaded self products_df categories_df ->
  loaded other products_df categories_df ->
  mapping_file (category_mapper other) = mapping_file (category_mapper self) ->
  fs !! mapping_file (category_mapper self) = None ->
  read_excel (to_excel (drop_duplicates (mapping_data categories_df)))
    = drop_duplicates (mapping_data categories_df) ->
  exists rows fs' self' other',
    prepare_product_categories to_excel read_excel fs self
    = Ok (rows, fs', self')
    /\ prepare_product_categories to_excel read_excel fs' self'
       = Ok (rows, fs', self')
    /\ prepare_product_categories to_excel read_excel fs' other
       = Ok (rows, fs', other').
Proof.
  intros Hl Hl' Hfile Hf Hcodec.
  rewrite (prepare_product_categories_loaded fs self _ _ Hl). simpl.
  rewrite Hf. do 4 eexists. split; [reflexivity|]. split.
  - erewrite prepare_product_categories_loaded by exact Hl. simpl.
    rewrite lookup_insert_eq, Hcodec. reflexivity.
  - rewrite (prepare_product_categories_loaded _ other _ _ Hl'). simpl.
    rewrite Hfile, lookup_insert_eq, Hcodec. reflexivity.
Qed.

Lemma same_cell_cell_eqb (l : string) (k : cell) :
  same_cell (Some l) k = cell_eqb k (Some l).
Proof.
  unfold same_cell, cell_eqb. destruct k as [x|].
  - apply bool_decide_ext. split; congruence.
  - now apply bool_decide_eq_false_2.
Qed.

(** With one row for a raw label, the translated label that the merge
    attaches to a product is the one the mapping was built from. *)
Lemma merged_translation (products_df : list ProductsDF.row)
    (categories_df : list CategoriesDF.row) (pe : ProductsDF.row * cell) :
  NoDup (List.map CategoriesDF.product_category_name categories_df) ->
  pe ∈ merge_products_categories products_df categories_df ->
  ProductsDF.product_category_name (fst pe) <> None ->
  first_translation categories_df (ProductsDF.product_category_name (fst pe))
  = normalize_label (snd pe).
Proof.
  intros Hnd Hin Hraw. unfold merge_products_categories, merge_left in Hin.
  apply list_elem_of_In, in_flat_map in Hin as (p & _ & Hin).
  rewrite (filter_unique_key _ _ Hnd) in Hin.
  destruct (ProductsDF.product_category_name p) as [l|] eqn:Hp.
  - unfold first_translation.
    assert (List.find
      (fun c => same_cell (Some l) (CategoriesDF.product_category_name c))
      categories_df
      = List.find
          (fun c => cell_eqb (CategoriesDF.product_category_name c) (Some l))
          categories_df) as Hfind.
    { clear. induction categories_df as [|c cs IH]; simpl; [reflexivity|].
      now rewrite same_cell_cell_eqb, IH. }
    rewrite Hfind in Hin.
    destruct (List.find _ categories_df) as [c|] eqn:E;
      destruct Hin as [<-|[]]; simpl; simpl in Hraw; rewrite Hp, E; reflexivity.
  - destruct (List.find _ categories_df);
      destruct Hin as [<-|[]]; simpl in Hraw; congruence.
Qed.

(** First run on a translation table in which no raw label occurs twice:
    the canonical column agrees with the translated column: the canonical
    label of every row that has a raw label is the normalised translated
    label of that row, "Unknown" when the row has no translation. *)
Theorem prepare_product_categories_labels_translation
    (fs : gmap string xlsx) (self : OlistDataLoader)
    (products_df : list ProductsDF.row)
    (categories_df : list CategoriesDF.row) :
  loaded self products_df categories_df ->
  fs !! mapping_file (category_mapper self) = None ->
  NoDup (List.map CategoriesDF.product_category_name categories_df) ->
  exists rows fs' self',
    prepare_product_categories to_excel read_excel fs self
    = Ok (rows, fs', self')
    /\ forall r, r ∈ rows ->
         ProductCategoriesDF.product_category_name r <> None ->
         ProductCategoriesDF.normalized_category r
         = Some (normalize_label
                   (ProductCategoriesDF.product_category_name_english r)).
Proof.
  intros Hl Hf Hnd.
  rewrite (prepare_product_categories_loaded fs self _ _ Hl). simpl.
  rewrite Hf. do 3 eexists. split; [reflexivity|].
  intros r Hr Hraw. apply elem_of_map in Hr as (pe & Hpe & ->).
  simpl in *. rewrite lookup_built_mapping. f_equal.
  now apply (merged_translation products_df).
Qed.

End LoaderBehaviour.

(** * Further properties of the analyzer *)

(** ** The order of the rows *)

Lemma insert_sorted_desc_sorted {A : Type} (key : A -> Q) (x : A) (l : list A) :
  StronglySorted (fun a b => (key b <= key a)%Q) l ->
  StronglySorted (fun a b => (key b <= key a)%Q) (insert_sorted (desc key) x l).
Proof.
  induction 1 as [|h t Hs IH Hall]; simpl.
  - repeat constructor.
  - unfold desc at 1. destruct (Qltb (key x) (key h)) eqn:E.
    + constructor; [exact IH|].
      rewrite insert_sorted_Permutation. constructor; [|exact Hall].
      apply Qltb_lt in E. now apply Qlt_le_weak.
    + apply Qltb_ge in E. constructor; [now constructor|].
      constructor; [exact E|].
      eapply Forall_impl; [exact Hall|]. intros b Hb. simpl in Hb.
      now apply Qle_trans with (key h).
Qed.

Lemma sort_values_desc_sorted {A : Type} (key : A -> Q) (l : list A) :
  StronglySorted (fun a b => (key b <= key a)%Q) (sort_values (desc key) l).
Proof.
  induction l as [|x l IH]; simpl; [constructor|].
  now apply insert_sorted_desc_sorted.
Qed.

(** In a sorted table a row that comes later has no greater key. *)
Lemma sorted_lookup {A : Type} (key : A -> Q) (l : list A) :
  StronglySorted (fun a b => (key b <= key a)%Q) l ->
  forall i j a b,
    l !! i = Some a -> l !! j = Some b -> (i <= j)%nat ->
    (key b <= key a)%Q.
Proof.
  induction 1 as [|h t Hs IH Hall]; intros i j a b Hi Hj Hij.
  - discriminate.
  - destruct i as [|i], j as [|j]; simpl in *.
    + injection Hi as <-. injection Hj as <-. apply Qle_refl.
    + injection Hi as <-. rewrite Forall_forall in Hall.
      apply Hall. now apply list_elem_of_lookup_2 in Hj.
    + lia.
    + apply (IH i j); auto. lia.
Qed.

Lemma category_metrics_row_category (revenues : list Q)
    (m : string * nat * Q * Q * nat) :
  MetricsDF.normalized_category (metrics_row revenues m)
  = fst (fst (fst (fst m))).
Proof. destruct m as [[[[c s] r] t] d]. reflexivity. Qed.

Lemma category_metrics_categories (items_df : list ItemsDF.row)
    (products_df : list ProductCategoriesDF.row) :
  Permutation
    (List.map MetricsDF.normalized_category
       (category_metrics items_df products_df))
    (group_keys String.ltb
       (List.map SalesDF.normalized_category
          (sales_data_left items_df products_df))).
Proof.
  unfold category_metrics, base_metrics.
  rewrite sort_values_Permutation, !map_map.
  erewrite map_ext; [rewrite map_id; reflexivity|].
  intros k. now rewrite category_metrics_row_category.
Qed.

Lemma elem_of_sales_data_left (items_df : list ItemsDF.row)
    (products_df : list ProductCategoriesDF.row) (c : string) :
  Some c ∈ List.map SalesDF.normalized_category
             (sales_data_left items_df products_df)
  <-> exists i p,
        i ∈ items_df /\ p ∈ products_df
        /\ ItemsDF.product_id i = ProductCategoriesDF.product_id p
        /\ ProductCategoriesDF.normalized_category p = Some c.
Proof.
  unfold sales_data_left, merge_left.
  rewrite list_elem_of_In, in_map_iff. split.
  - intros (s & Hc & Hs). apply in_flat_map in Hs as (i & Hi & Hs).
    destruct (List.filter _ products_df) as [|p ps] eqn:Hf.
    + destruct Hs as [<-|[]]. discriminate.
    + apply in_map_iff in Hs as (p' & <- & Hp'). simpl in Hc.
      rewrite <- Hf in Hp'.
      apply filter_In in Hp' as [Hp' Hsame].
      exists i, p'. rewrite !list_elem_of_In.
      unfold same_string in Hsame. apply bool_decide_eq_true in Hsame. auto.
  - intros (i & p & Hi & Hp & Hid & Hc).
    exists {| SalesDF.item := i;
              SalesDF.normalized_category :=
                ProductCategoriesDF.normalized_category p |}.
    split; [exact Hc|]. apply in_flat_map. exists i.
    split; [now apply list_elem_of_In|].
    assert (In p (List.filter
      (fun r => same_string (ItemsDF.product_id i)
                            (ProductCategoriesDF.product_id r)) products_df))
      as Hin.
    { apply filter_In. split; [now apply list_elem_of_In|].
      unfold same_string. now apply bool_decide_eq_true. }
    destruct (List.filter _ products_df) as [|q qs]; [destruct Hin|].
    apply in_map_iff. now exists p.
Qed.

(** The metrics table is returned in decreasing order of [total_revenue]: a
    row that comes later has no greater revenue. *)
Theorem metrics_sorted_by_revenue
    (products_df : list ProductCategoriesDF.row) (items_df : list ItemsDF.row)
    (output_dir : string) :
  exists metrics,
    calculate_category_metrics
      (OlistAnalyzer__init__ products_df items_df output_dir) = Ok metrics
    /\ forall i j ri rj,
         metrics !! i = Some ri -> metrics !! j = Some rj -> (i <= j)%nat ->
         (MetricsDF.total_revenue rj <= MetricsDF.total_revenue ri)%Q.
Proof.
  exists (category_metrics items_df products_df).
  split; [apply calculate_category_metrics_init|].
  unfold category_metrics. apply sorted_lookup, sort_values_desc_sorted.
Qed.

(** The metrics table has one row for each category that occurs in the
    joined sales data and no other row: no category is listed twice, and a
    category is listed exactly when some line item has a product row of that
    category. *)
Theorem metrics_one_row_per_category
    (products_df : list ProductCategoriesDF.row) (items_df : list ItemsDF.row)
    (output_dir : string) :
  exists metrics,
    calculate_category_metrics
      (OlistAnalyzer__init__ products_df items_df output_dir) = Ok metrics
    /\ NoDup (List.map MetricsDF.normalized_category metrics)
    /\ forall c,
         c ∈ List.map MetricsDF.normalized_category metrics
         <-> exists i p,
               i ∈ items_df /\ p ∈ products_df
               /\ ItemsDF.product_id i = ProductCategoriesDF.product_id p
               /\ ProductCategoriesDF.normalized_category p = Some c.
Proof.
  exists (category_metrics items_df products_df).
  split; [apply calculate_category_metrics_init|].
  pose proof (category_metrics_categories items_df products_df) as Hperm.
  split.
  - rewrite Hperm. apply NoDup_group_keys.
  - intros c. rewrite Hperm, elem_of_group_keys. apply elem_of_sales_data_left.
Qed.

(** ** Groups partition the rows that have a key *)

Section Partition.
Context {A K : Type} `{EqDecision K} (key : A -> option K).

Lemma group_rows_cons (k : K) (r : A) (l : list A) :
  group_rows key k (r :: l)
  = if bool_decide (key r = Some k) then r :: group_rows key k l
    else group_rows key k l.
Proof. reflexivity. Qed.

(** Counting: the sizes of the groups add up to the number of keyed rows. *)
Lemma group_sizes_step (k0 : K) (r : A) (l : list A) (keys : list K) :
  key r = Some k0 -> NoDup keys -> k0 ∈ keys ->
  fold_right Nat.add 0%nat
    (List.map (fun k => length (group_rows key k (r :: l))) keys)
  = S (fold_right Nat.add 0%nat
         (List.map (fun k => length (group_rows key k l)) keys)).
Proof.
  intros Hr Hnd. induction Hnd as [|k ks Hk Hnd IH]; intros Hin.
  - inversion Hin.
  - cbn [List.map fold_right]. rewrite group_rows_cons, Hr.
    destruct (decide (k0 = k)) as [->|Hne].
    + rewrite bool_decide_eq_true_2 by reflexivity. cbn [length].
      assert (List.map (fun k' => length (group_rows key k' (r :: l))) ks
              = List.map (fun k' => length (group_rows key k' l)) ks) as ->.
      { apply map_ext_in. intros k' Hk'.
        rewrite group_rows_cons, Hr, bool_decide_eq_false_2; [reflexivity|].
        intros [= ->]. apply Hk. now apply list_elem_of_In. }
      lia.
    + rewrite bool_decide_eq_false_2 by congruence.
      apply elem_of_cons in Hin as [Heq|Hin]; [contradiction|].
      rewrite (IH Hin). lia.
Qed.

Lemma group_sizes_skip (r : A) (l : list A) (keys : list K) :
  (forall k, k ∈ keys -> key r <> Some k) ->
  List.map (fun k => group_rows key k (r :: l)) keys
  = List.map (fun k => group_rows key k l) keys.
Proof.
  intros Hr. apply map_ext_in. intros k Hk. rewrite group_rows_cons.
  rewrite bool_decide_eq_false_2; [reflexivity|].
  apply Hr. now apply list_elem_of_In.
Qed.

Lemma group_sizes (l : list A) (keys : list K) :
  NoDup keys ->
  (forall k, Some k ∈ List.map key l -> k ∈ keys) ->
  fold_right Nat.add 0%nat
    (List.map (fun k => length (group_rows key k l)) keys)
  = length (List.filter (fun r => notna (key r)) l).
Proof.
  intros Hnd. induction l as [|r l IH]; intros Hcover.
  - simpl. induction keys; simpl; [reflexivity|].
    apply NoDup_cons in Hnd as [_ Hnd]. now rewrite IHkeys.
  - assert (forall k, Some k ∈ List.map key l -> k ∈ keys) as Hcover'.
    { intros k Hk. apply Hcover. simpl. now apply list_elem_of_further. }
    cbn [List.filter]. destruct (key r) as [k0|] eqn:Hr; cbn [notna length].
    + rewrite (group_sizes_step k0 r l keys Hr Hnd), (IH Hcover'); [reflexivity|].
      apply Hcover. simpl. rewrite Hr. apply list_elem_of_here.
    + rewrite <- (IH Hcover'). f_equal.
      rewrite <- (map_map (fun k => group_rows key k (r :: l)) (@length A)).
      rewrite group_sizes_skip, map_map; [reflexivity|].
      intros k _. congruence.
Qed.

(** Summing: the sums over the groups add up to the sum over the keyed
    rows. *)
Lemma group_sums_step (w : A -> Q) (k0 : K) (r : A) (l : list A)
    (keys : list K) :
  key r = Some k0 -> NoDup keys -> k0 ∈ keys ->
  (Series_sum
     (List.map (fun k => Series_sum (List.map w (group_rows key k (r :: l))))
        keys)
   == w r + Series_sum
              (List.map (fun k => Series_sum (List.map w (group_rows key k l)))
                 keys))%Q.
Proof.
  intros Hr Hnd. induction Hnd as [|k ks Hk Hnd IH]; intros Hin.
  - inversion Hin.
  - cbn [List.map Series_sum fold_right]. rewrite group_rows_cons, Hr.
    destruct (decide (k0 = k)) as [->|Hne].
    + rewrite bool_decide_eq_true_2 by reflexivity.
      cbn [List.map Series_sum fold_right].
      assert (List.map
                (fun k' => Series_sum (List.map w (group_rows key k' (r :: l))))
                ks
              = List.map
                  (fun k' => Series_sum (List.map w (group_rows key k' l))) ks)
        as ->.
      { apply map_ext_in. intros k' Hk'.
        rewrite group_rows_cons, Hr, bool_decide_eq_false_2; [reflexivity|].
        intros [= ->]. apply Hk. now apply list_elem_of_In. }
      unfold Series_sum. ring.
    + rewrite bool_decide_eq_false_2 by congruence.
      apply elem_of_cons in Hin as [Heq|Hin]; [contradiction|].
      unfold Series_sum in *. rewrite (IH Hin). ring.
Qed.

Lemma group_sums (w : A -> Q) (l : list A) (keys : list K) :
  NoDup keys ->
  (forall k, Some k ∈ List.map key l -> k ∈ keys) ->
  (Series_sum
     (List.map (fun k => Series_sum (List.map w (group_rows key k l))) keys)
   == Series_sum (List.map w (List.filter (fun r => notna (key r)) l)))%Q.
Proof.
  intros Hnd. induction l as [|r l IH]; intros Hcover.
  - simpl. clear. induction keys; simpl; [reflexivity|].
    rewrite IHkeys. ring.
  - assert (forall k, Some k ∈ List.map key l -> k ∈ keys) as Hcover'.
    { intros k Hk. apply Hcover. simpl. now apply list_elem_of_further. }
    cbn [List.filter]. destruct (key r) as [k0|] eqn:Hr;
      cbn [notna List.map Series_sum fold_right].
    + rewrite (group_sums_step w k0 r l keys Hr Hnd), (IH Hcover'); [reflexivity|].
      apply Hcover. simpl. rewrite Hr. apply list_elem_of_here.
    + rewrite <- (IH Hcover').
      rewrite <- (map_map (fun k => group_rows key k (r :: l))
                    (fun g => Series_sum (List.map w g))).
      rewrite group_sizes_skip, map_map; [reflexivity|].
      intros k _. congruence.
Qed.

End Partition.

(** ** What the metrics table adds up to *)

Lemma sum_Permutation (l l' : list nat) :
  Permutation l l' ->
  fold_right Nat.add 0%nat l = fold_right Nat.add 0%nat l'.
Proof.
  induction 1 as [|x l l' _ IH|x y l|l l' l'' _ IH1 _ IH2]; simpl; lia.
Qed.

(** The rows of the left join that have a category are those of the inner
    join. *)
Lemma sales_data_left_inner (items_df : list ItemsDF.row)
    (products_df : list ProductCategoriesDF.row) :
  List.filter (fun r => notna (SalesDF.normalized_category r))
    (sales_data_left items_df products_df)
  = List.filter (fun r => notna (SalesDF.normalized_category r))
      (sales_data_inner items_df products_df).
Proof.
  unfold sales_data_left, sales_data_inner, merge_left, merge_inner.
  induction items_df as [|i items IH]; [reflexivity|].
  cbn [flat_map]. rewrite !List.filter_app, IH. f_equal.
  destruct (List.filter _ products_df) as [|p ps]; reflexivity.
Qed.

(** In a products table where every row has a category, every row of the
    inner join has one. *)
Lemma sales_data_inner_categorised (items_df : list ItemsDF.row)
    (products_df : list ProductCategoriesDF.row) :
  all_categorised products_df ->
  List.filter (fun r => notna (SalesDF.normalized_category r))
    (sales_data_inner items_df products_df)
  = sales_data_inner items_df products_df.
Proof.
  intros Hall. unfold sales_data_inner, merge_inner.
  induction items_df as [|i items IH]; [reflexivity|].
  cbn [flat_map]. rewrite List.filter_app, IH. f_equal.
  assert (forall l : list ProductCategoriesDF.row,
            (forall p, p ∈ l -> p ∈ products_df) ->
            List.filter (fun r => notna (SalesDF.normalized_category r))
              (List.map
                 (fun p => {| SalesDF.item := i;
                              SalesDF.normalized_category :=
                                ProductCategoriesDF.normalized_category p |})
                 l)
            = List.map
                (fun p => {| SalesDF.item := i;
                             SalesDF.normalized_category :=
                               ProductCategoriesDF.normalized_category p |})
                l) as Hl.
  { induction l as [|q l IHl]; intros Hin; [reflexivity|].
    cbn [List.map List.filter SalesDF.normalized_category].
    destruct (Hall q) as [c Hc]; [apply Hin, list_elem_of_here|].
    rewrite Hc. cbn [notna]. f_equal. apply IHl.
    intros p Hp. apply Hin. now apply list_elem_of_further. }
  apply Hl. intros p Hp. apply elem_of_List_filter in Hp. tauto.
Qed.

Lemma has_category_has_product (products_df : list ProductCategoriesDF.row)
    (i : ItemsDF.row) :
  all_categorised products_df ->
  has_category products_df i = has_product products_df i.
Proof.
  intros Hall. unfold has_category, has_product.
  induction products_df as [|p l IH]; [reflexivity|].
  cbn [existsb]. destruct (Hall p) as [c Hc]; [apply list_elem_of_here|].
  rewrite Hc. cbn [notna]. rewrite andb_true_r. f_equal.
  apply IH. intros q Hq. apply Hall. now apply list_elem_of_further.
Qed.

Lemma base_metrics_sales (sales_data : list SalesDF.row) :
  fold_right Nat.add 0%nat
    (List.map (fun m => snd (fst (fst (fst m)))) (base_metrics sales_data))
  = length (List.filter (fun r => notna (SalesDF.normalized_category r))
              sales_data).
Proof.
  unfold base_metrics. rewrite map_map. simpl.
  apply (group_sizes SalesDF.normalized_category).
  - apply NoDup_group_keys.
  - intros k Hk. now apply elem_of_group_keys.
Qed.

Lemma base_metrics_revenue (sales_data : list SalesDF.row) :
  (Series_sum (List.map base_revenue (base_metrics sales_data))
   == Series_sum
        (List.map sale_price
           (List.filter (fun r => notna (SalesDF.normalized_category r))
              sales_data)))%Q.
Proof.
  unfold base_metrics. rewrite map_map. simpl.
  apply (group_sums SalesDF.normalized_category sale_price).
  - apply NoDup_group_keys.
  - intros k Hk. now apply elem_of_group_keys.
Qed.

Lemma total_sales_metrics_row (revenues : list Q)
    (m : string * nat * Q * Q * nat) :
  MetricsDF.total_sales (metrics_row revenues m) = snd (fst (fst (fst m))).
Proof. destruct m as [[[[c s] r] t] d]. reflexivity. Qed.

(** With one row for a product, an item joins at most one row. *)
Lemma filter_unique_product (id : string)
    (products_df : list ProductCategoriesDF.row) :
  NoDup (List.map ProductCategoriesDF.product_id products_df) ->
  (length (List.filter
     (fun p => same_string id (ProductCategoriesDF.product_id p)) products_df)
   <= 1)%nat.
Proof.
  induction products_df as [|p l IH]; simpl; [lia|].
  intros Hnd. apply NoDup_cons in Hnd as [Hp Hnd].
  destruct (same_string id (ProductCategoriesDF.product_id p)) eqn:E.
  - simpl. unfold same_string in E. apply bool_decide_eq_true in E. subst id.
    assert (List.filter
      (fun q => same_string (ProductCategoriesDF.product_id p)
                            (ProductCategoriesDF.product_id q)) l = []) as ->;
      [|simpl; lia].
    clear IH Hnd. induction l as [|q l IH]; simpl; [reflexivity|].
    simpl in Hp. rewrite not_elem_of_cons in Hp. destruct Hp as [Hne Hp].
    unfold same_string at 1. rewrite bool_decide_eq_false_2 by exact Hne.
    now apply IH.
  - now apply IH.
Qed.

Lemma sales_data_inner_unique (items_df : list ItemsDF.row)
    (products_df : list ProductCategoriesDF.row) :
  NoDup (List.map ProductCategoriesDF.product_id products_df) ->
  List.map SalesDF.item
    (List.filter (fun r => notna (SalesDF.normalized_category r))
       (sales_data_inner items_df products_df))
  = List.filter (has_category products_df) items_df.
Proof.
  intros Hnd. unfold sales_data_inner, merge_inner.
  induction items_df as [|i items IH]; [reflexivity|].
  cbn [flat_map List.filter]. rewrite List.filter_app, map_app, IH.
  pose proof (filter_unique_product (ItemsDF.product_id i) products_df Hnd)
    as Hle.
  assert (has_category products_df i
          = existsb (fun p => notna (ProductCategoriesDF.normalized_category p))
              (List.filter
                 (fun p => same_string (ItemsDF.product_id i)
                                       (ProductCategoriesDF.product_id p))
                 products_df)) as ->.
  { unfold has_category. clear.
    induction products_df as [|p l IH]; [reflexivity|].
    cbn [existsb List.filter].
    destruct (same_string _ (ProductCategoriesDF.product_id p));
      cbn [existsb andb]; now rewrite IH. }
  destruct (List.filter _ products_df) as [|p [|q ps]].
  - reflexivity.
  - cbn [List.map List.filter SalesDF.normalized_category existsb].
    rewrite orb_false_r.
    destruct (notna (ProductCategoriesDF.normalized_category p)); reflexivity.
  - simpl in Hle. lia.
Qed.

(** The metrics table accounts for every match of a line item with a product
    row that has a category, once: [total_sales] adds up to the number of
    these matches and [total_revenue] to the sum of their prices.  When no
    product identifier occurs twice in the products table, these are the
    number and the revenue of the line items whose product row has a
    category; a product listed in [k] such rows has each of its items
    counted [k] times.  In a products table where every row has a category
    the matches are all the rows of the inner join, and the items those
    whose product is in the table. *)
Theorem metrics_add_up_to_the_matches
    (products_df : list ProductCategoriesDF.row) (items_df : list ItemsDF.row)
    (output_dir : string) :
  let matches :=
    List.filter (fun r => notna (SalesDF.normalized_category r))
      (sales_data_inner items_df products_df) in
  exists metrics,
    calculate_category_metrics
      (OlistAnalyzer__init__ products_df items_df output_dir) = Ok metrics
    /\ fold_right Nat.add 0%nat (List.map MetricsDF.total_sales metrics)
       = length matches
    /\ (Series_sum (List.map MetricsDF.total_revenue metrics)
        == Series_sum (List.map sale_price matches))%Q
    /\ (NoDup (List.map ProductCategoriesDF.product_id products_df) ->
        fold_right Nat.add 0%nat (List.map MetricsDF.total_sales metrics)
        = length (List.filter (has_category products_df) items_df)
        /\ (Series_sum (List.map MetricsDF.total_revenue metrics)
            == Series_sum
                 (List.map ItemsDF.price
                    (List.filter (has_category products_df) items_df)))%Q)
    /\ (all_categorised products_df ->
        matches = sales_data_inner items_df products_df
        /\ List.filter (has_category products_df) items_df
           = List.filter (has_product products_df) items_df).
Proof.
  intros matches.
  exists (category_metrics items_df products_df).
  split; [apply calculate_category_metrics_init|].
  assert (fold_right Nat.add 0%nat
            (List.map MetricsDF.total_sales
               (category_metrics items_df products_df))
          = length matches) as Hsales.
  { unfold matches. rewrite <- sales_data_left_inner, <- base_metrics_sales.
    apply sum_Permutation. unfold category_metrics.
    rewrite sort_values_Permutation, map_map.
    erewrite map_ext; [reflexivity|]. intros m.
    apply total_sales_metrics_row. }
  assert (Series_sum (List.map MetricsDF.total_revenue
                        (category_metrics items_df products_df))
          == Series_sum (List.map sale_price matches))%Q
    as Hrevenue.
  { rewrite (Series_sum_Permutation _ _ (revenues_Permutation _ _)).
    unfold matches. rewrite <- sales_data_left_inner.
    apply base_metrics_revenue. }
  split; [exact Hsales|]. split; [exact Hrevenue|]. split.
  - intros Hnd.
    pose proof (sales_data_inner_unique items_df products_df Hnd) as Hu.
    fold matches in Hu. split.
    + rewrite Hsales, <- Hu. now rewrite length_map.
    + rewrite Hrevenue, <- Hu, map_map. reflexivity.
  - intros Hall. split.
    + now apply sales_data_inner_categorised.
    + apply filter_ext. intros i. now apply has_category_has_product.
Qed.

(** ** Shares of non-negative prices *)

Lemma Series_sum_nonneg (l : list Q) :
  Forall (fun x => (0 <= x)%Q) l -> (0 <= Series_sum l)%Q.
Proof.
  induction 1 as [|x l Hx _ IH]; simpl; [apply Qle_refl|].
  change 0%Q with (0 + 0)%Q. now apply Qplus_le_compat.
Qed.

Lemma Series_sum_ge_elem (l : list Q) (x : Q) :
  Forall (fun y => (0 <= y)%Q) l -> x ∈ l -> (x <= Series_sum l)%Q.
Proof.
  intros Hall Hx. induction Hx as [x l|x y l Hx IH]; simpl.
  - apply Forall_cons in Hall as [_ Hl].
    pose proof (Series_sum_nonneg l Hl). lra.
  - apply Forall_cons in Hall as [Hy Hl]. specialize (IH Hl). lra.
Qed.

Lemma elem_of_sales_data_left_item (items_df : list ItemsDF.row)
    (products_df : list ProductCategoriesDF.row) (s : SalesDF.row) :
  s ∈ sales_data_left items_df products_df -> SalesDF.item s ∈ items_df.
Proof.
  unfold sales_data_left, merge_left.
  rewrite !list_elem_of_In, in_flat_map. intros (i & Hi & Hs).
  destruct (List.filter _ products_df) as [|p ps].
  - destruct Hs as [<-|[]]. exact Hi.
  - apply in_map_iff in Hs as (p' & <- & _). exact Hi.
Qed.

Lemma base_revenue_nonneg (items_df : list ItemsDF.row)
    (products_df : list ProductCategoriesDF.row) :
  (forall i, i ∈ items_df -> (0 <= ItemsDF.price i)%Q) ->
  Forall (fun x => (0 <= x)%Q)
    (List.map base_revenue (base_metrics (sales_data_left items_df products_df))).
Proof.
  intros Hprice. apply Forall_forall. intros x Hx.
  apply elem_of_map in Hx as (m & Hm & ->).
  apply elem_of_base_metrics in Hm as (k & g & Hg & _ & ->). simpl.
  apply Series_sum_nonneg, Forall_forall. intros y Hy.
  apply elem_of_map in Hy as (s & Hs & ->). subst g.
  unfold group_rows in Hs. apply elem_of_List_filter in Hs as [Hs _].
  apply Hprice. now apply elem_of_sales_data_left_item in Hs.
Qed.

Lemma category_metrics_share_bounds (items_df : list ItemsDF.row)
    (products_df : list ProductCategoriesDF.row) (r : MetricsDF.row) :
  (forall i, i ∈ items_df -> (0 <= ItemsDF.price i)%Q) ->
  ~ (Series_sum (List.map MetricsDF.total_revenue
                   (category_metrics items_df products_df)) == 0)%Q ->
  r ∈ category_metrics items_df products_df ->
  (0 <= MetricsDF.total_revenue r)%Q
  /\ exists q, MetricsDF.revenue_share r = Fin q /\ (0 <= q <= 100)%Q.
Proof.
  intros Hprice Hnz Hr.
  pose proof (revenues_Permutation items_df products_df) as Hperm.
  pose proof (base_revenue_nonneg items_df products_df Hprice) as Hnonneg.
  set (revenues := List.map base_revenue
         (base_metrics (sales_data_left items_df products_df))) in *.
  rewrite (Series_sum_Permutation _ _ Hperm) in Hnz.
  apply elem_of_category_metrics in Hr as (m & Hm & ->). fold revenues.
  rewrite total_revenue_metrics_row, (revenue_share_finite revenues m Hnz).
  assert (base_revenue m ∈ revenues) as Hin.
  { apply elem_of_map. now exists m. }
  pose proof (Series_sum_ge_elem revenues _ Hnonneg Hin) as Hle.
  pose proof (Series_sum_nonneg revenues Hnonneg) as Htot.
  rewrite Forall_forall in Hnonneg. pose proof (Hnonneg _ Hin) as H0.
  split; [exact H0|]. eexists. split; [reflexivity|].
  set (x := base_revenue m) in *. set (T := Series_sum revenues) in *.
  clearbody x T.
  assert (0 < T)%Q as Hpos.
  { apply Qle_lteq in Htot as [Hlt|Heq]; [exact Hlt|].
    exfalso. apply Hnz. now symmetry. }
  split.
  - apply Qmult_le_0_compat; [|discriminate].
    apply Qle_shift_div_l; [exact Hpos|]. lra.
  - assert (x / T <= 1)%Q as H1.
    { apply Qle_shift_div_r; [exact Hpos|]. lra. }
    lra.
Qed.

(** In exact arithmetic (the rounding and the overflow of floating point are
    not modelled): with no negative price and a revenue that is not zero,
    every [total_revenue] is non-negative and every [revenue_share] is a
    percentage, a finite number between 0 and 100. *)
Theorem revenue_share_is_a_percentage
    (products_df : list ProductCategoriesDF.row) (items_df : list ItemsDF.row)
    (output_dir : string) (metrics : list MetricsDF.row) :
  calculate_category_metrics
    (OlistAnalyzer__init__ products_df items_df output_dir) = Ok metrics ->
  (forall i, i ∈ items_df -> (0 <= ItemsDF.price i)%Q) ->
  ~ (Series_sum (List.map MetricsDF.total_revenue metrics) == 0)%Q ->
  forall r, r ∈ metrics ->
    (0 <= MetricsDF.total_revenue r)%Q
    /\ exists q, MetricsDF.revenue_share r = Fin q /\ (0 <= q <= 100)%Q.
Proof.
  rewrite calculate_category_metrics_init. intros [= <-] Hprice Hnz r Hr.
  now apply (category_metrics_share_bounds items_df products_df).
Qed.

(** ** Bounds and sum of the ranks *)

Lemma count_trichotomy (v : Q) (l : list Q) :
  (count_greater v l + count_equal v l + count_less v l = length l)%nat.
Proof.
  unfold count_greater, count_equal, count_less.
  induction l as [|x l IH]; simpl; [reflexivity|].
  destruct (Qltb v x) eqn:E1, (Qeq_bool x v) eqn:E2, (Qltb x v) eqn:E3;
    simpl; try lia; exfalso.
  - apply Qltb_lt in E1, E3. exact (Qlt_irrefl _ (Qlt_trans _ _ _ E1 E3)).
  - apply Qltb_lt in E1. apply Qeq_bool_iff in E2. rewrite E2 in E1.
    exact (Qlt_irrefl _ E1).
  - apply Qltb_lt in E1, E3. exact (Qlt_irrefl _ (Qlt_trans _ _ _ E1 E3)).
  - apply Qltb_lt in E3. apply Qeq_bool_iff in E2. rewrite E2 in E3.
    exact (Qlt_irrefl _ E3).
  - apply Qltb_ge in E1, E3. apply Qeq_bool_neq in E2. apply E2.
    now apply Qle_antisym.
Qed.

(** Every average rank lies between 1 and the number of values. *)
Lemma average_rank_bounds (values : list Q) (v : Q) :
  v ∈ values ->
  (1 <= average_rank values v <= float_of_count (length values))%Q.
Proof.
  intros Hv. unfold average_rank.
  pose proof (count_trichotomy v values) as Htri.
  pose proof (count_equal_pos v values Hv) as Hpos.
  assert (float_of_count (count_greater v values)
          + float_of_count (count_equal v values)
          <= float_of_count (length values))%Q as Hle.
  { rewrite <- float_of_count_add. apply float_of_count_le. lia. }
  pose proof (float_of_count_le 1 _ Hpos) as Hone.
  pose proof (float_of_count_le 0 (count_greater v values) ltac:(lia)) as Hg.
  change (float_of_count 1) with 1%Q in Hone.
  change (float_of_count 0) with 0%Q in Hg.
  set (G := float_of_count (count_greater v values)) in *.
  set (E := float_of_count (count_equal v values)) in *.
  set (N := float_of_count (length values)) in *.
  clearbody G E N. rewrite !Qhalf. lra.
Qed.

Lemma sum_indicator (p : Q -> bool) (f : Q -> nat) (s : list Q) :
  fold_right Nat.add 0%nat
    (List.map (fun v => ((if p v then 1 else 0) + f v)%nat) s)
  = (length (List.filter p s)
     + fold_right Nat.add 0%nat (List.map f s))%nat.
Proof.
  induction s as [|v s IH]; simpl; [reflexivity|].
  rewrite IH. destruct (p v); simpl; lia.
Qed.

(** Counting the ordered pairs of a list of [n] values: twice the pairs with
    a greater second value, plus the pairs of equal values, is [n * n]. *)
Lemma pair_counts (l : list Q) :
  (2 * fold_right Nat.add 0%nat (List.map (fun v => count_greater v l) l)
   + fold_right Nat.add 0%nat (List.map (fun v => count_equal v l) l)
   = length l * length l)%nat.
Proof.
  induction l as [|x t IH]; [reflexivity|].
  cbn [List.map fold_right length].
  assert (forall v, count_greater v (x :: t)
                    = ((if Qltb v x then 1 else 0) + count_greater v t)%nat)
    as Hg.
  { intros v. unfold count_greater. simpl. destruct (Qltb v x); reflexivity. }
  assert (forall v, count_equal v (x :: t)
                    = ((if Qeq_bool x v then 1 else 0) + count_equal v t)%nat)
    as He.
  { intros v. unfold count_equal. simpl. destruct (Qeq_bool x v); reflexivity. }
  rewrite (map_ext _ _ Hg), (map_ext _ _ He), !sum_indicator.
  rewrite Hg, He, Qeq_bool_refl.
  assert (Qltb x x = false) as -> by (apply Qltb_ge, Qle_refl).
  assert (length (List.filter (fun v => Qltb v x) t) = count_less x t) as ->
    by reflexivity.
  assert (length (List.filter (Qeq_bool x) t) = count_equal x t) as ->.
  { unfold count_equal. f_equal. apply filter_ext. intros v.
    apply Qeq_bool_comm. }
  pose proof (count_trichotomy x t). nia.
Qed.

Lemma Series_sum_average_rank (l s : list Q) :
  (2 * Series_sum (List.map (average_rank l) s)
   == float_of_count
        (2 * fold_right Nat.add 0%nat (List.map (fun v => count_greater v l) s)
         + fold_right Nat.add 0%nat (List.map (fun v => count_equal v l) s)
         + length s))%Q.
Proof.
  induction s as [|v s IH]; [reflexivity|].
  cbn [List.map Series_sum fold_right length].
  replace (2 * (count_greater v l
                + fold_right Nat.add 0 (List.map (fun v => count_greater v l) s))
           + (count_equal v l
              + fold_right Nat.add 0 (List.map (fun v => count_equal v l) s))
           + S (length s))%nat
    with ((2 * count_greater v l + count_equal v l + 1)
          + (2 * fold_right Nat.add 0 (List.map (fun v => count_greater v l) s)
             + fold_right Nat.add 0 (List.map (fun v => count_equal v l) s)
             + length s))%nat by lia.
  rewrite (float_of_count_add (2 * count_greater v l + count_equal v l + 1)).
  unfold Series_sum in IH. rewrite <- IH.
  rewrite !float_of_count_add, float_of_count_mul.
  unfold average_rank, Series_sum.
  change (float_of_count 2) with 2%Q. change (float_of_count 1) with 1%Q.
  field.
Qed.

(** The average ranks of [n] values add up to [n (n + 1) / 2], ties or not. *)
Lemma average_rank_sum (l : list Q) :
  (2 * Series_sum (List.map (average_rank l) l)
   == float_of_count (length l) * (float_of_count (length l) + 1))%Q.
Proof.
  rewrite Series_sum_average_rank.
  replace (2 * fold_right Nat.add 0%nat
                 (List.map (fun v => count_greater v l) l)
           + fold_right Nat.add 0%nat (List.map (fun v => count_equal v l) l)
           + length l)%nat
    with (length l * (length l + 1))%nat
    by (pose proof (pair_counts l); nia).
  rewrite float_of_count_mul, float_of_count_add. reflexivity.
Qed.

Lemma Series_sum_pointwise {A : Type} (f g : A -> Q) (l : list A) :
  (forall x, x ∈ l -> (f x == g x)%Q) ->
  (Series_sum (List.map f l) == Series_sum (List.map g l))%Q.
Proof.
  induction l as [|x l IH]; intros H; simpl; [reflexivity|].
  rewrite (H x (list_elem_of_here _ _)), IH; [reflexivity|].
  intros y Hy. apply H. now apply list_elem_of_further.
Qed.

Lemma average_ranked_bounds_and_sum {B : Type} (key rank : B -> Q)
    (table : list B) :
  average_ranked key rank table ->
  (forall r, r ∈ table ->
     (1 <= rank r <= float_of_count (length table))%Q)
  /\ (2 * Series_sum (List.map rank table)
      == float_of_count (length table) * (float_of_count (length table) + 1))%Q.
Proof.
  intros [Hclosed _]. split.
  - intros r Hr. rewrite (Hclosed r Hr).
    rewrite <- (length_map key table). apply average_rank_bounds.
    apply elem_of_map. now exists r.
  - rewrite (Series_sum_pointwise rank
               (fun r => average_rank (List.map key table) (key r)) table Hclosed).
    rewrite <- (map_map key (average_rank (List.map key table))).
    rewrite average_rank_sum, length_map. reflexivity.
Qed.

(** In the metrics table and in the ticket table of [n] rows, every rank lies
    between 1 and [n], and the ranks add up to [n (n + 1) / 2], whether
    there are ties or not. *)
Theorem ranks_bounds_and_sum
    (products_df : list ProductCategoriesDF.row) (items_df : list ItemsDF.row)
    (output_dir : string) :
  let self := OlistAnalyzer__init__ products_df items_df output_dir in
  exists metrics tickets,
    calculate_category_metrics self = Ok metrics
    /\ analyze_average_ticket self = Ok tickets
    /\ length tickets = length metrics
    /\ (forall r, r ∈ metrics ->
          (1 <= MetricsDF.revenue_rank r
           <= float_of_count (length metrics))%Q)
    /\ (2 * Series_sum (List.map MetricsDF.revenue_rank metrics)
        == float_of_count (length metrics)
           * (float_of_count (length metrics) + 1))%Q
    /\ (forall r, r ∈ tickets ->
          (1 <= TicketDF.ticket_rank r <= float_of_count (length tickets))%Q)
    /\ (2 * Series_sum (List.map TicketDF.ticket_rank tickets)
        == float_of_count (length tickets)
           * (float_of_count (length tickets) + 1))%Q.
Proof.
  intros self.
  exists (category_metrics items_df products_df),
         (average_ticket (category_metrics items_df products_df)).
  split; [apply calculate_category_metrics_init|].
  split; [apply analyze_average_ticket_init|].
  assert (average_ranked MetricsDF.total_revenue MetricsDF.revenue_rank
            (category_metrics items_df products_df)) as Hrm.
  { unfold category_metrics.
    apply (average_ranked_sorted_rows base_revenue metrics_row).
    - apply total_revenue_metrics_row.
    - apply revenue_rank_metrics_row. }
  assert (average_ranked TicketDF.avg_ticket TicketDF.ticket_rank
            (average_ticket (category_metrics items_df products_df))) as Hrt.
  { unfold average_ticket.
    apply (average_ranked_sorted_rows MetricsDF.avg_ticket ticket_row);
      reflexivity. }
  destruct (average_ranked_bounds_and_sum _ _ _ Hrm) as [H1 H2].
  destruct (average_ranked_bounds_and_sum _ _ _ Hrt) as [H3 H4].
  split.
  { unfold average_ticket.
    now rewrite (Permutation_length (sort_values_Permutation _ _)), length_map. }
  repeat split; auto; try apply H1; try apply H3; auto.
Qed.

(** ** Ranks without ties *)

Lemma count_equal_none (v : Q) (l : list Q) :
  (forall x, x ∈ l -> ~ (x == v)%Q) -> count_equal v l = 0%nat.
Proof.
  unfold count_equal. induction l as [|x l IH]; intros H; simpl; [reflexivity|].
  destruct (Qeq_bool x v) eqn:E.
  - apply Qeq_bool_iff in E. destruct (H x (list_elem_of_here _ _) E).
  - apply IH. intros y Hy. apply H. now apply list_elem_of_further.
Qed.

(** In a descending list without equal values, the value at index [i] has
    [i] greater values and is equal to itself only. *)
Lemma counts_at_index (l : list Q) :
  descending l ->
  no_ties (fun v => v) l ->
  forall i v, l !! i = Some v ->
    count_greater v l = i /\ count_equal v l = 1%nat.
Proof.
  unfold descending. induction 1 as [|h t Hs IH Hall]; intros Hno i v Hi.
  - discriminate.
  - assert (no_ties (fun v => v) t) as Hno'.
    { intros a b x y Ha Hb Hxy.
      assert (S a = S b) as Heq by (apply (Hno (S a) (S b) x y); auto).
      lia. }
    assert (forall x, x ∈ t -> ~ (x == h)%Q) as Hne.
    { intros x Hx Heq. apply list_elem_of_lookup in Hx as [j Hj].
      assert (S j = 0%nat) as Habs
        by (apply (Hno (S j) 0%nat x h); auto).
      lia. }
    destruct i as [|i]; simpl in Hi.
    + injection Hi as <-. unfold count_greater, count_equal. simpl.
      rewrite Qeq_bool_refl.
      assert (Qltb h h = false) as -> by (apply Qltb_ge, Qle_refl).
      pose proof (count_greater_below h t Hall) as Hg.
      pose proof (count_equal_none h t Hne) as He.
      unfold count_greater, count_equal in Hg, He. simpl. lia.
    + destruct (IH Hno' i v Hi) as [Hg He].
      assert (v ∈ t) as Hv by (now apply list_elem_of_lookup_2 in Hi).
      unfold count_greater, count_equal in *. simpl.
      assert (Qeq_bool h v = false) as ->.
      { destruct (Qeq_bool h v) eqn:E; [|reflexivity].
        apply Qeq_bool_iff in E. exfalso. apply (Hne v Hv). now symmetry. }
      assert (Qltb v h = true) as ->.
      { apply Qltb_lt. rewrite Forall_forall in Hall.
        pose proof (Hall v Hv) as Hle. simpl in Hle.
        apply Qle_lteq in Hle as [Hlt|Heq]; [exact Hlt|].
        destruct (Hne v Hv Heq). }
      simpl. lia.
Qed.

Lemma map_sorted_descending {A : Type} (key : A -> Q) (l : list A) :
  StronglySorted (fun a b => (key b <= key a)%Q) l ->
  descending (List.map key l).
Proof.
  unfold descending. induction 1 as [|h t Hs IH Hall]; simpl; constructor.
  - exact IH.
  - apply Forall_forall. intros x Hx. apply elem_of_map in Hx as (a & Ha & ->).
    rewrite Forall_forall in Hall. now apply Hall.
Qed.

Lemma no_ties_map {A : Type} (key : A -> Q) (l : list A) :
  no_ties key l -> no_ties (fun v => v) (List.map key l).
Proof.
  intros Hno i j x y Hi Hj Hxy.
  rewrite list_lookup_fmap in Hi, Hj.
  destruct (l !! i) as [a|] eqn:Ha; [|discriminate].
  destruct (l !! j) as [b|] eqn:Hb; [|discriminate].
  injection Hi as <-. injection Hj as <-. exact (Hno i j a b Ha Hb Hxy).
Qed.

(** When no two categories have the same revenue, [revenue_rank] is the
    place of the row in the table that [calculate_category_metrics] returns:
    the first row has rank 1, the next rank 2, and so on, which is also the
    dense rank. *)
Theorem revenue_rank_without_ties
    (products_df : list ProductCategoriesDF.row) (items_df : list ItemsDF.row)
    (output_dir : string) (metrics : list MetricsDF.row) :
  calculate_category_metrics
    (OlistAnalyzer__init__ products_df items_df output_dir) = Ok metrics ->
  no_ties MetricsDF.total_revenue metrics ->
  forall i r, metrics !! i = Some r ->
    (MetricsDF.revenue_rank r == float_of_count (S i))%Q
    /\ (MetricsDF.revenue_rank r
        == dense_rank (List.map MetricsDF.total_revenue metrics)
             (MetricsDF.total_revenue r))%Q.
Proof.
  rewrite calculate_category_metrics_init. intros [= <-] Hno i r Hi.
  assert (average_ranked MetricsDF.total_revenue MetricsDF.revenue_rank
            (category_metrics items_df products_df)) as [Hclosed _].
  { unfold category_metrics.
    apply (average_ranked_sorted_rows base_revenue metrics_row).
    - apply total_revenue_metrics_row.
    - apply revenue_rank_metrics_row. }
  set (metrics := category_metrics items_df products_df) in *.
  set (values := List.map MetricsDF.total_revenue metrics).
  assert (descending values) as Hdesc.
  { apply map_sorted_descending. unfold metrics, category_metrics.
    apply sort_values_desc_sorted. }
  assert (no_ties (fun v => v) values) as Hno' by now apply no_ties_map.
  assert (values !! i = Some (MetricsDF.total_revenue r)) as Hvi.
  { unfold values. rewrite list_lookup_fmap.
    change (@lookup nat MetricsDF.row (list MetricsDF.row) _ i metrics)
      with (metrics !! i). now rewrite Hi. }
  assert (r ∈ metrics) as Hr by (now apply list_elem_of_lookup_2 in Hi).
  destruct (counts_at_index values Hdesc Hno' i _ Hvi) as [Hg He].
  assert (forall x, x ∈ values -> count_equal x values = 1%nat) as Hone.
  { intros x Hx. apply list_elem_of_lookup in Hx as [j Hj].
    now destruct (counts_at_index values Hdesc Hno' j x Hj). }
  split.
  - rewrite (Hclosed r Hr). fold values. unfold average_rank.
    rewrite Hg, He.
    change (S i) with (1 + i)%nat. rewrite float_of_count_add.
    change (float_of_count 1) with 1%Q. field.
  - rewrite (Hclosed r Hr). fold values.
    apply average_rank_dense_rank; [exact Hone|].
    now apply list_elem_of_lookup_2 in Hvi.
Qed.

(** The metrics table is empty exactly when no line item has a product row
    with a category (in a products table where every row has a category:
    when no line item has a product row); empty tables raise nothing. *)
Theorem metrics_empty_iff
    (products_df : list ProductCategoriesDF.row) (items_df : list ItemsDF.row)
    (output_dir : string) :
  exists metrics,
    calculate_category_metrics
      (OlistAnalyzer__init__ products_df items_df output_dir) = Ok metrics
    /\ (metrics = [] <->
        forall i, i ∈ items_df -> has_category products_df i = false)
    /\ (all_categorised products_df ->
        (metrics = [] <->
         forall i, i ∈ items_df -> has_product products_df i = false))
    /\ (items_df = [] -> metrics = [])
    /\ (products_df = [] -> metrics = []).
Proof.
  exists (category_metrics items_df products_df).
  split; [apply calculate_category_metrics_init|].
  assert (category_metrics items_df products_df = [] <->
          forall i, i ∈ items_df -> has_category products_df i = false) as Hiff.
  { pose proof (category_metrics_categories items_df products_df) as Hperm.
    split.
    - intros Hnil i Hi. rewrite Hnil in Hperm. simpl in Hperm.
      apply Permutation_nil in Hperm.
      destruct (has_category products_df i) eqn:E; [|reflexivity].
      unfold has_category in E. apply existsb_exists in E as (p & Hp & Hsame).
      apply andb_true_iff in Hsame as [Hsame Hcat].
      unfold same_string in Hsame. apply bool_decide_eq_true in Hsame.
      destruct (ProductCategoriesDF.normalized_category p) as [c|] eqn:Hc;
        [|discriminate].
      assert (c ∈ group_keys String.ltb
                    (List.map SalesDF.normalized_category
                       (sales_data_left items_df products_df))) as Hin.
      { apply elem_of_group_keys, elem_of_sales_data_left.
        exists i, p. split; [exact Hi|].
        split; [now apply list_elem_of_In | auto]. }
      rewrite Hperm in Hin. inversion Hin.
    - intros Hnone.
      destruct (category_metrics items_df products_df) as [|r rest] eqn:E;
        [reflexivity|].
      assert (MetricsDF.normalized_category r
              ∈ List.map MetricsDF.normalized_category (r :: rest)) as Hin
        by apply list_elem_of_here.
      rewrite Hperm in Hin.
      apply elem_of_group_keys, elem_of_sales_data_left in Hin
        as (i & p & Hi & Hp & Hid & Hc).
      specialize (Hnone i Hi). unfold has_category in Hnone.
      assert (existsb
        (fun p => same_string (ItemsDF.product_id i)
                              (ProductCategoriesDF.product_id p)
                  && notna (ProductCategoriesDF.normalized_category p))
        products_df = true) as Htrue.
      { apply existsb_exists. exists p. split; [now apply list_elem_of_In|].
        rewrite Hc. unfold same_string. rewrite andb_true_r.
        now apply bool_decide_eq_true. }
      congruence. }
  split; [exact Hiff|]. split; [|split].
  - intros Hall. rewrite Hiff. split; intros H i Hi.
    + rewrite <- (has_category_has_product products_df i Hall). now apply H.
    + rewrite (has_category_has_product products_df i Hall). now apply H.
  - intros ->. apply Hiff. intros i Hi. inversion Hi.
  - intros ->. apply Hiff. intros i _. reflexivity.
Qed.

(** ** The ticket table *)

Lemma elem_of_average_ticket (metrics : list MetricsDF.row) (t : TicketDF.row) :
  t ∈ average_ticket metrics <->
  exists m, m ∈ metrics
    /\ t = ticket_row (List.map MetricsDF.avg_ticket metrics) m.
Proof. unfold average_ticket. now rewrite elem_of_sort_values, elem_of_map. Qed.

Lemma Series_sum_div (d : Q) (values : list Q) :
  (Series_sum (List.map (fun v => v / d) values) == Series_sum values / d)%Q.
Proof.
  induction values as [|v l IH]; simpl.
  - unfold Qdiv. ring.
  - rewrite IH. unfold Qdiv. ring.
Qed.

Lemma Series_mean_zero (l : list Q) :
  l <> [] -> (Series_sum l == 0)%Q ->
  exists mu, Series_mean l = Fin mu /\ (mu == 0)%Q.
Proof.
  destruct l as [|v l]; [congruence|]. intros _ H.
  eexists. split; [reflexivity|]. rewrite H. unfold Qdiv. ring.
Qed.

(** [analyze_average_ticket] lists the categories of the metrics table, with
    their [avg_ticket] and [total_sales], in decreasing order of
    [avg_ticket].  In exact arithmetic (the rounding and the overflow of
    floating point are not modelled): when the tickets do not sum to zero,
    the [relative_to_mean] of every row is a finite number and the column
    sums to the number of categories (its mean is 1); when they sum to zero,
    every [relative_to_mean] is NaN or an infinity. *)
Theorem ticket_table_rows
    (products_df : list ProductCategoriesDF.row) (items_df : list ItemsDF.row)
    (output_dir : string) :
  let self := OlistAnalyzer__init__ products_df items_df output_dir in
  exists metrics tickets,
    calculate_category_metrics self = Ok metrics
    /\ analyze_average_ticket self = Ok tickets
    /\ Permutation
         (List.map (fun t => (TicketDF.normalized_category t,
                              TicketDF.avg_ticket t, TicketDF.total_sales t))
            tickets)
         (List.map (fun m => (MetricsDF.normalized_category m,
                              MetricsDF.avg_ticket m, MetricsDF.total_sales m))
            metrics)
    /\ (forall i j ti tj,
          tickets !! i = Some ti -> tickets !! j = Some tj -> (i <= j)%nat ->
          (TicketDF.avg_ticket tj <= TicketDF.avg_ticket ti)%Q)
    /\ (~ (Series_sum (List.map MetricsDF.avg_ticket metrics) == 0)%Q ->
        (forall t, t ∈ tickets ->
           exists q, TicketDF.relative_to_mean t = Fin q)
        /\ exists q,
             Series_sum_skipna (List.map TicketDF.relative_to_mean tickets)
             = Fin q
             /\ (q == float_of_count (length tickets))%Q)
    /\ ((Series_sum (List.map MetricsDF.avg_ticket metrics) == 0)%Q ->
        forall t, t ∈ tickets -> is_finite (TicketDF.relative_to_mean t) = false).
Proof.
  intros self.
  exists (category_metrics items_df products_df),
         (average_ticket (category_metrics items_df products_df)).
  split; [apply calculate_category_metrics_init|].
  split; [apply analyze_average_ticket_init|].
  set (metrics := category_metrics items_df products_df).
  set (tickets := List.map MetricsDF.avg_ticket metrics).
  split.
  { unfold average_ticket. rewrite sort_values_Permutation, map_map.
    reflexivity. }
  split.
  { unfold average_ticket. apply sorted_lookup, sort_values_desc_sorted. }
  split.
  - intros Hnz.
    assert (metrics <> []) as Hne.
    { intros E. apply Hnz. fold tickets. unfold tickets. now rewrite E. }
    assert (0 < length tickets)%nat as Hlen.
    { unfold tickets. rewrite length_map. destruct metrics; [congruence|].
      simpl. lia. }
    pose proof (float_of_count_pos _ Hlen) as Hn.
    set (mu := (Series_sum tickets / float_of_count (length tickets))%Q).
    assert (Series_mean tickets = Fin mu) as Hmean.
    { unfold Series_mean, mu. destruct tickets; [simpl in Hlen; lia|].
      reflexivity. }
    assert (~ (mu == 0)%Q) as Hmu.
    { unfold mu. intros H0. apply Hnz. fold tickets.
      assert (Series_sum tickets
              == Series_sum tickets / float_of_count (length tickets)
                 * float_of_count (length tickets))%Q as ->.
      { field. intros E. rewrite E in Hn. now apply Qlt_irrefl in Hn. }
      rewrite H0. ring. }
    assert (forall t, t ∈ average_ticket metrics ->
              TicketDF.relative_to_mean t = Fin (TicketDF.avg_ticket t / mu))
      as Hrow.
    { intros t Ht. apply elem_of_average_ticket in Ht as (m & _ & ->).
      simpl. fold tickets. rewrite Hmean. simpl.
      destruct (Qeq_bool mu 0) eqn:E; [|reflexivity].
      apply Qeq_bool_iff in E. contradiction. }
    split; [intros t Ht; rewrite (Hrow t Ht); eauto|].
    assert (List.map TicketDF.relative_to_mean (average_ticket metrics)
            = List.map Fin
                (List.map (fun v => v / mu)%Q
                   (List.map TicketDF.avg_ticket (average_ticket metrics))))
      as ->.
    { rewrite !map_map. apply map_ext_in. intros t Ht.
      apply Hrow. now apply list_elem_of_In. }
    eexists. split; [apply Series_sum_skipna_finite|].
    rewrite Series_sum_div.
    assert (Permutation (List.map TicketDF.avg_ticket (average_ticket metrics))
              tickets) as Hperm.
    { unfold average_ticket. rewrite sort_values_Permutation, map_map.
      reflexivity. }
    rewrite (Series_sum_Permutation _ _ Hperm).
    assert (length (average_ticket metrics) = length tickets) as ->.
    { unfold average_ticket, tickets.
      now rewrite (Permutation_length (sort_values_Permutation _ _)),
        !length_map. }
    unfold mu. field.
    split; intros E;
      first [ apply Hnz; exact E
            | rewrite E in Hn; now apply Qlt_irrefl in Hn ].
  - intros Hz t Ht. apply elem_of_average_ticket in Ht as (m & Hm & ->).
    unfold ticket_row. cbn [TicketDF.relative_to_mean]. fold tickets.
    destruct (Series_mean_zero tickets) as (mu & -> & Hmu); [|exact Hz|].
    + unfold tickets. intros E. apply map_eq_nil in E.
      rewrite E in Hm. inversion Hm.
    + rewrite (num_div_zero _ _ Hmu). apply signed_inf_not_finite.
Qed.

(** ** The popularity table *)

Lemma elem_of_category_popularity (metrics : list MetricsDF.row)
    (p : PopularityDF.row) :
  p ∈ category_popularity metrics <->
  exists m, m ∈ metrics
    /\ p = popularity_row
             (fold_right Nat.add 0%nat (List.map MetricsDF.total_sales metrics))
             (Series_max (List.map MetricsDF.product_diversity metrics)) m.
Proof.
  unfold category_popularity. now rewrite elem_of_sort_values, elem_of_map.
Qed.

Lemma float_of_count_sum (l : list nat) :
  (float_of_count (fold_right Nat.add 0%nat l)
   == Series_sum (List.map float_of_count l))%Q.
Proof.
  induction l as [|x l IH]; simpl; [reflexivity|].
  now rewrite float_of_count_add, IH.
Qed.

Lemma sum_ge_elem (l : list nat) (x : nat) :
  x ∈ l -> (x <= fold_right Nat.add 0%nat l)%nat.
Proof. induction 1; simpl; lia. Qed.

Lemma float_of_count_nonzero (n : nat) :
  (1 <= n)%nat -> Qeq_bool (float_of_count n) 0 = false.
Proof.
  intros Hn. destruct (Qeq_bool (float_of_count n) 0) eqn:E; [|reflexivity].
  apply Qeq_bool_iff in E. pose proof (float_of_count_pos n Hn) as Hpos.
  rewrite E in Hpos. now apply Qlt_irrefl in Hpos.
Qed.

(** The sales share of a row of the metrics table is a finite fraction. *)
Lemma sales_share_finite (items_df : list ItemsDF.row)
    (products_df : list ProductCategoriesDF.row) (m : MetricsDF.row) :
  let metrics := category_metrics items_df products_df in
  let total :=
    fold_right Nat.add 0%nat (List.map MetricsDF.total_sales metrics) in
  m ∈ metrics ->
  (1 <= MetricsDF.total_sales m <= total)%nat
  /\ num_div (Fin (float_of_count (MetricsDF.total_sales m)))
             (Fin (float_of_count total))
     = Fin (float_of_count (MetricsDF.total_sales m) / float_of_count total).
Proof.
  intros metrics total Hm.
  destruct (metrics_row_counts _ _ _ Hm) as (H1 & _ & _).
  assert (MetricsDF.total_sales m <= total)%nat as H2.
  { apply sum_ge_elem, elem_of_map. now exists m. }
  split; [lia|]. simpl. rewrite float_of_count_nonzero by lia. reflexivity.
Qed.

(** Every [sales_share] of the popularity table is a finite number, and on a
    table that is not empty the column sums to 1, whatever the prices. *)
Theorem sales_shares_sum_to_1
    (products_df : list ProductCategoriesDF.row) (items_df : list ItemsDF.row)
    (output_dir : string) :
  exists popularity,
    analyze_category_popularity
      (OlistAnalyzer__init__ products_df items_df output_dir) = Ok popularity
    /\ (forall p, p ∈ popularity ->
          exists q, PopularityDF.sales_share p = Fin q)
    /\ (popularity <> [] ->
        exists q,
          Series_sum_skipna (List.map PopularityDF.sales_share popularity)
          = Fin q
          /\ (q == 1)%Q).
Proof.
  exists (category_popularity (category_metrics items_df products_df)).
  split; [apply analyze_category_popularity_init|].
  split.
  { intros p Hp. apply elem_of_category_popularity in Hp as (m & Hm & ->).
    unfold popularity_row. cbn [PopularityDF.sales_share].
    rewrite (proj2 (sales_share_finite items_df products_df m Hm)). eauto. }
  intros Hne.
  set (metrics := category_metrics items_df products_df) in *.
  set (total := fold_right Nat.add 0%nat
                  (List.map MetricsDF.total_sales metrics)).
  assert (Permutation
            (List.map PopularityDF.total_sales (category_popularity metrics))
            (List.map MetricsDF.total_sales metrics)) as Hperm.
  { unfold category_popularity. rewrite sort_values_Permutation, map_map.
    reflexivity. }
  assert (1 <= total)%nat as Htotal.
  { destruct metrics as [|m rest] eqn:E; [exfalso; now apply Hne|].
    destruct (sales_share_finite items_df products_df m) as [H _].
    - fold metrics. rewrite E. apply list_elem_of_here.
    - fold metrics in H. rewrite E in H. unfold total. lia. }
  assert (List.map PopularityDF.sales_share (category_popularity metrics)
          = List.map Fin
              (List.map (fun v => v / float_of_count total)%Q
                 (List.map float_of_count
                    (List.map PopularityDF.total_sales
                       (category_popularity metrics))))) as ->.
  { rewrite !map_map. apply map_ext_in. intros p Hp.
    apply list_elem_of_In, elem_of_category_popularity in Hp as (m & Hm & ->).
    unfold popularity_row.
    cbn [PopularityDF.sales_share PopularityDF.total_sales].
    exact (proj2 (sales_share_finite items_df products_df m Hm)). }
  eexists. split; [apply Series_sum_skipna_finite|].
  rewrite Series_sum_div, <- float_of_count_sum, (sum_Permutation _ _ Hperm).
  fold total. pose proof (float_of_count_pos total Htotal) as Hpos.
  field. intros E. rewrite E in Hpos. now apply Qlt_irrefl in Hpos.
Qed.

(** In exact arithmetic (the rounding and the overflow of floating point are
    not modelled): with no negative price and a revenue that is not zero,
    every [popularity_score] is a finite number greater than 0 and at most
    1. *)
Theorem popularity_score_bounds
    (products_df : list ProductCategoriesDF.row) (items_df : list ItemsDF.row)
    (output_dir : string) (metrics : list MetricsDF.row)
    (popularity : list PopularityDF.row) :
  let self := OlistAnalyzer__init__ products_df items_df output_dir in
  calculate_category_metrics self = Ok metrics ->
  analyze_category_popularity self = Ok popularity ->
  (forall i, i ∈ items_df -> (0 <= ItemsDF.price i)%Q) ->
  ~ (Series_sum (List.map MetricsDF.total_revenue metrics) == 0)%Q ->
  forall p, p ∈ popularity ->
    exists s, PopularityDF.popularity_score p = Fin s /\ (0 < s <= 1)%Q.
Proof.
  intros self. unfold self.
  rewrite calculate_category_metrics_init, analyze_category_popularity_init.
  intros [= <-] [= <-] Hprice Hnz p Hp.
  apply elem_of_category_popularity in Hp as (m & Hm & ->).
  destruct (sales_share_finite items_df products_df m Hm) as [Hts Hss].
  destruct (category_metrics_share_bounds items_df products_df m Hprice Hnz Hm)
    as (_ & q & Hq & Hq0 & Hq100).
  destruct (metrics_row_counts _ _ _ Hm) as (_ & Hd & _).
  set (metrics := category_metrics items_df products_df) in *.
  set (total := fold_right Nat.add 0%nat
                  (List.map MetricsDF.total_sales metrics)) in *.
  assert (exists mx,
            Series_max (List.map MetricsDF.product_diversity metrics)
            = Fin (float_of_count mx)
            /\ (MetricsDF.product_diversity m <= mx)%nat) as (mx & Hmax & Hle).
  { destruct metrics as [|r rest] eqn:E; [inversion Hm|].
    eexists. split; [reflexivity|].
    apply elem_of_cons in Hm as [->|Hin].
    - apply fold_max_ge.
    - apply fold_max_ge_elem, elem_of_map. now exists m. }
  unfold popularity_row. cbn [PopularityDF.popularity_score].
  fold metrics. fold total. rewrite Hss, Hq, Hmax. simpl.
  rewrite float_of_count_nonzero by lia.
  eexists. split; [reflexivity|].
  pose proof (float_of_count_pos _ (proj1 Hts)) as Hs0.
  pose proof (float_of_count_le _ _ (proj2 Hts)) as Hs1.
  pose proof (float_of_count_pos _ Hd) as Hd0.
  pose proof (float_of_count_le _ _ Hle) as Hd1.
  set (S := float_of_count (MetricsDF.total_sales m)) in *.
  set (T := float_of_count total) in *.
  set (D := float_of_count (MetricsDF.product_diversity m)) in *.
  set (M := float_of_count mx) in *.
  clearbody S T D M.
  assert (0 < T)%Q as HT by lra.
  assert (0 < M)%Q as HM by lra.
  assert (0 < S / T <= 1)%Q as [Ha0 Ha1].
  { split; [apply Qlt_shift_div_l | apply Qle_shift_div_r]; lra. }
  assert (0 < D / M <= 1)%Q as [Hb0 Hb1].
  { split; [apply Qlt_shift_div_l | apply Qle_shift_div_r]; lra. }
  set (a := (S / T)%Q) in *. clearbody a.
  assert ((2 # 10) * D / M == (2 # 10) * (D / M))%Q as ->
    by (field; intros E; rewrite E in HM; now apply Qlt_irrefl in HM).
  set (b := (D / M)%Q) in *. clearbody b.
  assert ((4 # 10) * q / 100 == (4 # 1000) * q)%Q as -> by field.
  lra.
Qed.

(** ** The order of the popularity table *)

Section SortedBy.
Context {A : Type} (after : A -> A -> bool).
Hypothesis after_asym : forall x y, after x y = true -> after y x = false.
Hypothesis after_trans :
  forall x y z, after x y = false -> after y z = false -> after x z = false.

Lemma insert_sorted_sorted (x : A) (l : list A) :
  StronglySorted (fun a b => after a b = false) l ->
  StronglySorted (fun a b => after a b = false) (insert_sorted after x l).
Proof.
  induction 1 as [|h t Hs IH Hall]; simpl.
  - repeat constructor.
  - destruct (after x h) eqn:E.
    + constructor; [exact IH|].
      rewrite insert_sorted_Permutation. constructor; [|exact Hall].
      now apply after_asym.
    + constructor; [now constructor|].
      constructor; [exact E|].
      eapply Forall_impl; [exact Hall|]. intros b Hb. simpl in Hb.
      now apply after_trans with h.
Qed.

Lemma sort_values_sorted (l : list A) :
  StronglySorted (fun a b => after a b = false) (sort_values after l).
Proof.
  induction l as [|x l IH]; simpl; [constructor|].
  now apply insert_sorted_sorted.
Qed.

Lemma sorted_lookup_after (l : list A) :
  (forall x, after x x = false) ->
  StronglySorted (fun a b => after a b = false) l ->
  forall i j a b,
    l !! i = Some a -> l !! j = Some b -> (i <= j)%nat -> after a b = false.
Proof.
  intros Hrefl. induction 1 as [|h t Hs IH Hall]; intros i j a b Hi Hj Hij.
  - discriminate.
  - destruct i as [|i], j as [|j]; simpl in *.
    + injection Hi as <-. injection Hj as <-. apply Hrefl.
    + injection Hi as <-. rewrite Forall_forall in Hall.
      apply Hall. now apply list_elem_of_lookup_2 in Hj.
    + lia.
    + apply (IH i j); auto. lia.
Qed.

End SortedBy.

Lemma desc_num_asym {A : Type} (key : A -> num) (x y : A) :
  desc_num key x y = true -> desc_num key y x = false.
Proof.
  unfold desc_num. destruct (key x) as [a| | |], (key y) as [b| | |];
    try reflexivity; try discriminate.
  intros H. apply Qltb_lt in H. apply Qltb_ge. now apply Qlt_le_weak.
Qed.

Lemma desc_num_trans {A : Type} (key : A -> num) (x y z : A) :
  desc_num key x y = false -> desc_num key y z = false ->
  desc_num key x z = false.
Proof.
  unfold desc_num.
  destruct (key x) as [a| | |], (key y) as [b| | |], (key z) as [c| | |];
    try reflexivity; try discriminate.
  intros H1 H2. apply Qltb_ge in H1, H2. apply Qltb_ge.
  now apply Qle_trans with b.
Qed.

Lemma desc_num_refl {A : Type} (key : A -> num) (x : A) :
  desc_num key x x = false.
Proof.
  unfold desc_num. destruct (key x) as [a| | |]; try reflexivity.
  apply Qltb_ge, Qle_refl.
Qed.

(** The popularity table is returned in decreasing order of
    [popularity_score] with the missing scores last: of two rows, the later
    one has no greater finite score, and every row after a row with a NaN
    score has a NaN score. *)
Theorem popularity_sorted_by_score
    (products_df : list ProductCategoriesDF.row) (items_df : list ItemsDF.row)
    (output_dir : string) :
  exists popularity,
    analyze_category_popularity
      (OlistAnalyzer__init__ products_df items_df output_dir) = Ok popularity
    /\ forall i j pi pj,
         popularity !! i = Some pi -> popularity !! j = Some pj ->
         (i <= j)%nat ->
         (forall a b,
            PopularityDF.popularity_score pi = Fin a ->
            PopularityDF.popularity_score pj = Fin b -> (b <= a)%Q)
         /\ (PopularityDF.popularity_score pi = NaN ->
             PopularityDF.popularity_score pj = NaN).
Proof.
  exists (category_popularity (category_metrics items_df products_df)).
  split; [apply analyze_category_popularity_init|].
  intros i j pi pj Hi Hj Hij.
  assert (desc_num PopularityDF.popularity_score pi pj = false) as H.
  { unfold category_popularity in Hi, Hj.
    eapply (sorted_lookup_after (desc_num PopularityDF.popularity_score));
      [apply desc_num_refl | apply sort_values_sorted | exact Hi | exact Hj
      | exact Hij].
    - apply desc_num_asym.
    - apply desc_num_trans. }
  unfold desc_num in H. split.
  - intros a b Ha Hb. rewrite Ha, Hb in H. now apply Qltb_ge in H.
  - intros Ha. rewrite Ha in H.
    destruct (PopularityDF.popularity_score pj); [discriminate..|reflexivity].
Qed.

(** ** The aggregates of the delivery table *)







(** ** The monthly table *)







(** ** The detailed report *)

Section Report.
Variable fsqrt : Q -> Q.
Variable to_period_M : Z -> Z.
Variable products_df : list ProductCategoriesDF.row.
Variable items_df : list ItemsDF.row.
Variable output_dir : string.
Variable v : pyval.








End Report.


(** ** The charts *)

Lemma length_head_rows {A : Type} (n : Z) (df : list A) :
  length (head_rows n df)
  = if (0 <=? n)%Z then Nat.min (Z.to_nat n) (length df)
    else (length df - Z.to_nat (- n))%nat.
Proof.
  unfold head_rows. destruct (0 <=? n)%Z; rewrite length_firstn; lia.
Qed.

Lemma lookup_head_rows {A : Type} (n : Z) (df : list A) (i : nat) :
  (i < length (head_rows n df))%nat -> head_rows n df !! i = df !! i.
Proof.
  rewrite length_head_rows. unfold head_rows.
  destruct (0 <=? n)%Z; intros Hi.
  - change (firstn (Z.to_nat n) df) with (take (Z.to_nat n) df).
    apply lookup_take_lt. lia.
  - change (firstn (length df - Z.to_nat (- n)) df)
      with (take (length df - Z.to_nat (- n)) df).
    apply lookup_take_lt. lia.
Qed.

(** The two charts drawn from the metrics table show the same categories in
    the same order: for [top_n >= 0] the first [top_n] rows of the table (all
    of them when there are fewer), for a negative [top_n] all rows but the
    last [-top_n].  A bar carries the [revenue_share], in the second chart the
    [avg_ticket], of its row, and no category left out has a greater
    [total_revenue] than a category shown. *)
Theorem charts_show_the_top_categories
    (products_df : list ProductCategoriesDF.row) (items_df : list ItemsDF.row)
    (output_dir : string) (top_n : Z) :
  exists metrics,
    calculate_category_metrics
      (OlistAnalyzer__init__ products_df items_df output_dir) = Ok metrics
    /\ let revenue_chart := fst (plot_category_distribution metrics top_n) in
       let ticket_chart := snd (plot_category_distribution metrics top_n) in
       length revenue_chart
       = (if (0 <=? top_n)%Z then Nat.min (Z.to_nat top_n) (length metrics)
          else (length metrics - Z.to_nat (- top_n))%nat)
       /\ List.map fst revenue_chart = List.map fst ticket_chart
       /\ forall i shown,
            (i < length revenue_chart)%nat -> metrics !! i = Some shown ->
            revenue_chart !! i
            = Some (MetricsDF.normalized_category shown,
                    MetricsDF.revenue_share shown)
            /\ ticket_chart !! i
               = Some (MetricsDF.normalized_category shown,
                       MetricsDF.avg_ticket shown)
            /\ forall j hidden,
                 (length revenue_chart <= j)%nat ->
                 metrics !! j = Some hidden ->
                 (MetricsDF.total_revenue hidden
                  <= MetricsDF.total_revenue shown)%Q.
Proof.
  exists (category_metrics items_df products_df).
  split; [apply calculate_category_metrics_init|].
  unfold plot_category_distribution. cbn [fst snd].
  set (metrics := category_metrics items_df products_df).
  rewrite length_map.
  split; [apply length_head_rows|].
  split; [now rewrite !map_map|].
  intros i shown Hi Hshown.
  rewrite <- (lookup_head_rows top_n metrics i Hi) in Hshown.
  split; [|split].
  - change (@List.map) with (@fmap list _). now rewrite list_lookup_fmap, Hshown.
  - change (@List.map) with (@fmap list _). now rewrite list_lookup_fmap, Hshown.
  - intros j hidden Hj Hhidden.
    rewrite (lookup_head_rows top_n metrics i Hi) in Hshown.
    unfold metrics, category_metrics in Hshown, Hhidden.
    eapply (sorted_lookup MetricsDF.total_revenue);
      [apply sort_values_desc_sorted | exact Hshown | exact Hhidden | lia].
Qed.

(** ** A run of [main] *)

Lemma main_stops_at_the_report {xlsx : Type}
    (to_excel : list MappingDF.row -> xlsx)
    (read_excel : xlsx -> list MappingDF.row)
    (fsqrt : Q -> Q) (to_period_M : Z -> Z)
    (fs : gmap string xlsx) (data_loader : OlistDataLoader)
    (items_df : list ItemsDF.row) (reports_path : string) :
  main to_excel read_excel fsqrt to_period_M fs data_loader items_df reports_path
  = match prepare_product_categories to_excel read_excel fs data_loader with
    | Ok _ => Raise (AttributeError "datasets")
    | Raise e => Raise e
    end.
Proof.
  unfold main.
  destruct (prepare_product_categories to_excel read_excel fs data_loader)
    as [[[rows fs1] loader1]|e]; [|reflexivity].
  cbn [bind fst]. rewrite calculate_category_metrics_init. cbn [bind].
  unfold generate_detailed_excel_report.
  rewrite calculate_category_metrics_init. cbn [bind].
  unfold analyze_sales_by_month, getattr.
  rewrite lookup_init_items_df, lookup_init_products_df.
  cbn [bind items_columns product_columns].
  rewrite lookup_init_other by discriminate. reflexivity.
Qed.

(** A run of [main] never completes, whatever the tables hold.  When the
    loader holds the products and the categories table, the run computes the
    category table and the charts and then stops in
    [generate_detailed_excel_report] with [AttributeError] for [datasets]. *)
Theorem main_never_completes {xlsx : Type}
    (to_excel : list MappingDF.row -> xlsx)
    (read_excel : xlsx -> list MappingDF.row)
    (fsqrt : Q -> Q) (to_period_M : Z -> Z)
    (fs : gmap string xlsx) (data_loader : OlistDataLoader)
    (items_df : list ItemsDF.row) (reports_path : string) :
  raises (main to_excel read_excel fsqrt to_period_M fs data_loader items_df
            reports_path)
  /\ forall products_df categories_df,
       loaded data_loader products_df categories_df ->
       main to_excel read_excel fsqrt to_period_M fs data_loader items_df
         reports_path
       = Raise (AttributeError "datasets").
Proof.
  rewrite main_stops_at_the_report. split.
  - now destruct (prepare_product_categories to_excel read_excel fs data_loader).
  - intros products_df categories_df Hl.
    rewrite (prepare_product_categories_loaded to_excel read_excel fs
               data_loader products_df categories_df Hl).
    cbv zeta. now destruct (fs !! _).
Qed.

(** * Further runs on small tables *)

(** A lookup on a mapper that has not loaded its file yet: the file is read
    once, and the mapper keeps its table. *)
Lemma get_normalized_category_caches_on_file :
  let self := CategoryMapper__init__ "Olist/category_mapping.xlsx" in
  let self' :=
    {| mapping_file := "Olist/category_mapping.xlsx";
       mapping_df := Some (mapping_data run_categories) |} in
  get_normalized_category read_workbook run_files self (Some "brinquedos")
  = Ok (Some "Toys", self')
  /\ mapping_file self' = mapping_file self
  /\ (forall df, mapping_df self = Some df -> self' = self)
  /\ exists df,
       mapping_df self' = Some df
       /\ forall (fs' : gmap string workbook) raw',
            get_normalized_category read_workbook fs' self' raw'
            = Ok (lookup_mapping df raw', self').
Proof.
  intros self self'. split; [reflexivity|].
  apply (get_normalized_category_caches read_workbook run_files self self'
           (Some "brinquedos") (Some "Toys")).
  reflexivity.
Defined.

(** The first run of [run_loader], with no file on disk: the three products
    are kept. *)
Lemma prepare_product_categories_keeps_products_on_run :
  loaded run_loader run_products run_categories
  /\ exists rows fs' self',
       prepare_product_categories write_workbook read_workbook ∅ run_loader
       = Ok (rows, fs', self')
       /\ (forall p, p ∈ run_products ->
             exists r, r ∈ rows
               /\ ProductCategoriesDF.product_id r = ProductsDF.product_id p
               /\ ProductCategoriesDF.product_category_name r
                  = ProductsDF.product_category_name p)
       /\ (forall r, r ∈ rows ->
             exists p, p ∈ run_products
               /\ ProductCategoriesDF.product_id r = ProductsDF.product_id p
               /\ ProductCategoriesDF.product_category_name r
                  = ProductsDF.product_category_name p)
       /\ (NoDup (List.map CategoriesDF.product_category_name run_categories) ->
           List.map ProductCategoriesDF.product_id rows
           = List.map ProductsDF.product_id run_products
           /\ List.map ProductCategoriesDF.product_category_name rows
              = List.map ProductsDF.product_category_name run_products).
Proof.
  assert (loaded run_loader run_products run_categories) as Hl
    by (split; reflexivity).
  split; [exact Hl|].
  apply (prepare_product_categories_keeps_products write_workbook read_workbook
           ∅ run_loader run_products run_categories Hl).
Defined.

(** A later run of [run_loader], with the mapping file on disk. *)
Lemma prepare_product_categories_uses_mapping_file_on_run :
  loaded run_loader run_products run_categories
  /\ run_files !! mapping_file (category_mapper run_loader)
     = Some (mapping_data run_categories)
  /\ exists rows self',
       prepare_product_categories write_workbook read_workbook run_files
         run_loader
       = Ok (rows, run_files, self')
       /\ mapping_df (category_mapper self')
          = Some (read_workbook (mapping_data run_categories))
       /\ mapping_file (category_mapper self')
          = mapping_file (category_mapper run_loader)
       /\ datasets self' = datasets run_loader
       /\ forall r, r ∈ rows ->
            ProductCategoriesDF.normalized_category r
            = lookup_mapping (read_workbook (mapping_data run_categories))
                (ProductCategoriesDF.product_category_name r).
Proof.
  assert (loaded run_loader run_products run_categories) as Hl
    by (split; reflexivity).
  split; [exact Hl|]. split; [reflexivity|].
  apply (prepare_product_categories_uses_mapping_file write_workbook
           read_workbook run_files run_loader run_products run_categories
           (mapping_data run_categories) Hl).
  reflexivity.
Defined.

(** The first run of [run_loader]: the mapping file is created. *)
Lemma prepare_product_categories_creates_mapping_file_on_run :
  loaded run_loader run_products run_categories
  /\ (∅ : gmap string workbook) !! mapping_file (category_mapper run_loader)
     = None
  /\ exists rows fs' self',
       prepare_product_categories write_workbook read_workbook ∅ run_loader
       = Ok (rows, fs', self')
       /\ fs' !! mapping_file (category_mapper run_loader)
          = Some (write_workbook (drop_duplicates (mapping_data run_categories)))
       /\ (forall path, path <> mapping_file (category_mapper run_loader) ->
             fs' !! path = (∅ : gmap string workbook) !! path)
       /\ mapping_df (category_mapper self')
          = Some (drop_duplicates (mapping_data run_categories))
       /\ (forall r, r ∈ rows ->
             ProductCategoriesDF.normalized_category r
             = Some (first_translation run_categories
                       (ProductCategoriesDF.product_category_name r)))
       /\ (forall r, r ∈ rows ->
             ProductCategoriesDF.product_category_name r = None ->
             ProductCategoriesDF.normalized_category r = Some "Unknown").
Proof.
  assert (loaded run_loader run_products run_categories) as Hl
    by (split; reflexivity).
  split; [exact Hl|]. split; [reflexivity|].
  apply (prepare_product_categories_creates_mapping_file write_workbook
           read_workbook ∅ run_loader run_products run_categories Hl).
  reflexivity.
Defined.

(** [run_loader] run twice, and a second loader on the same tables. *)
Lemma prepare_product_categories_twice_on_run :
  loaded run_loader run_products run_categories
  /\ mapping_file (category_mapper run_loader)
     = mapping_file (category_mapper run_loader)
  /\ (∅ : gmap string workbook) !! mapping_file (category_mapper run_loader)
     = None
  /\ read_workbook
       (write_workbook (drop_duplicates (mapping_data run_categories)))
     = drop_duplicates (mapping_data run_categories)
  /\ exists rows fs' self' other',
       prepare_product_categories write_workbook read_workbook ∅ run_loader
       = Ok (rows, fs', self')
       /\ prepare_product_categories write_workbook read_workbook fs' self'
          = Ok (rows, fs', self')
       /\ prepare_product_categories write_workbook read_workbook fs' run_loader
          = Ok (rows, fs', other').
Proof.
  assert (loaded run_loader run_products run_categories) as Hl
    by (split; reflexivity).
  split; [exact Hl|]. do 3 (split; [reflexivity|]).
  apply (prepare_product_categories_twice write_workbook read_workbook ∅
           run_loader run_loader run_products run_categories Hl Hl);
    reflexivity.
Defined.

(** The first run of [run_loader]: its translation table has one row. *)
Lemma prepare_product_categories_labels_translation_on_run :
  loaded run_loader run_products run_categories
  /\ (∅ : gmap string workbook) !! mapping_file (category_mapper run_loader)
     = None
  /\ NoDup (List.map CategoriesDF.product_category_name run_categories)
  /\ exists rows fs' self',
       prepare_product_categories write_workbook read_workbook ∅ run_loader
       = Ok (rows, fs', self')
       /\ forall r, r ∈ rows ->
            ProductCategoriesDF.product_category_name r <> None ->
            ProductCategoriesDF.normalized_category r
            = Some (normalize_label
                      (ProductCategoriesDF.product_category_name_english r)).
Proof.
  assert (loaded run_loader run_products run_categories) as Hl
    by (split; reflexivity).
  assert (NoDup (List.map CategoriesDF.product_category_name run_categories))
    as Hnd by apply NoDup_singleton.
  split; [exact Hl|]. split; [reflexivity|]. split; [exact Hnd|].
  apply (prepare_product_categories_labels_translation write_workbook
           read_workbook ∅ run_loader run_products run_categories Hl);
    [reflexivity | exact Hnd].
Defined.

(** The shares of the three categories of [tie_items], whose prices are 10,
    10 and 5. *)
Lemma revenue_share_is_a_percentage_on_ties :
  let metrics := category_metrics tie_items tie_products in
  calculate_category_metrics
    (OlistAnalyzer__init__ tie_products tie_items "reports") = Ok metrics
  /\ (forall i, i ∈ tie_items -> (0 <= ItemsDF.price i)%Q)
  /\ ~ (Series_sum (List.map MetricsDF.total_revenue metrics) == 0)%Q
  /\ forall r, r ∈ metrics ->
       (0 <= MetricsDF.total_revenue r)%Q
       /\ exists q, MetricsDF.revenue_share r = Fin q /\ (0 <= q <= 100)%Q.
Proof.
  intros metrics.
  assert (forall i, i ∈ tie_items -> (0 <= ItemsDF.price i)%Q) as Hprices.
  { intros i Hi. unfold tie_items in Hi.
    repeat (apply elem_of_cons in Hi as [->|Hi]; [vm_compute; discriminate|]).
    inversion Hi. }
  assert (~ (Series_sum (List.map MetricsDF.total_revenue metrics) == 0)%Q)
    as Hnz by (vm_compute; discriminate).
  split; [reflexivity|]. split; [exact Hprices|]. split; [exact Hnz|].
  apply (revenue_share_is_a_percentage tie_products tie_items "reports" metrics);
    [reflexivity | exact Hprices | exact Hnz].
Defined.

(** The ranks of the three categories of [ranked_items], whose revenues are
    30, 20 and 5. *)
Lemma revenue_rank_without_ties_on_ranked :
  let metrics := category_metrics ranked_items tie_products in
  calculate_category_metrics
    (OlistAnalyzer__init__ tie_products ranked_items "reports") = Ok metrics
  /\ no_ties MetricsDF.total_revenue metrics
  /\ forall i r, metrics !! i = Some r ->
       (MetricsDF.revenue_rank r == float_of_count (S i))%Q
       /\ (MetricsDF.revenue_rank r
           == dense_rank (List.map MetricsDF.total_revenue metrics)
                (MetricsDF.total_revenue r))%Q.
Proof.
  intros metrics.
  assert (no_ties MetricsDF.total_revenue metrics) as Hno.
  { intros i j ri rj Hi Hj E.
    destruct i as [|[|[|i]]], j as [|[|[|j]]]; try reflexivity;
      vm_compute in Hi, Hj; try discriminate;
      injection Hi as <-; injection Hj as <-; vm_compute in E; discriminate. }
  split; [reflexivity|]. split; [exact Hno|].
  apply (revenue_rank_without_ties tie_products ranked_items "reports" metrics);
    [reflexivity | exact Hno].
Defined.

(** The popularity scores of the three categories of [tie_items]. *)
Lemma popularity_score_bounds_on_ties :
  let self := OlistAnalyzer__init__ tie_products tie_items "reports" in
  let metrics := category_metrics tie_items tie_products in
  let popularity := category_popularity metrics in
  calculate_category_metrics self = Ok metrics
  /\ analyze_category_popularity self = Ok popularity
  /\ (forall i, i ∈ tie_items -> (0 <= ItemsDF.price i)%Q)
  /\ ~ (Series_sum (List.map MetricsDF.total_revenue metrics) == 0)%Q
  /\ forall p, p ∈ popularity ->
       exists s, PopularityDF.popularity_score p = Fin s /\ (0 < s <= 1)%Q.
Proof.
  intros self metrics popularity.
  assert (forall i, i ∈ tie_items -> (0 <= ItemsDF.price i)%Q) as Hprices.
  { intros i Hi. unfold tie_items in Hi.
    repeat (apply elem_of_cons in Hi as [->|Hi]; [vm_compute; discriminate|]).
    inversion Hi. }
  assert (~ (Series_sum (List.map MetricsDF.total_revenue metrics) == 0)%Q)
    as Hnz by (vm_compute; discriminate).
  split; [reflexivity|]. split; [reflexivity|].
  split; [exact Hprices|]. split; [exact Hnz|].
  apply (popularity_score_bounds tie_products tie_items "reports" metrics
           popularity);
    [reflexivity | reflexivity | exact Hprices | exact Hnz].
Defined.
